(** * OrbitEOS device simulators: a shallow embedding and its properties

    The development follows [orbiteos-simulators/src]: the register
    encoders of [main.py], the battery, EV charger and grid meter models,
    the solar model, and the orchestrating [update_loop].

    Numbers.  Python integers are [Z].  Python floats are idealised as
    exact numbers: rationals [Q] in the battery, charger, grid and
    orchestrator models (they use field operations, comparisons and
    decimal rounding only, so the models run), real numbers [R] in the
    solar model (which needs [sin] and [asin]).  Nothing below speaks
    about binary64 rounding, infinities or NaN.

    Environment.  [random.uniform], [random.gauss], [time.time()] and
    [datetime.now()] are inputs of the operation that calls them.

    Errors.  The one exception the modelled arithmetic can raise is
    [ZeroDivisionError]; a method that mutates [self] is a computation in
    a state-and-exception monad, so that the state reached when an
    exception escapes is part of the model. *)

From Stdlib Require Import ZArith QArith Qabs Qround Bool List String Lia.
From Stdlib Require Import Reals Psatz.
Import ListNotations.

(* ------------------------------------------------------------------ *)
(** * Python numbers and control effects *)
(* ------------------------------------------------------------------ *)

Local Open Scope Q_scope.

(** Comparisons as the booleans Python's [<], [<=], [>], [>=] return. *)
Definition Qltb (a b : Q) : bool := negb (Qle_bool b a).
Definition Qleb (a b : Q) : bool := Qle_bool a b.
Definition Qgtb (a b : Q) : bool := Qltb b a.
Definition Qgeb (a b : Q) : bool := Qleb b a.
Definition Qneqb (a b : Q) : bool := negb (Qeq_bool a b).

Infix "<?" := Qltb (at level 70, no associativity) : Q_scope.
Infix "<=?" := Qleb (at level 70, no associativity) : Q_scope.
Infix ">?" := Qgtb (at level 70, no associativity) : Q_scope.
Infix ">=?" := Qgeb (at level 70, no associativity) : Q_scope.
Infix "=?" := Qeq_bool (at level 70, no associativity) : Q_scope.
Infix "!=?" := Qneqb (at level 70, no associativity) : Q_scope.

(** [max(a, b)] keeps its first argument unless the second is strictly
    greater; [min(a, b)] keeps it unless the second is strictly less. *)
Definition py_max (a b : Q) : Q := if b >? a then b else a.
Definition py_min (a b : Q) : Q := if b <? a then b else a.

(** [int(x)]: truncation toward zero. *)
Definition py_int (x : Q) : Z := if 0 <=? x then Qfloor x else Qceiling x.

(** Nearest integer, ties to the even one. *)
Definition round_half_even (x : Q) : Z :=
  let f := Qfloor x in
  match Qcompare (x - inject_Z f) (1 # 2) with
  | Lt => f
  | Gt => (f + 1)%Z
  | Eq => if Z.even f then f else (f + 1)%Z
  end.

(** [round(x, ndigits)] on exact numbers. *)
Definition py_round (x : Q) (ndigits : nat) : Q :=
  let scale := inject_Z (10 ^ Z.of_nat ndigits) in
  Qred (inject_Z (round_half_even (x * scale)) / scale).

(** ** Exceptions and mutable [self] *)

Inductive exn : Set :=
| ZeroDivisionError
| ValueError.

Inductive result (A : Type) : Type :=
| Ok (a : A)
| Raise (e : exn).
Arguments Ok {A} a.
Arguments Raise {A} e.

(** A method body: from the object's state to the state it leaves behind
    and either its return value or the exception that escaped. *)
Definition Exec (S A : Type) : Type := S -> S * result A.

Definition ret {S A : Type} (a : A) : Exec S A := fun s => (s, Ok a).

Definition raise {S A : Type} (e : exn) : Exec S A := fun s => (s, Raise e).

Definition bind {S A B : Type} (m : Exec S A) (k : A -> Exec S B) : Exec S B :=
  fun s =>
    match m s with
    | (s', Ok a) => k a s'
    | (s', Raise e) => (s', Raise e)
    end.

Definition get {S : Type} : Exec S S := fun s => (s, Ok s).

Definition gets {S A : Type} (f : S -> A) : Exec S A := fun s => (s, Ok (f s)).

Definition modify {S : Type} (f : S -> S) : Exec S unit := fun s => (f s, Ok tt).

(** Run a method of a member object inside the owner's state. *)
Definition zoom {S T A : Type} (proj : S -> T) (inj : T -> S -> S)
    (m : Exec T A) : Exec S A :=
  fun s =>
    match m (proj s) with
    | (t', r) => (inj t' s, r)
    end.

Declare Scope exec_scope.
Delimit Scope exec_scope with exec.
Notation "x <- m ;; k" := (bind m (fun x => k))
  (at level 61, m at next level, right associativity) : exec_scope.
Notation "m ;; k" := (bind m (fun _ => k))
  (at level 61, right associativity) : exec_scope.

(** Float division: raises on a zero divisor. *)
Definition py_div {S : Type} (a b : Q) : Exec S Q :=
  if b =? 0 then raise ZeroDivisionError else ret (a / b).

(** ** The math library

    [math.sqrt] is kept abstract: the models are stated for any
    implementation of it.  [sqrt_digits] is one that runs, the square
    root cut after nine decimals. *)
Class MathLib : Type := { math_sqrt : Q -> Q }.

Definition sqrt_digits (x : Q) : Q :=
  Qred (inject_Z (Z.sqrt (Qfloor (x * inject_Z (10 ^ 18)))) / inject_Z (10 ^ 9)).

Definition decimal_math : MathLib := {| math_sqrt := sqrt_digits |}.

(** [math.sqrt(x)] raises [ValueError] below zero. *)
Definition py_sqrt {ML : MathLib} {S : Type} (x : Q) : Exec S Q :=
  if x <? 0 then raise ValueError else ret (math_sqrt x).

Definition state_of {S A : Type} (p : S * result A) : S := fst p.
Definition outcome_of {S A : Type} (p : S * result A) : result A := snd p.

(* ------------------------------------------------------------------ *)
(** * Register encoding ([main.py], [ModbusSimulatorServer]) *)
(* ------------------------------------------------------------------ *)

Module Registers.
Local Open Scope Z_scope.

(** [_int32_to_registers]: a negative value is shifted by 2^32, then the
    value is split into its high and low 16-bit halves. *)
Definition _int32_to_registers (value : Z) : Z * Z :=
  let value := if value <? 0 then value + 0x100000000 else value in
  (Z.land (Z.shiftr value 16) 0xFFFF, Z.land value 0xFFFF).

(** [_uint32_to_registers]: the value is masked to 32 bits, then split.
    ([int(value)] is the identity on an integer.) *)
Definition _uint32_to_registers (value : Z) : Z * Z :=
  let value := Z.land value 0xFFFFFFFF in
  (Z.land (Z.shiftr value 16) 0xFFFF, Z.land value 0xFFFF).

(** The source has no decoder.  These two follow the reading rule of the
    register map: the pair is recombined high word first, and a signed
    field reinterprets the 32-bit pattern as two's complement. *)
Definition decode_uint32 (regs : Z * Z) : Z :=
  Z.lor (Z.shiftl (fst regs) 16) (snd regs).

Definition decode_int32 (regs : Z * Z) : Z :=
  let u := decode_uint32 regs in
  if 0x80000000 <=? u then u - 0x100000000 else u.

Definition INT32_MIN : Z := - 0x80000000.
Definition INT32_MAX : Z := 0x7FFFFFFF.
Definition UINT32_MAX : Z := 0xFFFFFFFF.

(** What an encoder that saturates would store for [v]. *)
Definition clamp_int32 (v : Z) : Z := Z.max INT32_MIN (Z.min INT32_MAX v).
Definition clamp_uint32 (v : Z) : Z := Z.max 0 (Z.min UINT32_MAX v).

Definition is_register (r : Z) : Prop := 0 <= r <= 0xFFFF.

End Registers.

(* ------------------------------------------------------------------ *)
(** * Battery model ([battery_simulator.py], [BatterySimulator]) *)
(* ------------------------------------------------------------------ *)

Module Battery.
Local Open Scope Q_scope.
Local Open Scope exec_scope.

Definition DEFAULT_CAPACITY_KWH : Q := 13.5.
Definition DEFAULT_MAX_POWER_KW : Q := 5.0.
Definition PEAK_POWER_KW : Q := 7.0.
Definition NOMINAL_VOLTAGE : Q := 50.0.
Definition MIN_VOLTAGE : Q := 42.0.
Definition MAX_VOLTAGE : Q := 57.6.
Definition CHARGE_EFFICIENCY : Q := 0.95.
Definition DISCHARGE_EFFICIENCY : Q := 0.95.
Definition ROUND_TRIP_EFFICIENCY : Q := 0.90.
Definition MIN_SOC : Q := 5.0.
Definition MAX_SOC : Q := 100.0.
Definition LOW_SOC_THRESHOLD : Q := 20.0.
Definition OPTIMAL_TEMP_MIN : Q := 15.0.
Definition OPTIMAL_TEMP_MAX : Q := 25.0.
Definition AMBIENT_TEMP : Q := 20.0.

(** The attributes of a [BatterySimulator] instance. *)
Record t : Type := {
  capacity_kwh : Q;
  max_power_kw : Q;
  soc : Q;
  min_soc : Q;
  max_soc : Q;
  power_kw : Q;
  voltage : Q;
  current : Q;
  temperature : Q;
  total_charged_kwh : Q;
  total_discharged_kwh : Q;
  cycle_count : Q;
  is_charging : bool;
  is_discharging : bool
}.

(** Attribute assignment, one function per assigned attribute. *)
Definition with_soc (v : Q) (self : t) : t :=
  {| capacity_kwh := capacity_kwh self; max_power_kw := max_power_kw self;
     soc := v; min_soc := min_soc self; max_soc := max_soc self;
     power_kw := power_kw self; voltage := voltage self;
     current := current self; temperature := temperature self;
     total_charged_kwh := total_charged_kwh self;
     total_discharged_kwh := total_discharged_kwh self;
     cycle_count := cycle_count self; is_charging := is_charging self;
     is_discharging := is_discharging self |}.

Definition with_power_kw (v : Q) (self : t) : t :=
  {| capacity_kwh := capacity_kwh self; max_power_kw := max_power_kw self;
     soc := soc self; min_soc := min_soc self; max_soc := max_soc self;
     power_kw := v; voltage := voltage self; current := current self;
     temperature := temperature self;
     total_charged_kwh := total_charged_kwh self;
     total_discharged_kwh := total_discharged_kwh self;
     cycle_count := cycle_count self; is_charging := is_charging self;
     is_discharging := is_discharging self |}.

Definition with_voltage (v : Q) (self : t) : t :=
  {| capacity_kwh := capacity_kwh self; max_power_kw := max_power_kw self;
     soc := soc self; min_soc := min_soc self; max_soc := max_soc self;
     power_kw := power_kw self; voltage := v; current := current self;
     temperature := temperature self;
     total_charged_kwh := total_charged_kwh self;
     total_discharged_kwh := total_discharged_kwh self;
     cycle_count := cycle_count self; is_charging := is_charging self;
     is_discharging := is_discharging self |}.

Definition with_current (v : Q) (self : t) : t :=
  {| capacity_kwh := capacity_kwh self; max_power_kw := max_power_kw self;
     soc := soc self; min_soc := min_soc self; max_soc := max_soc self;
     power_kw := power_kw self; voltage := voltage self; current := v;
     temperature := temperature self;
     total_charged_kwh := total_charged_kwh self;
     total_discharged_kwh := total_discharged_kwh self;
     cycle_count := cycle_count self; is_charging := is_charging self;
     is_discharging := is_discharging self |}.

Definition with_temperature (v : Q) (self : t) : t :=
  {| capacity_kwh := capacity_kwh self; max_power_kw := max_power_kw self;
     soc := soc self; min_soc := min_soc self; max_soc := max_soc self;
     power_kw := power_kw self; voltage := voltage self;
     current := current self; temperature := v;
     total_charged_kwh := total_charged_kwh self;
     total_discharged_kwh := total_discharged_kwh self;
     cycle_count := cycle_count self; is_charging := is_charging self;
     is_discharging := is_discharging self |}.

Definition with_total_charged_kwh (v : Q) (self : t) : t :=
  {| capacity_kwh := capacity_kwh self; max_power_kw := max_power_kw self;
     soc := soc self; min_soc := min_soc self; max_soc := max_soc self;
     power_kw := power_kw self; voltage := voltage self;
     current := current self; temperature := temperature self;
     total_charged_kwh := v;
     total_discharged_kwh := total_discharged_kwh self;
     cycle_count := cycle_count self; is_charging := is_charging self;
     is_discharging := is_discharging self |}.

Definition with_total_discharged_kwh (v : Q) (self : t) : t :=
  {| capacity_kwh := capacity_kwh self; max_power_kw := max_power_kw self;
     soc := soc self; min_soc := min_soc self; max_soc := max_soc self;
     power_kw := power_kw self; voltage := voltage self;
     current := current self; temperature := temperature self;
     total_charged_kwh := total_charged_kwh self;
     total_discharged_kwh := v; cycle_count := cycle_count self;
     is_charging := is_charging self;
     is_discharging := is_discharging self |}.

Definition with_cycle_count (v : Q) (self : t) : t :=
  {| capacity_kwh := capacity_kwh self; max_power_kw := max_power_kw self;
     soc := soc self; min_soc := min_soc self; max_soc := max_soc self;
     power_kw := power_kw self; voltage := voltage self;
     current := current self; temperature := temperature self;
     total_charged_kwh := total_charged_kwh self;
     total_discharged_kwh := total_discharged_kwh self; cycle_count := v;
     is_charging := is_charging self;
     is_discharging := is_discharging self |}.

Definition with_is_charging (v : bool) (self : t) : t :=
  {| capacity_kwh := capacity_kwh self; max_power_kw := max_power_kw self;
     soc := soc self; min_soc := min_soc self; max_soc := max_soc self;
     power_kw := power_kw self; voltage := voltage self;
     current := current self; temperature := temperature self;
     total_charged_kwh := total_charged_kwh self;
     total_discharged_kwh := total_discharged_kwh self;
     cycle_count := cycle_count self; is_charging := v;
     is_discharging := is_discharging self |}.

Definition with_is_discharging (v : bool) (self : t) : t :=
  {| capacity_kwh := capacity_kwh self; max_power_kw := max_power_kw self;
     soc := soc self; min_soc := min_soc self; max_soc := max_soc self;
     power_kw := power_kw self; voltage := voltage self;
     current := current self; temperature := temperature self;
     total_charged_kwh := total_charged_kwh self;
     total_discharged_kwh := total_discharged_kwh self;
     cycle_count := cycle_count self; is_charging := is_charging self;
     is_discharging := v |}.

(** The dictionary [get_status] returns. *)
Record Status : Type := {
  st_soc : Q;
  st_power_kw : Q;
  st_voltage : Q;
  st_current : Q;
  st_temperature : Q;
  st_capacity_kwh : Q;
  st_remaining_kwh : Q;
  st_hours_remaining : Q;
  st_is_charging : bool;
  st_is_discharging : bool;
  st_max_charge_power_kw : Q;
  st_max_discharge_power_kw : Q;
  st_total_charged_kwh : Q;
  st_total_discharged_kwh : Q;
  st_cycle_count : Q;
  st_health : Q;
  st_state : string
}.

(** [_calculate_voltage]; [variation] is the draw of
    [random.uniform(0.995, 1.005)]. *)
Definition _calculate_voltage (self : t) (variation : Q) : Q :=
  let voltage_range := MAX_VOLTAGE - MIN_VOLTAGE in
  let voltage := MIN_VOLTAGE + (soc self / 100.0) * voltage_range in
  py_round (voltage * variation) 2.

(** [_calculate_temperature]: divides by [max_power_kw]. *)
Definition _calculate_temperature (power_kw dt_seconds : Q) : Exec t Q :=
  self <- get ;;
  heat_factor <- py_div (Qabs power_kw) (max_power_kw self) ;;
  let heat_generation := heat_factor * 0.5 in
  let temp_diff := temperature self - AMBIENT_TEMP in
  let cooling := temp_diff * 0.01 in
  let new_temp :=
    temperature self + (heat_generation - cooling) * (dt_seconds / 60.0) in
  ret (py_max 5.0 (py_min 45.0 new_temp)).

(** [_get_efficiency]. *)
Definition _get_efficiency (self : t) (is_charging : bool) : Q :=
  let base_efficiency :=
    if is_charging then CHARGE_EFFICIENCY else DISCHARGE_EFFICIENCY in
  let temp_factor :=
    if temperature self <? OPTIMAL_TEMP_MIN then
      1.0 - (OPTIMAL_TEMP_MIN - temperature self) * 0.005
    else if temperature self >? OPTIMAL_TEMP_MAX then
      1.0 - (temperature self - OPTIMAL_TEMP_MAX) * 0.003
    else 1.0 in
  let soc_factor :=
    if is_charging && (soc self >? 90) then
      1.0 - (soc self - 90) * 0.01
    else if negb is_charging && (soc self <? 20) then
      1.0 - (20 - soc self) * 0.01
    else 1.0 in
  base_efficiency * temp_factor * soc_factor.

(** [_get_power_limit].  The second test of each [if]/[elif] pair is
    written as in the source, where the first test shadows it. *)
Definition _get_power_limit (self : t) (is_charging : bool) : Q :=
  let max_power := max_power_kw self in
  let max_power :=
    if is_charging then
      if soc self >? 90 then max_power * ((100 - soc self) / 10.0)
      else if soc self >? 95 then max_power * 0.2
      else max_power
    else
      if soc self <? 15 then max_power * (soc self / 15.0)
      else if soc self <? 10 then max_power * 0.2
      else max_power in
  if temperature self >? 40 then max_power * 0.5
  else if temperature self >? 35 then max_power * 0.8
  else if temperature self <? 5 then max_power * 0.3
  else if temperature self <? 10 then max_power * 0.7
  else max_power.

(** [_calculate_health]. *)
Definition _calculate_health (self : t) : Q :=
  let degradation := cycle_count self / 5000.0 * 20 in
  py_max 80.0 (100.0 - degradation).

(** [_get_state_string]. *)
Definition _get_state_string (self : t) : string :=
  if is_charging self then "charging"%string
  else if is_discharging self then "discharging"%string
  else if soc self >=? max_soc self then "full"%string
  else if soc self <=? min_soc self then "empty"%string
  else "standby"%string.

(** [get_status]: every division is guarded by a test on its divisor. *)
Definition get_status (self : t) : Status :=
  let usable_soc := py_max 0 (soc self - min_soc self) in
  let remaining_kwh := (usable_soc / 100.0) * capacity_kwh self in
  let hours_remaining :=
    if is_discharging self && (power_kw self >? 0) then
      remaining_kwh / power_kw self
    else if is_charging self && (power_kw self <? 0) then
      let energy_to_full :=
        ((max_soc self - soc self) / 100.0) * capacity_kwh self in
      if power_kw self !=? 0 then energy_to_full / Qabs (power_kw self)
      else 0
    else 0 in
  {| st_soc := py_round (soc self) 1;
     st_power_kw := py_round (power_kw self) 3;
     st_voltage := py_round (voltage self) 2;
     st_current := py_round (current self) 2;
     st_temperature := py_round (temperature self) 1;
     st_capacity_kwh := capacity_kwh self;
     st_remaining_kwh := py_round remaining_kwh 2;
     st_hours_remaining := py_round hours_remaining 2;
     st_is_charging := is_charging self;
     st_is_discharging := is_discharging self;
     st_max_charge_power_kw := _get_power_limit self true;
     st_max_discharge_power_kw := _get_power_limit self false;
     st_total_charged_kwh := py_round (total_charged_kwh self) 2;
     st_total_discharged_kwh := py_round (total_discharged_kwh self) 2;
     st_cycle_count := py_round (cycle_count self) 1;
     st_health := _calculate_health self;
     st_state := _get_state_string self |}.

(** [__init__]; [variation] is the draw taken by [_calculate_voltage]. *)
Definition init (capacity_kwh max_power_kw initial_soc min_soc max_soc : Q)
    (variation : Q) : t :=
  let self :=
    {| capacity_kwh := capacity_kwh; max_power_kw := max_power_kw;
       soc := py_max min_soc (py_min max_soc initial_soc);
       min_soc := min_soc; max_soc := max_soc;
       power_kw := 0.0; voltage := 0; current := 0.0;
       temperature := AMBIENT_TEMP;
       total_charged_kwh := 0.0; total_discharged_kwh := 0.0;
       cycle_count := 0.0; is_charging := false; is_discharging := false |} in
  with_voltage (_calculate_voltage self variation) self.

(** The step that limits the requested power, as [update] computes it
    from the state it is entered with. *)
Definition constrain_power (self : t) (requested_power_kw : Q) : Q :=
  let is_charging := requested_power_kw <? 0 in
  let max_charge_power := _get_power_limit self true in
  let max_discharge_power := _get_power_limit self false in
  if is_charging then
    if soc self >=? max_soc self then 0.0
    else py_max (- max_charge_power) requested_power_kw
  else
    if soc self <=? min_soc self then 0.0
    else py_min max_discharge_power requested_power_kw.

(** [update]; [variation] is the draw taken by [_calculate_voltage]. *)
Definition update (requested_power_kw dt_seconds : Q) (variation : Q)
    : Exec t Status :=
  self <- get ;;
  let is_charging := requested_power_kw <? 0 in
  let actual_power := constrain_power self requested_power_kw in
  let efficiency := _get_efficiency self is_charging in
  let dt_hours := dt_seconds / 3600.0 in
  (if is_charging then
     let energy_change_kwh := Qabs actual_power * dt_hours * efficiency in
     d <- py_div energy_change_kwh (capacity_kwh self) ;;
     modify (fun s => with_soc (soc s + d * 100) s) ;;
     modify (fun s =>
       with_total_charged_kwh (total_charged_kwh s + energy_change_kwh) s)
   else
     energy_change_kwh <- py_div (actual_power * dt_hours) efficiency ;;
     d <- py_div energy_change_kwh (capacity_kwh self) ;;
     modify (fun s => with_soc (soc s - d * 100) s) ;;
     modify (fun s =>
       with_total_discharged_kwh
         (total_discharged_kwh s + actual_power * dt_hours) s)) ;;
  modify (fun s =>
    with_soc (py_max (min_soc s) (py_min (max_soc s) (soc s))) s) ;;
  (if Qabs actual_power >? 0.1 then
     c <- py_div (Qabs actual_power * dt_hours) (2 * capacity_kwh self) ;;
     modify (fun s => with_cycle_count (cycle_count s + c) s)
   else ret tt) ;;
  modify (fun s => with_voltage (_calculate_voltage s variation) s) ;;
  modify (fun s =>
    with_current
      (if voltage s >? 0 then (actual_power * 1000) / voltage s else 0) s) ;;
  new_temp <- _calculate_temperature actual_power dt_seconds ;;
  modify (with_temperature new_temp) ;;
  modify (with_power_kw actual_power) ;;
  modify (with_is_charging (is_charging && (actual_power !=? 0))) ;;
  modify (with_is_discharging (negb is_charging && (actual_power !=? 0))) ;;
  gets get_status.

(** [set_soc]. *)
Definition set_soc (new_soc : Q) (variation : Q) : Exec t unit :=
  modify (fun s =>
    with_soc (py_max (min_soc s) (py_min (max_soc s) new_soc)) s) ;;
  modify (fun s => with_voltage (_calculate_voltage s variation) s).

(** One call a client of the class can make on an instance. *)
Inductive call : Type :=
| CallUpdate (requested_power_kw dt_seconds variation : Q)
| CallSetSoc (new_soc variation : Q).

Definition perform (c : call) (self : t) : t :=
  match c with
  | CallUpdate p dt v => state_of (update p dt v self)
  | CallSetSoc x v => state_of (set_soc x v self)
  end.

(** The states an instance goes through under a sequence of calls, the
    state each call leaves behind included when the call raised. *)
Fixpoint trace (calls : list call) (self : t) : list t :=
  match calls with
  | [] => []
  | c :: rest => perform c self :: trace rest (perform c self)
  end.

(** The invariant of an instance built with the bounds [lo] and [hi]:
    the bounds are the ones [__init__] stored, and [soc] is inside. *)
Definition inv (lo hi : Q) (self : t) : Prop :=
  min_soc self = lo /\ max_soc self = hi /\
  lo <= soc self /\ soc self <= hi.

(** The change of the state of charge, in percent, that a power
    [power] held over [dt_seconds] causes from the state [self], at the
    efficiency [update] uses for the request. *)
Definition soc_change_of_power (self : t) (requested_power_kw power : Q)
    (dt_seconds : Q) : Q :=
  let is_charging := requested_power_kw <? 0 in
  let efficiency := _get_efficiency self is_charging in
  let dt_hours := dt_seconds / 3600.0 in
  if is_charging then
    (Qabs power * dt_hours * efficiency / capacity_kwh self) * 100
  else
    - ((power * dt_hours / efficiency / capacity_kwh self) * 100).

(** The state of charge [update] has reached just before it clamps. *)
Definition unclamped_soc (self : t) (requested_power_kw dt_seconds : Q) : Q :=
  soc self
  + soc_change_of_power self requested_power_kw
      (constrain_power self requested_power_kw) dt_seconds.

(** Clamping changes the energy: the unclamped value is outside the
    bounds. *)
Definition clamping_changes_energy (self : t)
    (requested_power_kw dt_seconds : Q) : Prop :=
  unclamped_soc self requested_power_kw dt_seconds < min_soc self \/
  max_soc self < unclamped_soc self requested_power_kw dt_seconds.

(** The power left in [after] accounts for exactly the change of the
    state of charge between [before] and [after]. *)
Definition power_matches_energy (before after : t)
    (requested_power_kw dt_seconds : Q) : Prop :=
  soc after - soc before
  == soc_change_of_power before requested_power_kw (power_kw after) dt_seconds.

(** An instance in service: built with the capacity, the rating and the
    bounds given, with a temperature in the range
    [_calculate_temperature] keeps it in. *)
Definition in_service (capacity max_power lo hi : Q) (self : t) : Prop :=
  capacity_kwh self = capacity /\ max_power_kw self = max_power /\
  5 <= temperature self /\ temperature self <= 45 /\ inv lo hi self.

End Battery.

(* ------------------------------------------------------------------ *)
(** * EV charger model ([ev_simulator.py], [EVChargerSimulator]) *)
(* ------------------------------------------------------------------ *)

Module EV.
Local Open Scope Q_scope.
Local Open Scope exec_scope.

(** [ChargerStatus(IntEnum)]. *)
Inductive ChargerStatus : Set :=
| AVAILABLE
| PREPARING
| CHARGING
| SUSPENDED_EV
| SUSPENDED_EVSE
| FINISHING
| RESERVED
| UNAVAILABLE
| FAULTED.

Definition status_code (s : ChargerStatus) : Z :=
  match s with
  | AVAILABLE => 0
  | PREPARING => 1
  | CHARGING => 2
  | SUSPENDED_EV => 3
  | SUSPENDED_EVSE => 4
  | FINISHING => 5
  | RESERVED => 6
  | UNAVAILABLE => 7
  | FAULTED => 8
  end%Z.

Definition status_eqb (a b : ChargerStatus) : bool :=
  Z.eqb (status_code a) (status_code b).

Definition DEFAULT_MAX_POWER_KW : Q := 11.0.
Definition DEFAULT_VOLTAGE : Q := 400.0.
Definition DEFAULT_MAX_CURRENT : Q := 16.0.
Definition MIN_CURRENT : Q := 6.0.
Definition DEFAULT_VEHICLE_CAPACITY_KWH : Q := 60.0.
Definition DEFAULT_VEHICLE_SOC : Q := 30.0.
Definition TARGET_SOC : Q := 80.0.
Definition CHARGING_EFFICIENCY : Q := 0.92.

(** What one call reads from its surroundings: the clock
    ([time.time()], in seconds), the hour of [datetime.now()], and the
    draws of [random.uniform(20, 50)] and [random.uniform(0.98, 1.02)]. *)
Record Env : Type := {
  env_time : Q;
  env_hour : Z;
  env_arrival_soc : Q;
  env_variation : Q
}.

(** The attributes of an [EVChargerSimulator] instance; [session_start]
    is [None] or the clock value at which the session began. *)
Record t : Type := {
  max_power_kw : Q;
  vehicle_capacity_kwh : Q;
  arrival_hour : Z;
  departure_hour : Z;
  max_current : Q;
  current_limit : Q;
  status : ChargerStatus;
  power_w : Q;
  session_energy_wh : Q;
  total_energy_wh : Q;
  vehicle_connected : bool;
  vehicle_soc : Q;
  vehicle_target_soc : Q;
  session_start : option Q;
  last_update : Q
}.

(** Attribute assignment, one function per assigned attribute. *)
Definition with_current_limit (v : Q) (self : t) : t :=
  {| max_power_kw := max_power_kw self;
     vehicle_capacity_kwh := vehicle_capacity_kwh self;
     arrival_hour := arrival_hour self;
     departure_hour := departure_hour self;
     max_current := max_current self; current_limit := v;
     status := status self; power_w := power_w self;
     session_energy_wh := session_energy_wh self;
     total_energy_wh := total_energy_wh self;
     vehicle_connected := vehicle_connected self;
     vehicle_soc := vehicle_soc self;
     vehicle_target_soc := vehicle_target_soc self;
     session_start := session_start self;
     last_update := last_update self |}.

Definition with_status (v : ChargerStatus) (self : t) : t :=
  {| max_power_kw := max_power_kw self;
     vehicle_capacity_kwh := vehicle_capacity_kwh self;
     arrival_hour := arrival_hour self;
     departure_hour := departure_hour self;
     max_current := max_current self; current_limit := current_limit self;
     status := v; power_w := power_w self;
     session_energy_wh := session_energy_wh self;
     total_energy_wh := total_energy_wh self;
     vehicle_connected := vehicle_connected self;
     vehicle_soc := vehicle_soc self;
     vehicle_target_soc := vehicle_target_soc self;
     session_start := session_start self;
     last_update := last_update self |}.

Definition with_power_w (v : Q) (self : t) : t :=
  {| max_power_kw := max_power_kw self;
     vehicle_capacity_kwh := vehicle_capacity_kwh self;
     arrival_hour := arrival_hour self;
     departure_hour := departure_hour self;
     max_current := max_current self; current_limit := current_limit self;
     status := status self; power_w := v;
     session_energy_wh := session_energy_wh self;
     total_energy_wh := total_energy_wh self;
     vehicle_connected := vehicle_connected self;
     vehicle_soc := vehicle_soc self;
     vehicle_target_soc := vehicle_target_soc self;
     session_start := session_start self;
     last_update := last_update self |}.

Definition with_session_energy_wh (v : Q) (self : t) : t :=
  {| max_power_kw := max_power_kw self;
     vehicle_capacity_kwh := vehicle_capacity_kwh self;
     arrival_hour := arrival_hour self;
     departure_hour := departure_hour self;
     max_current := max_current self; current_limit := current_limit self;
     status := status self; power_w := power_w self;
     session_energy_wh := v; total_energy_wh := total_energy_wh self;
     vehicle_connected := vehicle_connected self;
     vehicle_soc := vehicle_soc self;
     vehicle_target_soc := vehicle_target_soc self;
     session_start := session_start self;
     last_update := last_update self |}.

Definition with_total_energy_wh (v : Q) (self : t) : t :=
  {| max_power_kw := max_power_kw self;
     vehicle_capacity_kwh := vehicle_capacity_kwh self;
     arrival_hour := arrival_hour self;
     departure_hour := departure_hour self;
     max_current := max_current self; current_limit := current_limit self;
     status := status self; power_w := power_w self;
     session_energy_wh := session_energy_wh self; total_energy_wh := v;
     vehicle_connected := vehicle_connected self;
     vehicle_soc := vehicle_soc self;
     vehicle_target_soc := vehicle_target_soc self;
     session_start := session_start self;
     last_update := last_update self |}.

Definition with_vehicle_connected (v : bool) (self : t) : t :=
  {| max_power_kw := max_power_kw self;
     vehicle_capacity_kwh := vehicle_capacity_kwh self;
     arrival_hour := arrival_hour self;
     departure_hour := departure_hour self;
     max_current := max_current self; current_limit := current_limit self;
     status := status self; power_w := power_w self;
     session_energy_wh := session_energy_wh self;
     total_energy_wh := total_energy_wh self; vehicle_connected := v;
     vehicle_soc := vehicle_soc self;
     vehicle_target_soc := vehicle_target_soc self;
     session_start := session_start self;
     last_update := last_update self |}.

Definition with_vehicle_soc (v : Q) (self : t) : t :=
  {| max_power_kw := max_power_kw self;
     vehicle_capacity_kwh := vehicle_capacity_kwh self;
     arrival_hour := arrival_hour self;
     departure_hour := departure_hour self;
     max_current := max_current self; current_limit := current_limit self;
     status := status self; power_w := power_w self;
     session_energy_wh := session_energy_wh self;
     total_energy_wh := total_energy_wh self;
     vehicle_connected := vehicle_connected self; vehicle_soc := v;
     vehicle_target_soc := vehicle_target_soc self;
     session_start := session_start self;
     last_update := last_update self |}.

Definition with_vehicle_target_soc (v : Q) (self : t) : t :=
  {| max_power_kw := max_power_kw self;
     vehicle_capacity_kwh := vehicle_capacity_kwh self;
     arrival_hour := arrival_hour self;
     departure_hour := departure_hour self;
     max_current := max_current self; current_limit := current_limit self;
     status := status self; power_w := power_w self;
     session_energy_wh := session_energy_wh self;
     total_energy_wh := total_energy_wh self;
     vehicle_connected := vehicle_connected self;
     vehicle_soc := vehicle_soc self; vehicle_target_soc := v;
     session_start := session_start self;
     last_update := last_update self |}.

Definition with_session_start (v : option Q) (self : t) : t :=
  {| max_power_kw := max_power_kw self;
     vehicle_capacity_kwh := vehicle_capacity_kwh self;
     arrival_hour := arrival_hour self;
     departure_hour := departure_hour self;
     max_current := max_current self; current_limit := current_limit self;
     status := status self; power_w := power_w self;
     session_energy_wh := session_energy_wh self;
     total_energy_wh := total_energy_wh self;
     vehicle_connected := vehicle_connected self;
     vehicle_soc := vehicle_soc self;
     vehicle_target_soc := vehicle_target_soc self; session_start := v;
     last_update := last_update self |}.

Definition with_last_update (v : Q) (self : t) : t :=
  {| max_power_kw := max_power_kw self;
     vehicle_capacity_kwh := vehicle_capacity_kwh self;
     arrival_hour := arrival_hour self;
     departure_hour := departure_hour self;
     max_current := max_current self; current_limit := current_limit self;
     status := status self; power_w := power_w self;
     session_energy_wh := session_energy_wh self;
     total_energy_wh := total_energy_wh self;
     vehicle_connected := vehicle_connected self;
     vehicle_soc := vehicle_soc self;
     vehicle_target_soc := vehicle_target_soc self;
     session_start := session_start self; last_update := v |}.

(** The dictionary [get_status] returns. *)
Record Status : Type := {
  st_status : string;
  st_status_code : Z;
  st_power_w : Q;
  st_power_kw : Q;
  st_max_power_w : Q;
  st_current_limit_a : Q;
  st_vehicle_connected : bool;
  st_vehicle_soc : Q;
  st_vehicle_target_soc : Q;
  st_session_energy_wh : Q;
  st_session_energy_kwh : Q;
  st_session_duration_min : Q;
  st_hours_to_target : Q;
  st_total_energy_kwh : Q;
  st_arrival_hour : Z;
  st_departure_hour : Z
}.

(** The schedule test shared by [_schedule_vehicle] and [update]: is
    [current_hour] inside the window in which the vehicle is plugged? *)
Definition in_window (self : t) (current_hour : Z) : bool :=
  if (arrival_hour self <? departure_hour self)%Z then
    ((arrival_hour self <=? current_hour)%Z
     && (current_hour <? departure_hour self)%Z)
  else
    ((current_hour >=? arrival_hour self)%Z
     || (current_hour <? departure_hour self)%Z).

(** The departure test of [update]. *)
Definition past_departure (self : t) (current_hour : Z) : bool :=
  if (arrival_hour self <? departure_hour self)%Z then
    (current_hour >=? departure_hour self)%Z
  else
    ((departure_hour self <=? current_hour)%Z
     && (current_hour <? arrival_hour self)%Z).

(** [_schedule_vehicle]. *)
Definition _schedule_vehicle (env : Env) : Exec t unit :=
  self <- get ;;
  let current_hour := env_hour env in
  modify (with_vehicle_connected (in_window self current_hour)) ;;
  self <- get ;;
  if vehicle_connected self then
    modify (with_vehicle_soc (env_arrival_soc env)) ;;
    modify (with_status CHARGING) ;;
    modify (with_session_start (Some (env_time env)))
  else
    modify (with_vehicle_soc 0.0) ;;
    modify (with_status AVAILABLE).

(** [__init__]. *)
Definition init (max_power_kw vehicle_capacity_kwh : Q)
    (arrival_hour departure_hour : Z) (env : Env) : t :=
  let max_current := (max_power_kw * 1000) / (DEFAULT_VOLTAGE * 1.732) in
  let self :=
    {| max_power_kw := max_power_kw;
       vehicle_capacity_kwh := vehicle_capacity_kwh;
       arrival_hour := arrival_hour; departure_hour := departure_hour;
       max_current := max_current; current_limit := max_current;
       status := AVAILABLE; power_w := 0.0; session_energy_wh := 0.0;
       total_energy_wh := 0.0; vehicle_connected := false;
       vehicle_soc := 0.0; vehicle_target_soc := TARGET_SOC;
       session_start := None; last_update := env_time env |} in
  state_of (_schedule_vehicle env self).

(** [connect_vehicle]; [target_soc or TARGET_SOC] takes the default for
    [None] and for a zero target. *)
Definition connect_vehicle (initial_soc target_soc : option Q) (env : Env)
    : Exec t unit :=
  let initial_soc :=
    match initial_soc with
    | None => env_arrival_soc env
    | Some s => s
    end in
  modify (with_vehicle_connected true) ;;
  modify (with_vehicle_soc (py_min 100 (py_max 0 initial_soc))) ;;
  modify (with_vehicle_target_soc
            match target_soc with
            | None => TARGET_SOC
            | Some x => if x =? 0 then TARGET_SOC else x
            end) ;;
  modify (with_status PREPARING) ;;
  modify (with_session_energy_wh 0.0) ;;
  modify (with_session_start (Some (env_time env))) ;;
  modify (with_status CHARGING).

(** [disconnect_vehicle]. *)
Definition disconnect_vehicle : Exec t unit :=
  modify (with_vehicle_connected false) ;;
  modify (with_vehicle_soc 0.0) ;;
  modify (with_power_w 0.0) ;;
  modify (with_status AVAILABLE) ;;
  modify (with_session_start None).

(** [set_current_limit]. *)
Definition set_current_limit (current_a : Q) : Exec t unit :=
  modify (fun s =>
    with_current_limit (py_max MIN_CURRENT (py_min (max_current s) current_a)) s).

(** [pause_charging]. *)
Definition pause_charging : Exec t unit :=
  self <- get ;;
  if status_eqb (status self) CHARGING then
    modify (with_status SUSPENDED_EVSE) ;;
    modify (with_power_w 0.0)
  else ret tt.

(** [resume_charging]. *)
Definition resume_charging : Exec t unit :=
  self <- get ;;
  if status_eqb (status self) SUSPENDED_EVSE
     || status_eqb (status self) SUSPENDED_EV then
    if vehicle_soc self <? vehicle_target_soc self then
      modify (with_status CHARGING)
    else ret tt
  else ret tt.

(** [_calculate_charging_power], in watts; [variation] is the draw of
    [random.uniform(0.98, 1.02)].  The [elif] above 90 % is written as
    in the source, where the test above 80 % shadows it. *)
Definition _calculate_charging_power (self : t) (variation : Q) : Q :=
  if negb (vehicle_connected self) then 0.0
  else if negb (status_eqb (status self) CHARGING) then 0.0
  else if vehicle_soc self >=? vehicle_target_soc self then 0.0
  else
    let power_kw := (current_limit self * DEFAULT_VOLTAGE * 1.732) / 1000 in
    let power_kw :=
      if vehicle_soc self >? 80 then
        let taper_factor := (100 - vehicle_soc self) / 20 in
        power_kw * py_max 0.1 taper_factor
      else if vehicle_soc self >? 90 then power_kw * 0.2
      else power_kw in
    let power_kw := py_min power_kw (max_power_kw self) in
    let power_kw := power_kw * variation in
    power_kw * 1000.

(** [_status_string]. *)
Definition _status_string (self : t) : string :=
  match status self with
  | AVAILABLE => "available"
  | PREPARING => "preparing"
  | CHARGING => "charging"
  | SUSPENDED_EV => "suspended_ev"
  | SUSPENDED_EVSE => "suspended_evse"
  | FINISHING => "finished"
  | RESERVED => "reserved"
  | UNAVAILABLE => "unavailable"
  | FAULTED => "faulted"
  end%string.

(** [get_status]; [now] is the clock read for the session duration.  The
    division by [power_w] is guarded by [power_w > 0]. *)
Definition get_status (self : t) (now : Q) : Status :=
  let session_minutes :=
    match session_start self with
    | Some t0 => (now - t0) / 60
    | None => 0
    end in
  let hours_to_target :=
    if (power_w self >? 0) && (vehicle_soc self <? vehicle_target_soc self)
    then
      let energy_needed_wh :=
        ((vehicle_target_soc self - vehicle_soc self) / 100)
        * vehicle_capacity_kwh self * 1000 in
      energy_needed_wh / power_w self
    else 0 in
  {| st_status := _status_string self;
     st_status_code := status_code (status self);
     st_power_w := py_round (power_w self) 1;
     st_power_kw := py_round (power_w self / 1000) 3;
     st_max_power_w := max_power_kw self * 1000;
     st_current_limit_a := py_round (current_limit self) 1;
     st_vehicle_connected := vehicle_connected self;
     st_vehicle_soc := py_round (vehicle_soc self) 1;
     st_vehicle_target_soc := vehicle_target_soc self;
     st_session_energy_wh := py_round (session_energy_wh self) 1;
     st_session_energy_kwh := py_round (session_energy_wh self / 1000) 3;
     st_session_duration_min := py_round session_minutes 1;
     st_hours_to_target := py_round hours_to_target 2;
     st_total_energy_kwh := py_round (total_energy_wh self / 1000) 2;
     st_arrival_hour := arrival_hour self;
     st_departure_hour := departure_hour self |}.

(** The arrival and departure block of [update]. *)
Definition handle_schedule (env : Env) : Exec t unit :=
  self <- get ;;
  let current_hour := env_hour env in
  if negb (vehicle_connected self) then
    let should_connect := in_window self current_hour in
    if should_connect then connect_vehicle None None env else ret tt
  else
    let should_disconnect := past_departure self current_hour in
    if should_disconnect then disconnect_vehicle else ret tt.

(** The charging block of [update]: the power is computed, the vehicle
    is charged with it over [dt_hours], and the session ends when the
    target is reached. *)
Definition charge_step (dt_hours : Q) (env : Env) : Exec t unit :=
  modify (fun s =>
    with_power_w (_calculate_charging_power s (env_variation env)) s) ;;
  self <- get ;;
  if power_w self >? 0 then
    let energy_wh := power_w self * dt_hours * CHARGING_EFFICIENCY in
    d <- py_div energy_wh (vehicle_capacity_kwh self * 1000) ;;
    let soc_increase := d * 100 in
    modify (fun s =>
      with_vehicle_soc (py_min 100 (vehicle_soc s + soc_increase)) s) ;;
    modify (fun s =>
      with_session_energy_wh (session_energy_wh s + power_w s * dt_hours) s) ;;
    modify (fun s =>
      with_total_energy_wh (total_energy_wh s + power_w s * dt_hours) s) ;;
    self <- get ;;
    if vehicle_soc self >=? vehicle_target_soc self then
      modify (with_status FINISHING) ;;
      modify (with_power_w 0.0)
    else ret tt
  else ret tt.

(** [update]: the clock is read, then the schedule block and the
    charging block run, then the status is returned. *)
Definition update (env : Env) : Exec t Status :=
  self <- get ;;
  let current_time := env_time env in
  let dt_hours := (current_time - last_update self) / 3600.0 in
  modify (with_last_update current_time) ;;
  handle_schedule env ;;
  charge_step dt_hours env ;;
  s <- get ;;
  ret (get_status s (env_time env)).

(** The value [_calculate_charging_power] returns inside the call
    [update env] made on [self]: the charger is charging in that call
    when it is positive. *)
Definition computed_power (env : Env) (self : t) : Q :=
  _calculate_charging_power
    (state_of (handle_schedule env (with_last_update (env_time env) self)))
    (env_variation env).

(** The states an instance goes through under a sequence of [update]
    calls, one environment reading per call. *)
Fixpoint trace (envs : list Env) (self : t) : list t :=
  match envs with
  | [] => []
  | env :: rest =>
      state_of (update env self) :: trace rest (state_of (update env self))
  end.

(** The state after a sequence of [update] calls. *)
Fixpoint run (envs : list Env) (self : t) : t :=
  match envs with
  | [] => self
  | env :: rest => run rest (state_of (update env self))
  end.

(** At or above the target the charger delivers nothing. *)
Definition idle_at_target (self : t) : Prop :=
  vehicle_target_soc self <= vehicle_soc self -> power_w self == 0.

(** Scenario B: an 11 kW charger whose vehicle arrived, at 20:00, with
    30 % and the default target of 80 %; five hours later the clock is
    read again. *)
Definition scenario_b_arrival : Env :=
  {| env_time := 0; env_hour := 20; env_arrival_soc := 30;
     env_variation := 1 |}.

Definition scenario_b : t := init 11 60 18 7 scenario_b_arrival.

Definition scenario_b_later : Env :=
  {| env_time := 18000; env_hour := 1; env_arrival_soc := 40;
     env_variation := 1 |}.

(** The clock readings of a sequence of [update] calls never run
    backwards from the reading [t0] stored in [last_update]. *)
Fixpoint clock_advances (t0 : Q) (envs : list Env) : Prop :=
  match envs with
  | [] => True
  | env :: rest => t0 <= env_time env /\ clock_advances (env_time env) rest
  end.

(** A state of charge that is a percentage. *)
Definition soc_in_range (self : t) : Prop :=
  0 <= vehicle_soc self /\ vehicle_soc self <= 100.

End EV.

(* ------------------------------------------------------------------ *)
(** * Grid meter model ([grid_simulator.py], [GridSimulator]) *)
(* ------------------------------------------------------------------ *)

Module Grid.
Local Open Scope Q_scope.
Local Open Scope exec_scope.

Definition NOMINAL_VOLTAGE : Q := 230.0.
Definition NOMINAL_FREQUENCY : Q := 50.0.
Definition MAX_GRID_POWER_KW : Q := 25.0.
Definition VOLTAGE_MIN : Q := 207.0.
Definition VOLTAGE_MAX : Q := 253.0.
Definition VOLTAGE_VARIATION : Q := 2.0.
Definition FREQUENCY_MIN : Q := 49.5.
Definition FREQUENCY_MAX : Q := 50.5.
Definition FREQUENCY_VARIATION : Q := 0.02.

(** What one [update] reads from its surroundings: the clock, the hour
    of [datetime.now()], the three voltage draws of
    [random.uniform(-VOLTAGE_VARIATION, VOLTAGE_VARIATION)], the draw of
    [random.gauss(0, FREQUENCY_VARIATION)] and the three imbalance draws
    of [_calculate_currents]. *)
Record Env : Type := {
  env_time : Q;
  env_hour : Z;
  env_v1 : Q;
  env_v2 : Q;
  env_v3 : Q;
  env_gauss : Q;
  env_i1 : Q;
  env_i2 : Q;
  env_i3 : Q
}.

(** The attributes of a [GridSimulator] instance. *)
Record t : Type := {
  max_power_kw : Q;
  import_energy_wh : Q;
  export_energy_wh : Q;
  power_w : Q;
  reactive_power_var : Q;
  voltage_l1 : Q;
  voltage_l2 : Q;
  voltage_l3 : Q;
  current_l1 : Q;
  current_l2 : Q;
  current_l3 : Q;
  frequency : Q;
  power_factor : Q;
  last_update : Q;
  import_price : Q;
  export_price : Q
}.

(** Attribute assignment, one function per assigned attribute. *)
Definition with_import_energy_wh (v : Q) (self : t) : t :=
  {| max_power_kw := max_power_kw self; import_energy_wh := v;
     export_energy_wh := export_energy_wh self; power_w := power_w self;
     reactive_power_var := reactive_power_var self;
     voltage_l1 := voltage_l1 self; voltage_l2 := voltage_l2 self;
     voltage_l3 := voltage_l3 self; current_l1 := current_l1 self;
     current_l2 := current_l2 self; current_l3 := current_l3 self;
     frequency := frequency self; power_factor := power_factor self;
     last_update := last_update self; import_price := import_price self;
     export_price := export_price self |}.

Definition with_export_energy_wh (v : Q) (self : t) : t :=
  {| max_power_kw := max_power_kw self;
     import_energy_wh := import_energy_wh self; export_energy_wh := v;
     power_w := power_w self;
     reactive_power_var := reactive_power_var self;
     voltage_l1 := voltage_l1 self; voltage_l2 := voltage_l2 self;
     voltage_l3 := voltage_l3 self; current_l1 := current_l1 self;
     current_l2 := current_l2 self; current_l3 := current_l3 self;
     frequency := frequency self; power_factor := power_factor self;
     last_update := last_update self; import_price := import_price self;
     export_price := export_price self |}.

Definition with_power_w (v : Q) (self : t) : t :=
  {| max_power_kw := max_power_kw self;
     import_energy_wh := import_energy_wh self;
     export_energy_wh := export_energy_wh self; power_w := v;
     reactive_power_var := reactive_power_var self;
     voltage_l1 := voltage_l1 self; voltage_l2 := voltage_l2 self;
     voltage_l3 := voltage_l3 self; current_l1 := current_l1 self;
     current_l2 := current_l2 self; current_l3 := current_l3 self;
     frequency := frequency self; power_factor := power_factor self;
     last_update := last_update self; import_price := import_price self;
     export_price := export_price self |}.

Definition with_reactive_power_var (v : Q) (self : t) : t :=
  {| max_power_kw := max_power_kw self;
     import_energy_wh := import_energy_wh self;
     export_energy_wh := export_energy_wh self; power_w := power_w self;
     reactive_power_var := v; voltage_l1 := voltage_l1 self;
     voltage_l2 := voltage_l2 self; voltage_l3 := voltage_l3 self;
     current_l1 := current_l1 self; current_l2 := current_l2 self;
     current_l3 := current_l3 self; frequency := frequency self;
     power_factor := power_factor self; last_update := last_update self;
     import_price := import_price self;
     export_price := export_price self |}.

Definition with_voltage_l1 (v : Q) (self : t) : t :=
  {| max_power_kw := max_power_kw self;
     import_energy_wh := import_energy_wh self;
     export_energy_wh := export_energy_wh self; power_w := power_w self;
     reactive_power_var := reactive_power_var self; voltage_l1 := v;
     voltage_l2 := voltage_l2 self; voltage_l3 := voltage_l3 self;
     current_l1 := current_l1 self; current_l2 := current_l2 self;
     current_l3 := current_l3 self; frequency := frequency self;
     power_factor := power_factor self; last_update := last_update self;
     import_price := import_price self;
     export_price := export_price self |}.

Definition with_voltage_l2 (v : Q) (self : t) : t :=
  {| max_power_kw := max_power_kw self;
     import_energy_wh := import_energy_wh self;
     export_energy_wh := export_energy_wh self; power_w := power_w self;
     reactive_power_var := reactive_power_var self;
     voltage_l1 := voltage_l1 self; voltage_l2 := v;
     voltage_l3 := voltage_l3 self; current_l1 := current_l1 self;
     current_l2 := current_l2 self; current_l3 := current_l3 self;
     frequency := frequency self; power_factor := power_factor self;
     last_update := last_update self; import_price := import_price self;
     export_price := export_price self |}.

Definition with_voltage_l3 (v : Q) (self : t) : t :=
  {| max_power_kw := max_power_kw self;
     import_energy_wh := import_energy_wh self;
     export_energy_wh := export_energy_wh self; power_w := power_w self;
     reactive_power_var := reactive_power_var self;
     voltage_l1 := voltage_l1 self; voltage_l2 := voltage_l2 self;
     voltage_l3 := v; current_l1 := current_l1 self;
     current_l2 := current_l2 self; current_l3 := current_l3 self;
     frequency := frequency self; power_factor := power_factor self;
     last_update := last_update self; import_price := import_price self;
     export_price := export_price self |}.

Definition with_current_l1 (v : Q) (self : t) : t :=
  {| max_power_kw := max_power_kw self;
     import_energy_wh := import_energy_wh self;
     export_energy_wh := export_energy_wh self; power_w := power_w self;
     reactive_power_var := reactive_power_var self;
     voltage_l1 := voltage_l1 self; voltage_l2 := voltage_l2 self;
     voltage_l3 := voltage_l3 self; current_l1 := v;
     current_l2 := current_l2 self; current_l3 := current_l3 self;
     frequency := frequency self; power_factor := power_factor self;
     last_update := last_update self; import_price := import_price self;
     export_price := export_price self |}.

Definition with_current_l2 (v : Q) (self : t) : t :=
  {| max_power_kw := max_power_kw self;
     import_energy_wh := import_energy_wh self;
     export_energy_wh := export_energy_wh self; power_w := power_w self;
     reactive_power_var := reactive_power_var self;
     voltage_l1 := voltage_l1 self; voltage_l2 := voltage_l2 self;
     voltage_l3 := voltage_l3 self; current_l1 := current_l1 self;
     current_l2 := v; current_l3 := current_l3 self;
     frequency := frequency self; power_factor := power_factor self;
     last_update := last_update self; import_price := import_price self;
     export_price := export_price self |}.

Definition with_current_l3 (v : Q) (self : t) : t :=
  {| max_power_kw := max_power_kw self;
     import_energy_wh := import_energy_wh self;
     export_energy_wh := export_energy_wh self; power_w := power_w self;
     reactive_power_var := reactive_power_var self;
     voltage_l1 := voltage_l1 self; voltage_l2 := voltage_l2 self;
     voltage_l3 := voltage_l3 self; current_l1 := current_l1 self;
     current_l2 := current_l2 self; current_l3 := v;
     frequency := frequency self; power_factor := power_factor self;
     last_update := last_update self; import_price := import_price self;
     export_price := export_price self |}.

Definition with_frequency (v : Q) (self : t) : t :=
  {| max_power_kw := max_power_kw self;
     import_energy_wh := import_energy_wh self;
     export_energy_wh := export_energy_wh self; power_w := power_w self;
     reactive_power_var := reactive_power_var self;
     voltage_l1 := voltage_l1 self; voltage_l2 := voltage_l2 self;
     voltage_l3 := voltage_l3 self; current_l1 := current_l1 self;
     current_l2 := current_l2 self; current_l3 := current_l3 self;
     frequency := v; power_factor := power_factor self;
     last_update := last_update self; import_price := import_price self;
     export_price := export_price self |}.

Definition with_last_update (v : Q) (self : t) : t :=
  {| max_power_kw := max_power_kw self;
     import_energy_wh := import_energy_wh self;
     export_energy_wh := export_energy_wh self; power_w := power_w self;
     reactive_power_var := reactive_power_var self;
     voltage_l1 := voltage_l1 self; voltage_l2 := voltage_l2 self;
     voltage_l3 := voltage_l3 self; current_l1 := current_l1 self;
     current_l2 := current_l2 self; current_l3 := current_l3 self;
     frequency := frequency self; power_factor := power_factor self;
     last_update := v; import_price := import_price self;
     export_price := export_price self |}.

Definition with_import_price (v : Q) (self : t) : t :=
  {| max_power_kw := max_power_kw self;
     import_energy_wh := import_energy_wh self;
     export_energy_wh := export_energy_wh self; power_w := power_w self;
     reactive_power_var := reactive_power_var self;
     voltage_l1 := voltage_l1 self; voltage_l2 := voltage_l2 self;
     voltage_l3 := voltage_l3 self; current_l1 := current_l1 self;
     current_l2 := current_l2 self; current_l3 := current_l3 self;
     frequency := frequency self; power_factor := power_factor self;
     last_update := last_update self; import_price := v;
     export_price := export_price self |}.

Definition with_export_price (v : Q) (self : t) : t :=
  {| max_power_kw := max_power_kw self;
     import_energy_wh := import_energy_wh self;
     export_energy_wh := export_energy_wh self; power_w := power_w self;
     reactive_power_var := reactive_power_var self;
     voltage_l1 := voltage_l1 self; voltage_l2 := voltage_l2 self;
     voltage_l3 := voltage_l3 self; current_l1 := current_l1 self;
     current_l2 := current_l2 self; current_l3 := current_l3 self;
     frequency := frequency self; power_factor := power_factor self;
     last_update := last_update self; import_price := import_price self;
     export_price := v |}.

(** The dictionary [get_status] returns. *)
Record Status : Type := {
  st_power_w : Q;
  st_reactive_power_var : Q;
  st_voltage_l1 : Q;
  st_voltage_l2 : Q;
  st_voltage_l3 : Q;
  st_voltage_avg : Q;
  st_current_l1 : Q;
  st_current_l2 : Q;
  st_current_l3 : Q;
  st_current_total : Q;
  st_frequency : Q;
  st_power_factor : Q;
  st_import_energy_wh : Q;
  st_export_energy_wh : Q;
  st_import_energy_kwh : Q;
  st_export_energy_kwh : Q;
  st_mode : string;
  st_import_price_eur_kwh : Q;
  st_export_price_eur_kwh : Q;
  st_max_power_kw : Q
}.

(** [__init__]. *)
Definition init (max_power_kw initial_import_kwh initial_export_kwh : Q)
    (now : Q) : t :=
  {| max_power_kw := max_power_kw;
     import_energy_wh := initial_import_kwh * 1000;
     export_energy_wh := initial_export_kwh * 1000;
     power_w := 0.0; reactive_power_var := 0.0;
     voltage_l1 := NOMINAL_VOLTAGE; voltage_l2 := NOMINAL_VOLTAGE;
     voltage_l3 := NOMINAL_VOLTAGE;
     current_l1 := 0.0; current_l2 := 0.0; current_l3 := 0.0;
     frequency := NOMINAL_FREQUENCY; power_factor := 0.95;
     last_update := now; import_price := 0.25; export_price := 0.08 |}.

(** [_simulate_voltage]. *)
Definition _simulate_voltage (env : Env) : Q * Q * Q :=
  let hour := env_hour env in
  let base_offset :=
    if ((17 <=? hour) && (hour <=? 21))%Z then - 3.0
    else if ((2 <=? hour) && (hour <=? 6))%Z then 2.0
    else 0.0 in
  let l1 := NOMINAL_VOLTAGE + base_offset + env_v1 env in
  let l2 := NOMINAL_VOLTAGE + base_offset + env_v2 env - 0.5 in
  let l3 := NOMINAL_VOLTAGE + base_offset + env_v3 env + 0.3 in
  let l1 := py_max VOLTAGE_MIN (py_min VOLTAGE_MAX l1) in
  let l2 := py_max VOLTAGE_MIN (py_min VOLTAGE_MAX l2) in
  let l3 := py_max VOLTAGE_MIN (py_min VOLTAGE_MAX l3) in
  (py_round l1 1, py_round l2 1, py_round l3 1).

(** [_simulate_frequency]. *)
Definition _simulate_frequency (env : Env) : Q :=
  let variation := env_gauss env in
  let frequency := NOMINAL_FREQUENCY + variation in
  py_max FREQUENCY_MIN (py_min FREQUENCY_MAX (py_round frequency 3)).

(** [_calculate_currents]: the division is guarded against a zero
    average voltage, not against a zero power factor. *)
Definition _calculate_currents (power_w : Q) (env : Env) : Exec t (Q * Q * Q) :=
  self <- get ;;
  let avg_voltage := (voltage_l1 self + voltage_l2 self + voltage_l3 self) / 3 in
  let power_per_phase := power_w / 3 in
  current_per_phase <-
    (if avg_voltage >? 0 then
       py_div (Qabs power_per_phase) (avg_voltage * power_factor self)
     else ret 0) ;;
  let i1 := current_per_phase * env_i1 env in
  let i2 := current_per_phase * env_i2 env in
  let i3 := current_per_phase * env_i3 env in
  ret (py_round i1 2, py_round i2 2, py_round i3 2).

Section WithMath.
Context {ML : MathLib}.

(** [_calculate_reactive_power]. *)
Definition _calculate_reactive_power (active_power_w : Q) : Exec t Q :=
  self <- get ;;
  if power_factor self >=? 1.0 then ret 0.0
  else
    root <- py_sqrt (1 - power_factor self * power_factor self) ;;
    tan_phi <- py_div root (power_factor self) ;;
    let reactive_power := Qabs active_power_w * tan_phi in
    if active_power_w >? 0 then ret (py_round reactive_power 1)
    else ret (py_round (- reactive_power) 1).

(** [get_status]. *)
Definition get_status (self : t) : Status :=
  let mode :=
    if power_w self >? 50 then "importing"%string
    else if power_w self <? - (50) then "exporting"%string
    else "balanced"%string in
  {| st_power_w := py_round (power_w self) 1;
     st_reactive_power_var := reactive_power_var self;
     st_voltage_l1 := voltage_l1 self;
     st_voltage_l2 := voltage_l2 self;
     st_voltage_l3 := voltage_l3 self;
     st_voltage_avg :=
       py_round ((voltage_l1 self + voltage_l2 self + voltage_l3 self) / 3) 1;
     st_current_l1 := current_l1 self;
     st_current_l2 := current_l2 self;
     st_current_l3 := current_l3 self;
     st_current_total :=
       py_round (current_l1 self + current_l2 self + current_l3 self) 2;
     st_frequency := frequency self;
     st_power_factor := power_factor self;
     st_import_energy_wh := py_round (import_energy_wh self) 1;
     st_export_energy_wh := py_round (export_energy_wh self) 1;
     st_import_energy_kwh := py_round (import_energy_wh self / 1000) 3;
     st_export_energy_kwh := py_round (export_energy_wh self / 1000) 3;
     st_mode := mode;
     st_import_price_eur_kwh := import_price self;
     st_export_price_eur_kwh := export_price self;
     st_max_power_kw := max_power_kw self |}.

(** [update]. *)
Definition update (net_power_w : Q) (env : Env) : Exec t Status :=
  self <- get ;;
  let max_power_w := max_power_kw self * 1000 in
  modify (with_power_w (py_max (- max_power_w) (py_min max_power_w net_power_w))) ;;
  let current_time := env_time env in
  let dt_hours := (current_time - last_update self) / 3600.0 in
  modify (with_last_update current_time) ;;
  self <- get ;;
  let energy_wh := Qabs (power_w self) * dt_hours in
  (if power_w self >? 0 then
     modify (fun s => with_import_energy_wh (import_energy_wh s + energy_wh) s)
   else
     modify (fun s => with_export_energy_wh (export_energy_wh s + energy_wh) s)) ;;
  (let '(l1, l2, l3) := _simulate_voltage env in
   modify (with_voltage_l1 l1) ;;
   modify (with_voltage_l2 l2) ;;
   modify (with_voltage_l3 l3)) ;;
  modify (with_frequency (_simulate_frequency env)) ;;
  currents <- _calculate_currents (power_w self) env ;;
  (let '(i1, i2, i3) := currents in
   modify (with_current_l1 i1) ;;
   modify (with_current_l2 i2) ;;
   modify (with_current_l3 i3)) ;;
  q <- _calculate_reactive_power (power_w self) ;;
  modify (with_reactive_power_var q) ;;
  gets get_status.

End WithMath.

(** [set_prices]. *)
Definition set_prices (new_import_price new_export_price : Q) : Exec t unit :=
  modify (with_import_price new_import_price) ;;
  modify (with_export_price new_export_price).

(** [reset_energy_counters]. *)
Definition reset_energy_counters : Exec t unit :=
  modify (with_import_energy_wh 0.0) ;;
  modify (with_export_energy_wh 0.0).

(** Scenario C: a fresh meter rated 25 kW, and one reading of its
    surroundings a second later. *)
Definition scenario_c : t := init 25 0 0 1000.

Definition scenario_c_env : Env :=
  {| env_time := 1001; env_hour := 12;
     env_v1 := 0.5; env_v2 := - 0.25; env_v3 := 1;
     env_gauss := 0.01; env_i1 := 1; env_i2 := 0.99; env_i3 := 1.01 |}.

(** The dictionary [get_daily_cost] returns. *)
Record DailyCost : Type := {
  import_cost_eur : Q;
  export_revenue_eur : Q;
  net_cost_eur : Q
}.

(** [get_daily_cost]. *)
Definition get_daily_cost (self : t) : DailyCost :=
  let import_cost := (import_energy_wh self / 1000) * import_price self in
  let export_revenue := (export_energy_wh self / 1000) * export_price self in
  let net_cost := import_cost - export_revenue in
  {| import_cost_eur := py_round import_cost 2;
     export_revenue_eur := py_round export_revenue 2;
     net_cost_eur := py_round net_cost 2 |}.

(** One call a client of the class can make on an instance. *)
Inductive call : Type :=
| CallUpdate (net_power_w : Q) (env : Env)
| CallSetPrices (new_import_price new_export_price : Q)
| CallResetEnergyCounters.

Definition perform {ML : MathLib} (c : call) (self : t) : t :=
  match c with
  | CallUpdate net env => state_of (update net env self)
  | CallSetPrices a b => state_of (set_prices a b self)
  | CallResetEnergyCounters => state_of (reset_energy_counters self)
  end.

(** The state after a sequence of calls. *)
Fixpoint run {ML : MathLib} (calls : list call) (self : t) : t :=
  match calls with
  | [] => self
  | c :: rest => run rest (perform c self)
  end.

(** The three phase voltages are within the EN 50160 band and the
    frequency within its tolerance. *)
Definition within_tolerances (self : t) : Prop :=
  (VOLTAGE_MIN <= voltage_l1 self /\ voltage_l1 self <= VOLTAGE_MAX) /\
  (VOLTAGE_MIN <= voltage_l2 self /\ voltage_l2 self <= VOLTAGE_MAX) /\
  (VOLTAGE_MIN <= voltage_l3 self /\ voltage_l3 self <= VOLTAGE_MAX) /\
  (FREQUENCY_MIN <= frequency self /\ frequency self <= FREQUENCY_MAX).

End Grid.

(* ------------------------------------------------------------------ *)
(** * Solar model ([solar_simulator.py], [SolarSimulator]) *)
(* ------------------------------------------------------------------ *)

Module Solar.
Local Open Scope R_scope.

(** Python's [max], [min] and decimal [round] on real numbers. *)
Definition py_max (a b : R) : R := if Rlt_dec a b then b else a.
Definition py_min (a b : R) : R := if Rlt_dec b a then b else a.

Definition round_half_even (x : R) : Z :=
  let f := Zfloor x in
  if Rlt_dec (x - IZR f) (1 / 2) then f
  else if Rlt_dec (1 / 2) (x - IZR f) then (f + 1)%Z
  else if Z.even f then f else (f + 1)%Z.

Definition py_round (x : R) (ndigits : nat) : R :=
  IZR (round_half_even (x * 10 ^ ndigits)) / 10 ^ ndigits.

(** [x % 360] on floats. *)
Definition mod360 (x : R) : R := x - 360 * IZR (Zfloor (x / 360)).

Definition radians (x : R) : R := x * PI / 180.
Definition degrees (x : R) : R := x * 180 / PI.

(** The fields of a [datetime] the model reads. *)
Record datetime : Type := {
  tm_yday : Z;
  hour : Z;
  minute : Z;
  second : Z
}.

(** The attributes of a [SolarSimulator] instance. *)
Record t : Type := {
  latitude : R;
  longitude : R;
  peak_power : R;
  panels : Z;
  efficiency : R;
  timezone : string
}.

(** The draws one call of [calculate_power_output] may take:
    [random.uniform(-0.2, 0.3)] in [get_cloud_cover],
    [random.uniform(-2, 2)] in [get_ambient_temperature] and
    [random.uniform(0.97, 1.03)] for the final variation. *)
Record Draws : Type := {
  draw_cloud : R;
  draw_temp : R;
  draw_variation : R
}.

Definition admissible (d : Draws) : Prop :=
  - 0.2 <= draw_cloud d <= 0.3 /\
  - 2 <= draw_temp d <= 2 /\
  0.97 <= draw_variation d <= 1.03.

(** [__init__]. *)
Definition init (latitude longitude peak_power_kw : R) (panels : Z)
    (efficiency : R) (timezone : string) : t :=
  {| latitude := latitude; longitude := longitude;
     peak_power := peak_power_kw; panels := panels;
     efficiency := efficiency; timezone := timezone |}.

(** The declination of [calculate_solar_elevation] and
    [calculate_solar_azimuth]. *)
Definition declination_of (day : Z) : R :=
  23.45 * sin (radians (360 / 365 * (IZR day - 81))).

(** [calculate_solar_elevation].  Localising a naive timestamp leaves
    the fields read here unchanged.  [math.asin] raises [ValueError]
    outside [[-1, 1]]; over the real numbers the argument built here
    never leaves that interval and [asin] is total, so the model has no
    such path, while in binary64 the argument can round to just above 1
    with the sun at the zenith. *)
Definition calculate_solar_elevation (self : t) (timestamp : datetime) : R :=
  let day := tm_yday timestamp in
  let declination := declination_of day in
  let solar_time :=
    IZR (hour timestamp) + IZR (minute timestamp) / 60
    + IZR (second timestamp) / 3600 in
  let hour_angle := 15 * (solar_time - 12) in
  let lat_rad := radians (latitude self) in
  let dec_rad := radians declination in
  let hour_rad := radians hour_angle in
  let elevation :=
    degrees
      (asin (sin lat_rad * sin dec_rad
             + cos lat_rad * cos dec_rad * cos hour_rad)) in
  py_max 0 elevation.

(** [calculate_solar_azimuth]. *)
Definition calculate_solar_azimuth (self : t) (timestamp : datetime) : R :=
  let solar_time := IZR (hour timestamp) + IZR (minute timestamp) / 60 in
  let hour_angle := 15 * (solar_time - 12) in
  let azimuth :=
    if Rlt_dec hour_angle 0 then 90 + hour_angle else 180 + hour_angle in
  mod360 azimuth.

(** [get_cloud_cover]. *)
Definition get_cloud_cover (d : Draws) : R :=
  let base_cloud := 0.3 in
  let cloud_variation := draw_cloud d in
  py_max 0.0 (py_min 1.0 (base_cloud + cloud_variation)).

(** [get_ambient_temperature]. *)
Definition get_ambient_temperature (timestamp : datetime) (d : Draws) : R :=
  let h := hour timestamp in
  if ((6 <=? h) && (h <? 12))%Z then 10 + (IZR h - 6) * 2
  else if ((12 <=? h) && (h <? 18))%Z then 22 - (IZR h - 12) * 1.5
  else 8 + draw_temp d.

(** [calculate_power_output], in kW. *)
Definition calculate_power_output (self : t) (timestamp : datetime)
    (cloud_cover : option R) (d : Draws) : R :=
  let elevation := calculate_solar_elevation self timestamp in
  if Rle_dec elevation 0 then 0.0
  else
    let base_irradiance := 1000 * sin (radians elevation) in
    let cloud_cover :=
      match cloud_cover with
      | None => get_cloud_cover d
      | Some c => c
      end in
    let cloud_factor := 1.0 - (cloud_cover * 0.8) in
    let temp := get_ambient_temperature timestamp d in
    let temp_factor := 1.0 - (py_max 0 (temp - 25) * 0.004) in
    let irradiance := base_irradiance * cloud_factor in
    let power_kw :=
      (irradiance / 1000) * peak_power self * temp_factor * efficiency self in
    let variation := draw_variation d in
    py_round (py_max 0 (power_kw * variation)) 3.

(** The part of the dictionary [get_current_status] returns that is
    computed from the clock and the draws. *)
Record Status : Type := {
  st_power_kw : R;
  st_power_w : R;
  st_sun_elevation : R;
  st_sun_azimuth : R;
  st_cloud_cover_percent : R;
  st_ambient_temp_c : R;
  st_daylight : bool
}.

(** [get_current_status]; [d] serves the call of
    [calculate_power_output], [d'] the later calls of [get_cloud_cover]
    and [get_ambient_temperature]. *)
Definition get_current_status (self : t) (now : datetime) (d d' : Draws)
    : Status :=
  let power := calculate_power_output self now None d in
  let elevation := calculate_solar_elevation self now in
  let azimuth := calculate_solar_azimuth self now in
  let cloud_cover := get_cloud_cover d' in
  let temp := get_ambient_temperature now d' in
  {| st_power_kw := power;
     st_power_w := py_round (power * 1000) 1;
     st_sun_elevation := py_round elevation 2;
     st_sun_azimuth := py_round azimuth 2;
     st_cloud_cover_percent := py_round (cloud_cover * 100) 1;
     st_ambient_temp_c := py_round temp 1;
     st_daylight := if Rlt_dec 0 elevation then true else false |}.







(** One entry of the list [get_daily_production_curve] returns. *)
Record CurveEntry : Type := {
  ce_hour : Z;
  ce_power_kw : R;
  ce_elevation : R;
  ce_azimuth : R;
  ce_daylight : bool
}.

(** [date.replace(hour=hour, minute=30, second=0, microsecond=0)]. *)
Definition replace_time (date : datetime) (h : Z) : datetime :=
  {| tm_yday := tm_yday date; hour := h; minute := 30; second := 0 |}.

(** [get_daily_production_curve]; [draws h] serves the call of
    [calculate_power_output] made for the hour [h]. *)
Definition get_daily_production_curve (self : t) (date : datetime)
    (draws : Z -> Draws) : list CurveEntry :=
  map (fun h =>
         let timestamp := replace_time date h in
         let power := calculate_power_output self timestamp None (draws h) in
         let elevation := calculate_solar_elevation self timestamp in
         let azimuth := calculate_solar_azimuth self timestamp in
         {| ce_hour := h;
            ce_power_kw := power;
            ce_elevation := py_round elevation 2;
            ce_azimuth := py_round azimuth 2;
            ce_daylight := if Rlt_dec 0 elevation then true else false |})
      (map Z.of_nat (seq 0 24)).

End Solar.

(* ------------------------------------------------------------------ *)
(** * Orchestrator ([main.py], [ModbusSimulatorServer]) *)
(* ------------------------------------------------------------------ *)

Module Server.
Local Open Scope Q_scope.
Local Open Scope exec_scope.
Import Registers.

Definition SOLAR_POWER_REG : nat := 0.
Definition SOLAR_ENERGY_REG : nat := 2.
Definition SOLAR_VOLTAGE_REG : nat := 4.
Definition SOLAR_CURRENT_REG : nat := 5.
Definition SOLAR_STATUS_REG : nat := 6.

Definition BATTERY_SOC_REG : nat := 0.
Definition BATTERY_POWER_REG : nat := 1.
Definition BATTERY_VOLTAGE_REG : nat := 3.
Definition BATTERY_CURRENT_REG : nat := 4.
Definition BATTERY_TEMP_REG : nat := 5.
Definition BATTERY_STATUS_REG : nat := 6.
Definition BATTERY_CAPACITY_REG : nat := 7.
Definition BATTERY_CHARGE_LIMIT_REG : nat := 9.
Definition BATTERY_DISCHARGE_LIMIT_REG : nat := 11.

Definition GRID_POWER_REG : nat := 0.
Definition GRID_REACTIVE_REG : nat := 2.
Definition GRID_VOLTAGE_L1_REG : nat := 4.
Definition GRID_VOLTAGE_L2_REG : nat := 5.
Definition GRID_VOLTAGE_L3_REG : nat := 6.
Definition GRID_CURRENT_L1_REG : nat := 7.
Definition GRID_CURRENT_L2_REG : nat := 8.
Definition GRID_CURRENT_L3_REG : nat := 9.
Definition GRID_FREQUENCY_REG : nat := 10.
Definition GRID_IMPORT_ENERGY_REG : nat := 11.
Definition GRID_EXPORT_ENERGY_REG : nat := 13.

Definition EV_POWER_REG : nat := 0.
Definition EV_ENERGY_REG : nat := 2.
Definition EV_SOC_REG : nat := 4.
Definition EV_STATUS_REG : nat := 5.
Definition EV_MAX_POWER_REG : nat := 6.
Definition EV_CURRENT_LIMIT_REG : nat := 8.

(** [hr[i] = v] on a bank of holding registers.  Every offset the
    server writes is below the bank length of 100. *)
Fixpoint set_reg (i : nat) (v : Z) (hr : list Z) : list Z :=
  match hr, i with
  | [], _ => []
  | _ :: rest, O => v :: rest
  | x :: rest, S k => x :: set_reg k v rest
  end.

(** A 32-bit field: high word at [i], low word at [i + 1]. *)
Definition set_reg32 (i : nat) (regs : Z * Z) (hr : list Z) : list Z :=
  set_reg (i + 1) (snd regs) (set_reg i (fst regs) hr).

(** The dictionaries the four [update_*_registers] methods return. *)
Record SolarData : Type := {
  sd_power_w : Z;
  sd_energy_wh : Z;
  sd_voltage_v : Q;
  sd_current_a : Q;
  sd_status : Z
}.

Record BatteryData : Type := {
  bd_soc : Q;
  bd_power_w : Z;
  bd_voltage_v : Q;
  bd_current_a : Q;
  bd_temperature_c : Q;
  bd_status : Z
}.

Record GridData : Type := {
  gd_power_w : Q;
  gd_voltage_v : Q;
  gd_frequency_hz : Q;
  gd_import_energy_wh : Q;
  gd_export_energy_wh : Q
}.

Record EVData : Type := {
  ed_power_w : Q;
  ed_session_energy_wh : Q;
  ed_vehicle_soc : Q;
  ed_status : string;
  ed_status_code : Z
}.

Record Telemetry : Type := {
  tm_solar : SolarData;
  tm_battery : BatteryData;
  tm_grid : GridData;
  tm_ev : EVData
}.

(** What one [publish_telemetry] hands to the MQTT client: the four
    device records and the consumption figure of the system status. *)
Record Published : Type := {
  pub_telemetry : Telemetry;
  pub_home_consumption_w : Z
}.

(** What one iteration of [update_loop] reads from its surroundings.
    [env_solar] is the [power_w] entry of
    [self.solar.get_current_status()], or the exception that call let
    escape; the solar model itself is the module [Solar]. *)
Record Env : Type := {
  env_solar : result Q;
  env_time : Q;
  env_ev : EV.Env;
  env_battery_variation : Q;
  env_grid : Grid.Env;
  env_time_end : Q
}.

(** The attributes of the server an iteration touches; [store_k] is the
    holding-register bank of [stores[k]], [published] what was handed to
    the MQTT client and [error_log] what [logger.error] received, newest
    first. *)
Record t : Type := {
  solar_energy_wh : Q;
  last_update : Q;
  battery : Battery.t;
  grid : Grid.t;
  ev : EV.t;
  store_1 : list Z;
  store_2 : list Z;
  store_3 : list Z;
  store_4 : list Z;
  mqtt_connected : bool;
  published : list Published;
  error_log : list exn
}.

(** Attribute assignment, one function per assigned attribute. *)
Definition with_solar_energy_wh (v : Q) (self : t) : t :=
  {| solar_energy_wh := v; last_update := last_update self;
     battery := battery self; grid := grid self; ev := ev self;
     store_1 := store_1 self; store_2 := store_2 self;
     store_3 := store_3 self; store_4 := store_4 self;
     mqtt_connected := mqtt_connected self; published := published self;
     error_log := error_log self |}.

Definition with_last_update (v : Q) (self : t) : t :=
  {| solar_energy_wh := solar_energy_wh self; last_update := v;
     battery := battery self; grid := grid self; ev := ev self;
     store_1 := store_1 self; store_2 := store_2 self;
     store_3 := store_3 self; store_4 := store_4 self;
     mqtt_connected := mqtt_connected self; published := published self;
     error_log := error_log self |}.

Definition with_battery (v : Battery.t) (self : t) : t :=
  {| solar_energy_wh := solar_energy_wh self;
     last_update := last_update self; battery := v; grid := grid self;
     ev := ev self; store_1 := store_1 self; store_2 := store_2 self;
     store_3 := store_3 self; store_4 := store_4 self;
     mqtt_connected := mqtt_connected self; published := published self;
     error_log := error_log self |}.

Definition with_grid (v : Grid.t) (self : t) : t :=
  {| solar_energy_wh := solar_energy_wh self;
     last_update := last_update self; battery := battery self; grid := v;
     ev := ev self; store_1 := store_1 self; store_2 := store_2 self;
     store_3 := store_3 self; store_4 := store_4 self;
     mqtt_connected := mqtt_connected self; published := published self;
     error_log := error_log self |}.

Definition with_ev (v : EV.t) (self : t) : t :=
  {| solar_energy_wh := solar_energy_wh self;
     last_update := last_update self; battery := battery self;
     grid := grid self; ev := v; store_1 := store_1 self;
     store_2 := store_2 self; store_3 := store_3 self;
     store_4 := store_4 self; mqtt_connected := mqtt_connected self;
     published := published self; error_log := error_log self |}.

Definition with_store_1 (v : list Z) (self : t) : t :=
  {| solar_energy_wh := solar_energy_wh self;
     last_update := last_update self; battery := battery self;
     grid := grid self; ev := ev self; store_1 := v;
     store_2 := store_2 self; store_3 := store_3 self;
     store_4 := store_4 self; mqtt_connected := mqtt_connected self;
     published := published self; error_log := error_log self |}.

Definition with_store_2 (v : list Z) (self : t) : t :=
  {| solar_energy_wh := solar_energy_wh self;
     last_update := last_update self; battery := battery self;
     grid := grid self; ev := ev self; store_1 := store_1 self;
     store_2 := v; store_3 := store_3 self; store_4 := store_4 self;
     mqtt_connected := mqtt_connected self; published := published self;
     error_log := error_log self |}.

Definition with_store_3 (v : list Z) (self : t) : t :=
  {| solar_energy_wh := solar_energy_wh self;
     last_update := last_update self; battery := battery self;
     grid := grid self; ev := ev self; store_1 := store_1 self;
     store_2 := store_2 self; store_3 := v; store_4 := store_4 self;
     mqtt_connected := mqtt_connected self; published := published self;
     error_log := error_log self |}.

Definition with_store_4 (v : list Z) (self : t) : t :=
  {| solar_energy_wh := solar_energy_wh self;
     last_update := last_update self; battery := battery self;
     grid := grid self; ev := ev self; store_1 := store_1 self;
     store_2 := store_2 self; store_3 := store_3 self; store_4 := v;
     mqtt_connected := mqtt_connected self; published := published self;
     error_log := error_log self |}.

Definition with_mqtt_connected (v : bool) (self : t) : t :=
  {| solar_energy_wh := solar_energy_wh self;
     last_update := last_update self; battery := battery self;
     grid := grid self; ev := ev self; store_1 := store_1 self;
     store_2 := store_2 self; store_3 := store_3 self;
     store_4 := store_4 self; mqtt_connected := v;
     published := published self; error_log := error_log self |}.

Definition with_published (v : list Published) (self : t) : t :=
  {| solar_energy_wh := solar_energy_wh self;
     last_update := last_update self; battery := battery self;
     grid := grid self; ev := ev self; store_1 := store_1 self;
     store_2 := store_2 self; store_3 := store_3 self;
     store_4 := store_4 self; mqtt_connected := mqtt_connected self;
     published := v; error_log := error_log self |}.

Definition with_error_log (v : list exn) (self : t) : t :=
  {| solar_energy_wh := solar_energy_wh self;
     last_update := last_update self; battery := battery self;
     grid := grid self; ev := ev self; store_1 := store_1 self;
     store_2 := store_2 self; store_3 := store_3 self;
     store_4 := store_4 self; mqtt_connected := mqtt_connected self;
     published := published self; error_log := v |}.

(** The local variables of one iteration of [update_loop] that ran to
    its end; [tk_net_grid_w] is the argument [int(net_grid_w)] given to
    [update_grid_registers]. *)
Record Tick : Type := {
  tk_total_load_w : Q;
  tk_net_grid_w : Z;
  tk_telemetry : Telemetry
}.

Definition base_load_w : Q := 800.

(** [update_solar_registers]. *)
Definition update_solar_registers (env : Env) : Exec t SolarData :=
  status_power_w <- (fun s => (s, env_solar env)) ;;
  let power_w := py_int status_power_w in
  self <- get ;;
  let current_time := env_time env in
  let dt_hours := (current_time - last_update self) / 3600.0 in
  modify (fun s =>
    with_solar_energy_wh (solar_energy_wh s + inject_Z power_w * dt_hours) s) ;;
  self <- get ;;
  let hr := store_1 self in
  let hr := set_reg32 SOLAR_POWER_REG (_int32_to_registers power_w) hr in
  let hr :=
    set_reg32 SOLAR_ENERGY_REG
      (_uint32_to_registers (py_int (solar_energy_wh self))) hr in
  let voltage_reg := (py_int (380 + (inject_Z power_w / 1000) * 20) * 10)%Z in
  let hr := set_reg SOLAR_VOLTAGE_REG voltage_reg hr in
  let voltage := inject_Z voltage_reg / 10 in
  let current_reg :=
    if voltage >? 0 then py_int ((inject_Z power_w / voltage) * 10) else 0%Z in
  let hr := set_reg SOLAR_CURRENT_REG current_reg hr in
  let status_reg := if (power_w >? 0)%Z then 1%Z else 0%Z in
  let hr := set_reg SOLAR_STATUS_REG status_reg hr in
  modify (with_store_1 hr) ;;
  ret {| sd_power_w := power_w;
         sd_energy_wh := py_int (solar_energy_wh self);
         sd_voltage_v := inject_Z voltage_reg / 10;
         sd_current_a := inject_Z current_reg / 10;
         sd_status := status_reg |}.

(** [update_battery_registers]. *)
Definition update_battery_registers (solar_power_w : Z) (load_power_w : Q)
    (env : Env) : Exec t BatteryData :=
  let net_power := load_power_w - inject_Z solar_power_w in
  status <- zoom battery with_battery
              (Battery.update (net_power / 1000.0) 1.0
                 (env_battery_variation env)) ;;
  self <- get ;;
  let hr := store_2 self in
  let hr := set_reg BATTERY_SOC_REG (py_int (Battery.st_soc status)) hr in
  let power_w := py_int (Battery.st_power_kw status * 1000) in
  let hr := set_reg32 BATTERY_POWER_REG (_int32_to_registers power_w) hr in
  let hr :=
    set_reg BATTERY_VOLTAGE_REG (py_int (Battery.st_voltage status * 10)) hr in
  let hr :=
    set_reg BATTERY_CURRENT_REG (py_int (Battery.st_current status * 10)) hr in
  let hr :=
    set_reg BATTERY_TEMP_REG (py_int (Battery.st_temperature status * 10)) hr in
  let status_reg :=
    if (Z.abs power_w <? 50)%Z then 0%Z
    else if (power_w <? 0)%Z then 1%Z
    else 2%Z in
  let hr := set_reg BATTERY_STATUS_REG status_reg hr in
  let capacity_wh := py_int (Battery.st_capacity_kwh status * 1000) in
  let hr := set_reg32 BATTERY_CAPACITY_REG (_uint32_to_registers capacity_wh) hr in
  let hr :=
    set_reg32 BATTERY_CHARGE_LIMIT_REG
      (_int32_to_registers
         (py_int (Battery.st_max_charge_power_kw status * 1000))) hr in
  let hr :=
    set_reg32 BATTERY_DISCHARGE_LIMIT_REG
      (_int32_to_registers
         (py_int (Battery.st_max_discharge_power_kw status * 1000))) hr in
  modify (with_store_2 hr) ;;
  ret {| bd_soc := Battery.st_soc status;
         bd_power_w := power_w;
         bd_voltage_v := Battery.st_voltage status;
         bd_current_a := Battery.st_current status;
         bd_temperature_c := Battery.st_temperature status;
         bd_status := status_reg |}.

(** [update_ev_registers]. *)
Definition update_ev_registers (env : Env) : Exec t EVData :=
  status <- zoom ev with_ev (EV.update (env_ev env)) ;;
  self <- get ;;
  let hr := store_4 self in
  let hr :=
    set_reg32 EV_POWER_REG
      (_int32_to_registers (py_int (EV.st_power_w status))) hr in
  let hr :=
    set_reg32 EV_ENERGY_REG
      (_uint32_to_registers (py_int (EV.st_session_energy_wh status))) hr in
  let hr := set_reg EV_SOC_REG (py_int (EV.st_vehicle_soc status)) hr in
  let hr := set_reg EV_STATUS_REG (EV.st_status_code status) hr in
  let hr :=
    set_reg32 EV_MAX_POWER_REG
      (_int32_to_registers (py_int (EV.st_max_power_w status))) hr in
  let hr :=
    set_reg EV_CURRENT_LIMIT_REG
      (py_int (EV.st_current_limit_a status * 10)) hr in
  modify (with_store_4 hr) ;;
  ret {| ed_power_w := EV.st_power_w status;
         ed_session_energy_wh := EV.st_session_energy_wh status;
         ed_vehicle_soc := EV.st_vehicle_soc status;
         ed_status := EV.st_status status;
         ed_status_code := EV.st_status_code status |}.

(** [_calculate_consumption]. *)
Definition _calculate_consumption (telemetry : Telemetry) : Z :=
  let solar := inject_Z (sd_power_w (tm_solar telemetry)) in
  let battery := inject_Z (bd_power_w (tm_battery telemetry)) in
  let grid := gd_power_w (tm_grid telemetry) in
  let ev := ed_power_w (tm_ev telemetry) in
  let consumption := solar + battery + grid - ev in
  Z.max 0 (py_int consumption).

(** [publish_telemetry]: nothing is sent while the client is not
    connected. *)
Definition publish_telemetry (telemetry : Telemetry) : Exec t unit :=
  self <- get ;;
  if negb (mqtt_connected self) then ret tt
  else
    modify (fun s =>
      with_published
        ({| pub_telemetry := telemetry;
            pub_home_consumption_w := _calculate_consumption telemetry |}
         :: published s) s).

Section WithMath.
Context {ML : MathLib}.

(** [update_grid_registers]. *)
Definition update_grid_registers (net_power_w : Z) (env : Env)
    : Exec t GridData :=
  status <- zoom grid with_grid
              (Grid.update (inject_Z net_power_w) (env_grid env)) ;;
  self <- get ;;
  let hr := store_3 self in
  let hr :=
    set_reg32 GRID_POWER_REG
      (_int32_to_registers (py_int (Grid.st_power_w status))) hr in
  let hr :=
    set_reg32 GRID_REACTIVE_REG
      (_int32_to_registers (py_int (Grid.st_reactive_power_var status))) hr in
  let hr :=
    set_reg GRID_VOLTAGE_L1_REG (py_int (Grid.st_voltage_l1 status * 10)) hr in
  let hr :=
    set_reg GRID_VOLTAGE_L2_REG (py_int (Grid.st_voltage_l2 status * 10)) hr in
  let hr :=
    set_reg GRID_VOLTAGE_L3_REG (py_int (Grid.st_voltage_l3 status * 10)) hr in
  let hr :=
    set_reg GRID_CURRENT_L1_REG (py_int (Grid.st_current_l1 status * 100)) hr in
  let hr :=
    set_reg GRID_CURRENT_L2_REG (py_int (Grid.st_current_l2 status * 100)) hr in
  let hr :=
    set_reg GRID_CURRENT_L3_REG (py_int (Grid.st_current_l3 status * 100)) hr in
  let hr :=
    set_reg GRID_FREQUENCY_REG (py_int (Grid.st_frequency status * 100)) hr in
  let hr :=
    set_reg32 GRID_IMPORT_ENERGY_REG
      (_uint32_to_registers (py_int (Grid.st_import_energy_wh status))) hr in
  let hr :=
    set_reg32 GRID_EXPORT_ENERGY_REG
      (_uint32_to_registers (py_int (Grid.st_export_energy_wh status))) hr in
  modify (with_store_3 hr) ;;
  ret {| gd_power_w := Grid.st_power_w status;
         gd_voltage_v := Grid.st_voltage_l1 status;
         gd_frequency_hz := Grid.st_frequency status;
         gd_import_energy_wh := Grid.st_import_energy_wh status;
         gd_export_energy_wh := Grid.st_export_energy_wh status |}.

(** The body of the [try] block of [update_loop]. *)
Definition tick_body (env : Env) : Exec t Tick :=
  solar_data <- update_solar_registers env ;;
  ev_data <- update_ev_registers env ;;
  let total_load_w := base_load_w + ed_power_w ev_data in
  battery_data <-
    update_battery_registers (sd_power_w solar_data) total_load_w env ;;
  let net_grid_w :=
    total_load_w - inject_Z (sd_power_w solar_data)
    - inject_Z (bd_power_w battery_data) in
  grid_data <- update_grid_registers (py_int net_grid_w) env ;;
  let telemetry :=
    {| tm_solar := solar_data; tm_battery := battery_data;
       tm_grid := grid_data; tm_ev := ev_data |} in
  publish_telemetry telemetry ;;
  modify (with_last_update (env_time_end env)) ;;
  ret {| tk_total_load_w := total_load_w;
         tk_net_grid_w := py_int net_grid_w;
         tk_telemetry := telemetry |}.

(** One iteration of [update_loop]: the [try] block, and the handler
    that logs whatever escaped it. *)
Definition tick (env : Env) (self : t) : t * option Tick :=
  match tick_body env self with
  | (self', Ok tk) => (self', Some tk)
  | (self', Raise e) => (with_error_log (e :: error_log self') self', None)
  end.

(** The first iterations of [update_loop], one per environment reading. *)
Fixpoint update_loop (envs : list Env) (self : t) : t :=
  match envs with
  | [] => self
  | env :: rest => update_loop rest (fst (tick env self))
  end.

End WithMath.

(** [__init__], for the ratings and the draws and clock it reads. *)
Definition init (battery_capacity_kwh ev_charger_power_kw : Q)
    (battery_variation : Q) (ev_env : EV.Env) (now : Q) : t :=
  {| solar_energy_wh := 0.0;
     last_update := now;
     battery := Battery.init battery_capacity_kwh 5.0 50.0
                  Battery.MIN_SOC Battery.MAX_SOC battery_variation;
     grid := Grid.init Grid.MAX_GRID_POWER_KW 0.0 0.0 now;
     ev := EV.init ev_charger_power_kw EV.DEFAULT_VEHICLE_CAPACITY_KWH 18 7
             ev_env;
     store_1 := repeat 0%Z 100;
     store_2 := repeat 0%Z 100;
     store_3 := repeat 0%Z 100;
     store_4 := repeat 0%Z 100;
     mqtt_connected := false;
     published := [];
     error_log := [] |}.

(** The discharge and charge parts of a signed battery power. *)
Definition battery_discharge_power (p : Q) : Q := py_max 0 p.
Definition battery_charge_power (p : Q) : Q := py_max 0 (- p).

(** An iteration left a device alone: its model and its register bank
    are what they were. *)
Definition ev_untouched (before after : t) : Prop :=
  ev after = ev before /\ store_4 after = store_4 before.

Definition battery_untouched (before after : t) : Prop :=
  battery after = battery before /\ store_2 after = store_2 before.

Definition grid_untouched (before after : t) : Prop :=
  grid after = grid before /\ store_3 after = store_3 before.

(** The grid meter was updated in the iteration: its model is the one
    some call of [update] leaves. *)
Definition grid_updated {ML : MathLib} (env : Env) (before after : t) : Prop :=
  exists net : Q,
    grid after = state_of (Grid.update net (env_grid env) (grid before)).

(** A server one second after start, its vehicle plugged at 30 %, and
    what the next iteration reads: 1234.5 W of sun at 19:00. *)
Definition sample_ev_env (now : Q) : EV.Env :=
  {| EV.env_time := now; EV.env_hour := 19; EV.env_arrival_soc := 30;
     EV.env_variation := 1 |}.

Definition sample_env : Env :=
  {| env_solar := Ok 1234.5;
     env_time := 1001;
     env_ev := sample_ev_env 1001;
     env_battery_variation := 1;
     env_grid := Grid.scenario_c_env;
     env_time_end := 1001 |}.

Definition sample_server : t := init 13.5 11 1 (sample_ev_env 1000) 1000.

(** The same server configured with [BATTERY_CAPACITY_KWH=0]. *)
Definition zero_capacity_server : t := init 0 11 1 (sample_ev_env 1000) 1000.

End Server.

(* ------------------------------------------------------------------ *)
(** * Properties: numbers and effects *)
(* ------------------------------------------------------------------ *)

Section PyFacts.
Local Open Scope Q_scope.

Lemma Qltb_spec (a b : Q) : BoolSpec (a < b) (b <= a) (a <? b).
Proof.
  unfold Qltb. destruct (Qle_bool b a) eqn:E; constructor.
  - apply Qle_bool_iff. exact E.
  - apply Qnot_le_lt. intro H. apply Qle_bool_iff in H. congruence.
Qed.

Lemma Qleb_spec (a b : Q) : BoolSpec (a <= b) (b < a) (a <=? b).
Proof.
  unfold Qleb. destruct (Qle_bool a b) eqn:E; constructor.
  - apply Qle_bool_iff. exact E.
  - apply Qnot_le_lt. intro H. apply Qle_bool_iff in H. congruence.
Qed.

Lemma Qgtb_spec (a b : Q) : BoolSpec (b < a) (a <= b) (a >? b).
Proof. unfold Qgtb. apply Qltb_spec. Qed.

Lemma Qgeb_spec (a b : Q) : BoolSpec (b <= a) (a < b) (a >=? b).
Proof. unfold Qgeb. apply Qleb_spec. Qed.

Lemma Qeqb_spec (a b : Q) : BoolSpec (a == b) (~ a == b) (a =? b).
Proof.
  destruct (Qeq_bool a b) eqn:E; constructor.
  - apply Qeq_bool_iff. exact E.
  - intro H. apply Qeq_bool_iff in H. congruence.
Qed.

Lemma Qneqb_spec (a b : Q) : BoolSpec (~ a == b) (a == b) (a !=? b).
Proof. unfold Qneqb. destruct (Qeqb_spec a b); constructor; assumption. Qed.

Lemma py_max_spec (a b : Q) :
  (a < b /\ py_max a b = b) \/ (b <= a /\ py_max a b = a).
Proof. unfold py_max. destruct (Qgtb_spec b a); auto. Qed.

Lemma py_min_spec (a b : Q) :
  (b < a /\ py_min a b = b) \/ (a <= b /\ py_min a b = a).
Proof. unfold py_min. destruct (Qltb_spec b a); auto. Qed.

Lemma py_max_lower (a b : Q) : a <= py_max a b.
Proof. destruct (py_max_spec a b) as [[H ->]|[H ->]]; lra. Qed.

Lemma py_max_upper (a b c : Q) : a <= c -> b <= c -> py_max a b <= c.
Proof. intros. destruct (py_max_spec a b) as [[H1 ->]|[H1 ->]]; lra. Qed.

Lemma py_min_upper (a b : Q) : py_min a b <= a.
Proof. destruct (py_min_spec a b) as [[H ->]|[H ->]]; lra. Qed.

(** [max(lo, min(hi, x))] lands in [[lo, hi]] as soon as the interval is
    not empty. *)
Lemma py_clamp_bounds (lo hi x : Q) :
  lo <= hi -> lo <= py_max lo (py_min hi x) /\ py_max lo (py_min hi x) <= hi.
Proof.
  intro H. split; [apply py_max_lower|].
  apply py_max_upper; [exact H|apply py_min_upper].
Qed.

(** With an empty interval the same expression returns [lo]. *)
Lemma py_clamp_empty (lo hi x : Q) :
  hi < lo -> py_max lo (py_min hi x) = lo.
Proof.
  intro H. destruct (py_max_spec lo (py_min hi x)) as [[H1 _]|[_ ->]];
    [|reflexivity].
  pose proof (py_min_upper hi x). lra.
Qed.

Lemma py_clamp_above (lo hi x : Q) :
  lo <= hi -> hi < x -> py_max lo (py_min hi x) == hi.
Proof.
  intros H1 H2.
  destruct (py_min_spec hi x) as [[H3 ->]|[H3 ->]]; [lra|].
  destruct (py_max_spec lo hi) as [[H4 ->]|[H4 ->]]; lra.
Qed.

Lemma py_clamp_below (lo hi x : Q) :
  lo <= hi -> x < lo -> py_max lo (py_min hi x) = lo.
Proof.
  intros H1 H2.
  destruct (py_min_spec hi x) as [[H3 ->]|[H3 ->]];
    destruct (py_max_spec lo x) as [[H4 E]|[H4 E]];
    destruct (py_max_spec lo hi) as [[H5 E']|[H5 E']];
    try assumption; try lra.
Qed.

Lemma py_clamp_inside (lo hi x : Q) :
  lo <= x -> x <= hi -> py_max lo (py_min hi x) == x.
Proof.
  intros H1 H2.
  destruct (py_min_spec hi x) as [[H3 ->]|[H3 ->]];
    [destruct (py_max_spec lo x) as [[H4 ->]|[H4 ->]]; lra
    |destruct (py_max_spec lo hi) as [[H4 ->]|[H4 ->]]; lra].
Qed.

(** [int(x)] is within one unit of [x]. *)
Lemma py_int_error (x : Q) : Qabs (inject_Z (py_int x) - x) < 1.
Proof.
  apply Qabs_Qlt_condition. unfold py_int.
  destruct (Qleb_spec 0 x) as [H|H].
  - pose proof (Qfloor_le x). pose proof (Qlt_floor x) as Hf.
    rewrite inject_Z_plus in Hf. change (inject_Z 1) with 1 in Hf. lra.
  - pose proof (Qle_ceiling x). pose proof (Qceiling_lt x) as Hc.
    unfold Z.sub in Hc. rewrite inject_Z_plus in Hc.
    change (inject_Z (- (1))) with (- (1)) in Hc. lra.
Qed.

(** [int] of a whole number is that number. *)
Lemma py_int_inject_Z (z : Z) : py_int (inject_Z z) = z.
Proof.
  unfold py_int. destruct (0 <=? inject_Z z);
    [apply Qfloor_Z|apply Qceiling_Z].
Qed.

Lemma round_half_even_error (x : Q) :
  Qabs (inject_Z (round_half_even x) - x) <= 1 # 2.
Proof.
  apply Qabs_Qle_condition. unfold round_half_even.
  pose proof (Qfloor_le x) as Hlo. pose proof (Qlt_floor x) as Hhi.
  rewrite inject_Z_plus in Hhi. change (inject_Z 1) with 1 in Hhi.
  destruct (Qcompare_spec (x - inject_Z (Qfloor x)) (1 # 2)) as [E|E|E].
  - destruct (Z.even (Qfloor x));
      [|rewrite inject_Z_plus; change (inject_Z 1) with 1]; lra.
  - lra.
  - rewrite inject_Z_plus. change (inject_Z 1) with 1. lra.
Qed.

(** Rounding respects the equality of rationals, and returns a reduced
    fraction. *)
Lemma round_half_even_comp (x y : Q) :
  x == y -> round_half_even x = round_half_even y.
Proof.
  intro H. unfold round_half_even.
  rewrite (Qfloor_comp x y H).
  assert (E : x - inject_Z (Qfloor y) == y - inject_Z (Qfloor y))
    by (rewrite H; reflexivity).
  rewrite (Qcompare_comp _ _ E (1 # 2) (1 # 2) (Qeq_refl _)). reflexivity.
Qed.

Lemma py_round_comp (x y : Q) (n : nat) :
  x == y -> py_round x n = py_round y n.
Proof.
  intro H. unfold py_round. apply Qred_complete.
  set (s := inject_Z (10 ^ Z.of_nat n)).
  rewrite (round_half_even_comp (x * s) (y * s)); [reflexivity|].
  rewrite H. reflexivity.
Qed.

(** [round(x, n)] is within half a unit of the last place of [x]. *)
Lemma py_round_error (x : Q) (n : nat) :
  Qabs (py_round x n - x) <= (1 # 2) / inject_Z (10 ^ Z.of_nat n).
Proof.
  unfold py_round. rewrite Qred_correct.
  set (s := inject_Z (10 ^ Z.of_nat n)).
  assert (Hs : 0 < s).
  { unfold s. change 0 with (inject_Z 0). rewrite <- Zlt_Qlt.
    apply Z.pow_pos_nonneg; lia. }
  pose proof (round_half_even_error (x * s)) as He.
  apply Qabs_Qle_condition in He. apply Qabs_Qle_condition.
  set (r := inject_Z (round_half_even (x * s))) in *.
  assert (Hns : ~ s == 0) by lra.
  split; apply (Qmult_le_r _ _ s Hs).
  - setoid_replace (- ((1 # 2) / s) * s) with (- (1 # 2))
      by (field; exact Hns).
    setoid_replace ((r / s - x) * s) with (r - x * s) by (field; exact Hns).
    apply He.
  - setoid_replace ((1 # 2) / s * s) with (1 # 2) by (field; exact Hns).
    setoid_replace ((r / s - x) * s) with (r - x * s) by (field; exact Hns).
    apply He.
Qed.

End PyFacts.

(** Case analysis on the comparisons and on [max]/[min] of a goal. *)
Ltac qcase :=
  match goal with
  | |- context [Qltb ?a ?b] => destruct (Qltb_spec a b)
  | |- context [Qleb ?a ?b] => destruct (Qleb_spec a b)
  | |- context [Qgtb ?a ?b] => destruct (Qgtb_spec a b)
  | |- context [Qgeb ?a ?b] => destruct (Qgeb_spec a b)
  | |- context [Qneqb ?a ?b] => destruct (Qneqb_spec a b)
  | |- context [Qeq_bool ?a ?b] => destruct (Qeqb_spec a b)
  end.

(** Linear arithmetic does not read a division: [qinv c] turns the
    division by the constant [c] into a product with a literal. *)
Ltac qinv c :=
  unfold Qdiv in *;
  let v := eval vm_compute in (Qinv c) in
  change (Qinv c) with v in *.

(** Unfolding of the monad's plumbing. *)
Ltac exec_unfold :=
  unfold bind, ret, raise, get, gets, modify, zoom, state_of, outcome_of in *.

Section ExecFacts.
Context {S A B : Type}.

Lemma bind_ok (m : Exec S A) (k : A -> Exec S B) (s s' : S) (a : A) :
  m s = (s', Ok a) -> bind m k s = k a s'.
Proof. intro H. unfold bind. rewrite H. reflexivity. Qed.

Lemma bind_raise (m : Exec S A) (k : A -> Exec S B) (s s' : S) (e : exn) :
  m s = (s', Raise e) -> bind m k s = (s', Raise e).
Proof. intro H. unfold bind. rewrite H. reflexivity. Qed.

(** A sequence that returns has run both of its parts. *)
Lemma bind_inv_ok (m : Exec S A) (k : A -> Exec S B) (s s2 : S) (b : B) :
  bind m k s = (s2, Ok b) ->
  exists s1 a, m s = (s1, Ok a) /\ k a s1 = (s2, Ok b).
Proof.
  unfold bind. destruct (m s) as [s1 [a|e]]; intro H.
  - exists s1, a. split; [reflexivity|exact H].
  - discriminate.
Qed.

End ExecFacts.

Lemma py_div_cases {S : Type} (a b : Q) (s : S) :
  (b == 0 /\ py_div a b s = (s, Raise ZeroDivisionError)) \/
  (~ b == 0 /\ py_div a b s = (s, Ok (a / b))).
Proof. unfold py_div. destruct (Qeqb_spec b 0); [left|right]; auto. Qed.

(* ------------------------------------------------------------------ *)
(** * Properties: register encoding *)
(* ------------------------------------------------------------------ *)

Section RegisterFacts.
Import Registers.
Local Open Scope Z_scope.

(** ** Arithmetic reading of the bit operations *)

Lemma land_FFFF (x : Z) : Z.land x 0xFFFF = x mod 2 ^ 16.
Proof. change 0xFFFF with (Z.ones 16). apply Z.land_ones. lia. Qed.

Lemma land_FFFFFFFF (x : Z) : Z.land x 0xFFFFFFFF = x mod 2 ^ 32.
Proof. change 0xFFFFFFFF with (Z.ones 32). apply Z.land_ones. lia. Qed.

Lemma land_shifted_low (hi lo : Z) :
  0 <= lo < 2 ^ 16 -> Z.land (hi * 2 ^ 16) lo = 0.
Proof.
  intros Hlo. apply Z.bits_inj'. intros n Hn.
  rewrite Z.land_spec, Z.bits_0.
  destruct (Z.ltb_spec n 16) as [Hlt|Hge].
  - rewrite Z.mul_pow2_bits_low by lia. reflexivity.
  - destruct (Z.eq_dec lo 0) as [->|Hnz].
    + rewrite Z.bits_0. apply andb_false_r.
    + rewrite (Z.bits_above_log2 lo n); [apply andb_false_r|lia|].
      assert (Z.log2 lo < 16) by (apply Z.log2_lt_pow2; lia). lia.
Qed.

Lemma decode_uint32_arith (hi lo : Z) :
  0 <= lo < 2 ^ 16 -> decode_uint32 (hi, lo) = hi * 2 ^ 16 + lo.
Proof.
  intros Hlo. unfold decode_uint32. cbn [fst snd].
  rewrite Z.shiftl_mul_pow2 by lia.
  pose proof (land_shifted_low hi lo Hlo) as Hland.
  rewrite <- Z.lxor_lor by exact Hland.
  symmetry. apply Z.add_nocarry_lxor. exact Hland.
Qed.

(** Division and remainder by the two powers, by linear arithmetic. *)
Ltac cells_arith :=
  change (2 ^ 16) with 65536 in *; change (2 ^ 32) with 4294967296 in *;
  Z.div_mod_to_equations; lia.

(** The split of a value into two cells keeps its low 32 bits. *)
Lemma split_cells (v : Z) :
  (Z.land (Z.shiftr v 16) 0xFFFF, Z.land v 0xFFFF)
  = ((v mod 2 ^ 32) / 2 ^ 16, v mod 2 ^ 16).
Proof.
  rewrite !land_FFFF, Z.shiftr_div_pow2 by lia.
  f_equal. cells_arith.
Qed.

Lemma int32_to_registers_cells (v : Z) :
  _int32_to_registers v = ((v mod 2 ^ 32) / 2 ^ 16, v mod 2 ^ 16).
Proof.
  unfold _int32_to_registers. cbv zeta. rewrite split_cells.
  destruct (v <? 0); [|reflexivity].
  change 0x100000000 with 4294967296. f_equal; cells_arith.
Qed.

Lemma uint32_to_registers_cells (v : Z) :
  _uint32_to_registers v = ((v mod 2 ^ 32) / 2 ^ 16, v mod 2 ^ 16).
Proof.
  unfold _uint32_to_registers. cbv zeta.
  rewrite split_cells, land_FFFFFFFF. f_equal; cells_arith.
Qed.

Lemma decode_cells (v : Z) :
  decode_uint32 ((v mod 2 ^ 32) / 2 ^ 16, v mod 2 ^ 16) = v mod 2 ^ 32.
Proof.
  rewrite decode_uint32_arith by (apply Z.mod_pos_bound; lia).
  cells_arith.
Qed.

(** The two cells of a split are 16-bit register values. *)
Lemma cells_are_registers (v : Z) :
  is_register ((v mod 2 ^ 32) / 2 ^ 16) /\ is_register (v mod 2 ^ 16).
Proof.
  unfold is_register. change 0xFFFF with 65535. split; cells_arith.
Qed.

(** C3.  Round trip of the 32-bit encoders.  A signed value of
    [-2^31, 2^31) written by [_int32_to_registers] and an unsigned value
    of [0, 2^32) written by [_uint32_to_registers] are each split into a
    pair of 16-bit register values - both cells are within [0, 0xFFFF],
    the first the high half and the second the low half of the 32-bit
    pattern - and the value is read back unchanged when the pair is
    recombined high word first (and, for the signed field, reinterpreted
    as two's complement). *)
Theorem register_roundtrip (s u : Z) :
  - 2 ^ 31 <= s < 2 ^ 31 ->
  0 <= u < 2 ^ 32 ->
  (is_register (fst (_int32_to_registers s)) /\
   is_register (snd (_int32_to_registers s)) /\
   _int32_to_registers s = ((s mod 2 ^ 32) / 2 ^ 16, s mod 2 ^ 16) /\
   decode_int32 (_int32_to_registers s) = s) /\
  (is_register (fst (_uint32_to_registers u)) /\
   is_register (snd (_uint32_to_registers u)) /\
   _uint32_to_registers u = (u / 2 ^ 16, u mod 2 ^ 16) /\
   decode_uint32 (_uint32_to_registers u) = u).
Proof.
  intros Hs Hu. split.
  - rewrite int32_to_registers_cells. cbn [fst snd].
    split; [apply cells_are_registers|].
    split; [apply cells_are_registers|].
    split; [reflexivity|].
    unfold decode_int32. cbv zeta. rewrite decode_cells.
    change 0x80000000 with 2147483648. change 0x100000000 with 4294967296.
    destruct (Z.leb_spec 2147483648 (s mod 2 ^ 32)); cells_arith.
  - rewrite uint32_to_registers_cells. cbn [fst snd].
    split; [apply cells_are_registers|].
    split; [apply cells_are_registers|].
    split; [rewrite (Z.mod_small u (2 ^ 32)) by exact Hu; reflexivity|].
    rewrite decode_cells. apply Z.mod_small. exact Hu.
Qed.

Lemma register_roundtrip_witness :
  (- 2 ^ 31 <= -123456 < 2 ^ 31) /\ (0 <= 4000000000 < 2 ^ 32) /\
  (is_register (fst (_int32_to_registers (-123456))) /\
   is_register (snd (_int32_to_registers (-123456))) /\
   _int32_to_registers (-123456)
   = ((-123456 mod 2 ^ 32) / 2 ^ 16, -123456 mod 2 ^ 16) /\
   decode_int32 (_int32_to_registers (-123456)) = -123456) /\
  (is_register (fst (_uint32_to_registers 4000000000)) /\
   is_register (snd (_uint32_to_registers 4000000000)) /\
   _uint32_to_registers 4000000000
   = (4000000000 / 2 ^ 16, 4000000000 mod 2 ^ 16) /\
   decode_uint32 (_uint32_to_registers 4000000000) = 4000000000).
Proof.
  split; [lia|]. split; [lia|].
  apply (register_roundtrip (-123456) 4000000000); lia.
Defined.

(** C7, as the specification states it, fails: the first value above the
    signed range is stored as the bit pattern of the lowest signed value
    and not as the highest one, and the first value above the unsigned
    range is stored as zero. *)
Lemma register_overflow_counterexample :
  ~ (decode_int32 (_int32_to_registers 0x80000000) = clamp_int32 0x80000000) /\
  decode_int32 (_int32_to_registers 0x80000000) = INT32_MIN /\
  ~ (decode_uint32 (_uint32_to_registers 0x100000000)
     = clamp_uint32 0x100000000) /\
  decode_uint32 (_uint32_to_registers 0x100000000) = 0.
Proof. repeat split; vm_compute; congruence. Qed.

(** C7, amended.  For every integer, inside the 32-bit range or not,
    both encoders store the value reduced modulo 2^32: the high cell is
    [(v mod 2^32) / 2^16], the low cell [v mod 2^16], and reading the
    pair back gives [v mod 2^32].  Nothing is clamped and the result
    carries no overflow mark: it is the pair of cells alone. *)
Theorem register_overflow_wraps (v : Z) :
  _int32_to_registers v = ((v mod 2 ^ 32) / 2 ^ 16, v mod 2 ^ 16) /\
  _uint32_to_registers v = ((v mod 2 ^ 32) / 2 ^ 16, v mod 2 ^ 16) /\
  decode_uint32 (_int32_to_registers v) = v mod 2 ^ 32 /\
  decode_uint32 (_uint32_to_registers v) = v mod 2 ^ 32.
Proof.
  rewrite int32_to_registers_cells, uint32_to_registers_cells, decode_cells.
  repeat split; reflexivity.
Qed.

End RegisterFacts.

(* ------------------------------------------------------------------ *)
(** * Properties: battery model *)
(* ------------------------------------------------------------------ *)

Module BatteryFacts.
Import Battery.
Local Open Scope Q_scope.

Ltac bat_simpl :=
  cbv beta iota zeta
    delta [bind ret raise get gets modify zoom state_of outcome_of fst snd]
    in *;
  cbn [capacity_kwh max_power_kw soc min_soc max_soc power_kw voltage current
       temperature total_charged_kwh total_discharged_kwh cycle_count
       is_charging is_discharging
       with_soc with_power_kw with_voltage with_current with_temperature
       with_total_charged_kwh with_total_discharged_kwh with_cycle_count
       with_is_charging with_is_discharging] in *.

(** Split on whether the next division raises, in the goal or in [H]. *)
Ltac div_case :=
  match goal with
  | |- context [@py_div ?S ?a ?b ?s] =>
      let E := fresh "E" in
      let Hz := fresh "Hz" in
      destruct (@py_div_cases S a b s) as [[Hz E]|[Hz E]]; rewrite E; clear E
  end.

Ltac div_case_in H :=
  match type of H with
  | context [@py_div ?S ?a ?b ?s] =>
      let E := fresh "E" in
      let Hz := fresh "Hz" in
      destruct (@py_div_cases S a b s) as [[Hz E]|[Hz E]];
      rewrite E in H; clear E
  end.

Ltac if_case :=
  match goal with
  | |- context [if ?c then _ else _] => destruct c
  end.

Ltac if_case_in H :=
  match type of H with
  | context [if ?c then _ else _] => destruct c
  end.

Lemma init_inv (capacity max_power initial_soc lo hi v : Q) :
  lo <= hi -> inv lo hi (init capacity max_power initial_soc lo hi v).
Proof.
  intro H. unfold inv, init. bat_simpl.
  split; [reflexivity|]. split; [reflexivity|].
  apply py_clamp_bounds. exact H.
Qed.

(** [update] keeps the invariant, in the state it returns with and in
    the state it leaves behind when a division raises. *)
Lemma update_inv (lo hi p dt v : Q) (b : t) :
  lo <= hi -> inv lo hi b -> inv lo hi (state_of (update p dt v b)).
Proof.
  intros Hne (Hlo & Hhi & Hb). unfold inv. subst lo hi.
  unfold update, _calculate_temperature.
  destruct (p <? 0); bat_simpl;
    repeat (div_case; bat_simpl; auto);
    repeat (if_case; bat_simpl);
    repeat (div_case; bat_simpl; auto);
    (split; [reflexivity|split; [reflexivity|]]);
    apply py_clamp_bounds; assumption.
Qed.

Lemma set_soc_inv (lo hi x v : Q) (b : t) :
  lo <= hi -> inv lo hi b -> inv lo hi (state_of (set_soc x v b)).
Proof.
  intros Hne (Hlo & Hhi & Hb). unfold inv, set_soc. subst lo hi. bat_simpl.
  split; [reflexivity|]. split; [reflexivity|].
  apply py_clamp_bounds. exact Hne.
Qed.

Lemma perform_inv (lo hi : Q) (c : call) (b : t) :
  lo <= hi -> inv lo hi b -> inv lo hi (perform c b).
Proof.
  intros Hne Hb. destruct c; cbn [perform];
    [apply update_inv|apply set_soc_inv]; assumption.
Qed.

Lemma trace_inv (lo hi : Q) (calls : list call) :
  lo <= hi -> forall b, inv lo hi b -> Forall (inv lo hi) (trace calls b).
Proof.
  intro Hne. induction calls as [|c rest IH]; intros b Hb; cbn [trace].
  - constructor.
  - pose proof (perform_inv lo hi c b Hne Hb) as Hc.
    constructor; [exact Hc|apply IH; exact Hc].
Qed.

(** C2.  Whatever the constructor arguments (with [min_soc <= max_soc])
    and whatever sequence of [update] and [set_soc] calls follows, with
    any requested powers, any time steps and any new SOC values, the
    state of charge is within [[min_soc, max_soc]] after construction
    and after every call - also in the state a call leaves behind when
    it raises. *)
Theorem battery_soc_bounds
    (capacity max_power initial_soc lo hi v0 : Q) (calls : list call) :
  lo <= hi ->
  Forall (fun b => min_soc b = lo /\ max_soc b = hi /\
                   min_soc b <= soc b /\ soc b <= max_soc b)
    (init capacity max_power initial_soc lo hi v0
     :: trace calls (init capacity max_power initial_soc lo hi v0)).
Proof.
  intro Hne.
  pose proof (init_inv capacity max_power initial_soc lo hi v0 Hne) as H0.
  assert (Hall : Forall (inv lo hi)
            (init capacity max_power initial_soc lo hi v0
             :: trace calls (init capacity max_power initial_soc lo hi v0))).
  { constructor; [exact H0|apply trace_inv; assumption]. }
  eapply Forall_impl; [|exact Hall].
  intros b (Hlo & Hhi & Hb1 & Hb2). rewrite Hlo, Hhi. auto.
Qed.

Lemma battery_soc_bounds_witness :
  5 <= 100 /\
  Forall (fun b => min_soc b = 5 /\ max_soc b = 100 /\
                   min_soc b <= soc b /\ soc b <= max_soc b)
    (init 13.5 5 50 5 100 1
     :: trace [CallUpdate (-3) 1 1; CallSetSoc 150 1; CallUpdate 10 3600 1;
               CallSetSoc (-4) 1; CallUpdate (-7) 7200 1]
          (init 13.5 5 50 5 100 1)).
Proof.
  split; [lra|].
  apply (battery_soc_bounds 13.5 5 50 5 100 1). lra.
Defined.

(** C4, as the specification states it, fails.  A battery built at
    5.001 % with the default reserve of 5 % is asked for 2 kW over one
    second: the unclamped state of charge falls below the reserve, the
    state of charge is clamped to 5 %, and the power kept and reported is
    the full 1.667 kW the limit allowed, not the power the 0.001 % drop
    accounts for, and not zero. *)
Lemma battery_clamp_counterexample :
  let b := init 13.5 5 5.001 5 100 1 in
  let b' := state_of (update 2 1 1 b) in
  clamping_changes_energy b 2 1 /\
  soc b' == min_soc b' /\
  power_kw b' == 1.667 /\
  (exists st, outcome_of (update 2 1 1 b) = Ok st /\ st_power_kw st == 1.667) /\
  ~ power_matches_energy b b' 2 1 /\
  ~ power_kw b' == 0.
Proof.
  cbv zeta. split; [left; vm_compute; reflexivity|].
  split; [vm_compute; reflexivity|].
  split; [vm_compute; reflexivity|].
  split.
  - eexists. split; [vm_compute; reflexivity|vm_compute; reflexivity].
  - split; intro H; vm_compute in H; discriminate H.
Qed.

(** What a returning [update] leaves in the attributes it assigns. *)
Lemma update_ok_shape (p dt v : Q) (b b' : t) (st : Status) :
  update p dt v b = (b', Ok st) ->
  power_kw b' = constrain_power b p /\
  st = get_status b' /\
  soc b' = py_max (min_soc b) (py_min (max_soc b) (unclamped_soc b p dt)) /\
  total_charged_kwh b'
  = (if p <? 0 then
       total_charged_kwh b
       + Qabs (constrain_power b p) * (dt / 3600.0) * _get_efficiency b true
     else total_charged_kwh b) /\
  total_discharged_kwh b'
  = (if p <? 0 then total_discharged_kwh b
     else total_discharged_kwh b + constrain_power b p * (dt / 3600.0)).
Proof.
  intro H.
  unfold update, _calculate_temperature, unclamped_soc, soc_change_of_power
    in *.
  destruct (p <? 0); bat_simpl;
    repeat (first [div_case_in H | if_case_in H];
            bat_simpl; try discriminate H);
    injection H as <- <-; bat_simpl; repeat split.
Qed.

Lemma constrain_power_full (p : Q) (b : t) :
  p < 0 -> max_soc b <= soc b -> constrain_power b p == 0.
Proof.
  intros Hp Hs. unfold constrain_power.
  destruct (Qltb_spec p 0); [|lra].
  destruct (Qgeb_spec (soc b) (max_soc b)); [reflexivity|lra].
Qed.

Lemma constrain_power_empty (p : Q) (b : t) :
  0 <= p -> soc b <= min_soc b -> constrain_power b p == 0.
Proof.
  intros Hp Hs. unfold constrain_power.
  destruct (Qltb_spec p 0); [lra|].
  destruct (Qleb_spec (soc b) (min_soc b)); [reflexivity|lra].
Qed.

(** C4, amended.  In every call of [update] that returns, the power
    kept, reported and used for the energy counters is the requested
    power limited by the charge and discharge limits of the state the
    call started in; it is zero when that state was already at the bound
    the request pushes against.  The state of charge is the clamped
    value, and clamping changes neither the power nor the counters. *)
Theorem battery_power_not_reduced (p dt v : Q) (b b' : t) (st : Status) :
  update p dt v b = (b', Ok st) ->
  power_kw b' = constrain_power b p /\
  st_power_kw st = py_round (constrain_power b p) 3 /\
  soc b' = py_max (min_soc b) (py_min (max_soc b) (unclamped_soc b p dt)) /\
  (p < 0 ->
   total_charged_kwh b'
   = total_charged_kwh b
     + Qabs (constrain_power b p) * (dt / 3600.0) * _get_efficiency b true) /\
  (0 <= p ->
   total_discharged_kwh b'
   = total_discharged_kwh b + constrain_power b p * (dt / 3600.0)) /\
  (p < 0 -> max_soc b <= soc b -> power_kw b' == 0) /\
  (0 <= p -> soc b <= min_soc b -> power_kw b' == 0).
Proof.
  intro H.
  destruct (update_ok_shape p dt v b b' st H)
    as (Hpow & Hst & Hsoc & Hch & Hdis).
  split; [exact Hpow|].
  split; [rewrite Hst; unfold get_status; cbn [st_power_kw];
          rewrite Hpow; reflexivity|].
  split; [exact Hsoc|].
  split; [|split; [|split]].
  - intro Hp. rewrite Hch. destruct (Qltb_spec p 0); [reflexivity|lra].
  - intro Hp. rewrite Hdis. destruct (Qltb_spec p 0); [lra|reflexivity].
  - intros Hp Hs. rewrite Hpow. apply constrain_power_full; assumption.
  - intros Hp Hs. rewrite Hpow. apply constrain_power_empty; assumption.
Qed.

Lemma battery_power_not_reduced_witness :
  exists b' st,
    update 2 1 1 (init 13.5 5 5.001 5 100 1) = (b', Ok st) /\
    power_kw b' = constrain_power (init 13.5 5 5.001 5 100 1) 2 /\
    st_power_kw st = py_round (constrain_power (init 13.5 5 5.001 5 100 1) 2) 3.
Proof.
  assert (H : update 2 1 1 (init 13.5 5 5.001 5 100 1)
              = (state_of (update 2 1 1 (init 13.5 5 5.001 5 100 1)),
                 Ok (get_status
                       (state_of (update 2 1 1 (init 13.5 5 5.001 5 100 1)))))).
  { vm_compute. reflexivity. }
  eexists. eexists. split; [exact H|].
  split;
    apply (battery_power_not_reduced 2 1 1 (init 13.5 5 5.001 5 100 1) _ _ H).
Defined.

End BatteryFacts.

(* ------------------------------------------------------------------ *)
(** * Properties: EV charger model *)
(* ------------------------------------------------------------------ *)

Module EVFacts.
Import EV.
Local Open Scope Q_scope.

Ltac ev_simpl :=
  cbv beta iota zeta
    delta [bind ret raise get gets modify zoom state_of outcome_of fst snd]
    in *;
  cbn [max_power_kw vehicle_capacity_kwh arrival_hour departure_hour
       max_current current_limit status power_w session_energy_wh
       total_energy_wh vehicle_connected vehicle_soc vehicle_target_soc
       session_start last_update
       with_current_limit with_status with_power_w with_session_energy_wh
       with_total_energy_wh with_vehicle_connected with_vehicle_soc
       with_vehicle_target_soc with_session_start with_last_update] in *.

Ltac div_case :=
  match goal with
  | |- context [@py_div ?S ?a ?b ?s] =>
      let E := fresh "E" in
      let Hz := fresh "Hz" in
      destruct (@py_div_cases S a b s) as [[Hz E]|[Hz E]]; rewrite E; clear E
  end.

(** A positive charging power is only computed below the target. *)
Lemma charging_power_pos_below_target (s : t) (v : Q) :
  0 < _calculate_charging_power s v -> vehicle_soc s < vehicle_target_soc s.
Proof.
  unfold _calculate_charging_power.
  destruct (negb (vehicle_connected s)); [intro H; lra|].
  destruct (negb (status_eqb (status s) CHARGING)); [intro H; lra|].
  destruct (Qgeb_spec (vehicle_soc s) (vehicle_target_soc s)) as [Hge|Hlt];
    [intro H0; lra|intros _; exact Hlt].
Qed.

(** At or above the target the computed power is the literal zero. *)
Lemma charging_power_zero_at_target (s : t) (v : Q) :
  vehicle_target_soc s <= vehicle_soc s -> _calculate_charging_power s v = 0.0.
Proof.
  intro H. unfold _calculate_charging_power.
  destruct (negb (vehicle_connected s)); [reflexivity|].
  destruct (negb (status_eqb (status s) CHARGING)); [reflexivity|].
  destruct (Qgeb_spec (vehicle_soc s) (vehicle_target_soc s)) as [Hge|Hlt];
    [reflexivity|lra].
Qed.

(** The schedule block never raises. *)
Lemma handle_schedule_ok (env : Env) (s : t) :
  handle_schedule env s = (state_of (handle_schedule env s), Ok tt).
Proof.
  unfold handle_schedule, connect_vehicle, disconnect_vehicle. ev_simpl.
  destruct (negb (vehicle_connected s));
    [destruct (in_window s (env_hour env))
    |destruct (past_departure s (env_hour env))];
    reflexivity.
Qed.

(** After the charging block, a vehicle at or above its target draws
    nothing - in the state the block returns with and in the state it
    leaves behind when its division raises. *)
Lemma charge_step_idle (dt : Q) (env : Env) (s : t) :
  let s' := state_of (charge_step dt env s) in
  vehicle_target_soc s' <= vehicle_soc s' -> power_w s' = 0.0.
Proof.
  unfold charge_step. ev_simpl.
  destruct (Qgtb_spec (_calculate_charging_power s (env_variation env)) 0)
    as [Hpos|Hnonpos]; ev_simpl.
  - pose proof (charging_power_pos_below_target s _ Hpos) as Hlt.
    div_case; ev_simpl.
    + intro H. lra.
    + destruct (Qgeb_spec
                  (py_min 100
                     (vehicle_soc s
                      + _calculate_charging_power s (env_variation env) * dt
                        * CHARGING_EFFICIENCY
                        / (vehicle_capacity_kwh s * 1000) * 100))
                  (vehicle_target_soc s)) as [Hge|Hlt'];
        ev_simpl; intro H; [reflexivity|lra].
  - intro H. apply charging_power_zero_at_target. exact H.
Qed.

(** The step in which a charging vehicle reaches its target. *)
Lemma charge_step_finishes (dt : Q) (env : Env) (s : t) :
  let s' := state_of (charge_step dt env s) in
  0 < _calculate_charging_power s (env_variation env) ->
  vehicle_target_soc s' <= vehicle_soc s' ->
  charge_step dt env s = (s', Ok tt) /\
  status s' = FINISHING /\ power_w s' = 0.0.
Proof.
  unfold charge_step. ev_simpl. intro Hpos.
  pose proof (charging_power_pos_below_target s _ Hpos) as Hlt.
  destruct (Qgtb_spec (_calculate_charging_power s (env_variation env)) 0)
    as [_|Hnonpos]; [|lra]. ev_simpl.
  div_case; ev_simpl.
  - intro H. lra.
  - destruct (Qgeb_spec
                (py_min 100
                   (vehicle_soc s
                    + _calculate_charging_power s (env_variation env) * dt
                      * CHARGING_EFFICIENCY
                      / (vehicle_capacity_kwh s * 1000) * 100))
                (vehicle_target_soc s)) as [Hge|Hlt'];
      ev_simpl; intro H; [repeat split|lra].
Qed.

(** [update] is its two blocks in sequence. *)
Lemma update_state (env : Env) (b : t) :
  state_of (update env b)
  = state_of
      (charge_step ((env_time env - last_update b) / 3600.0) env
         (state_of (handle_schedule env (with_last_update (env_time env) b)))).
Proof.
  unfold update. ev_simpl.
  rewrite (handle_schedule_ok env (with_last_update (env_time env) b)).
  ev_simpl.
  destruct (charge_step _ env _) as [s2 [[]|e]]; reflexivity.
Qed.

Lemma update_outcome (env : Env) (b : t) (s2 : t) :
  charge_step ((env_time env - last_update b) / 3600.0) env
    (state_of (handle_schedule env (with_last_update (env_time env) b)))
  = (s2, Ok tt) ->
  update env b = (s2, Ok (get_status s2 (env_time env))).
Proof.
  intro H. unfold update. ev_simpl.
  rewrite (handle_schedule_ok env (with_last_update (env_time env) b)).
  ev_simpl. unfold state_of in H. rewrite H. reflexivity.
Qed.

(** What [update] returns is [get_status] of the state it leaves. *)
Lemma ev_update_returns_status (env : Env) (b b' : t) (st : Status) :
  update env b = (b', Ok st) -> st = get_status b' (env_time env).
Proof.
  unfold update. ev_simpl.
  rewrite (handle_schedule_ok env (with_last_update (env_time env) b)).
  ev_simpl.
  destruct (charge_step _ env _) as [s2 [[]|e]]; intro H;
    [injection H as <- <-; reflexivity|discriminate H].
Qed.

Lemma update_idle (env : Env) (b : t) :
  idle_at_target (state_of (update env b)).
Proof.
  unfold idle_at_target. rewrite update_state. intro H.
  rewrite (charge_step_idle _ env _ H). reflexivity.
Qed.

Lemma trace_idle (envs : list Env) :
  forall b, Forall idle_at_target (trace envs b).
Proof.
  induction envs as [|env rest IH]; intro b; cbn [trace].
  - constructor.
  - constructor; [apply update_idle|apply IH].
Qed.

(** C6.  In a call of [update] in which the charger is charging (the
    charging power it computes is positive) and after which the vehicle
    is at or above its target, the call returns, the power kept and
    reported is 0 and the status is Finishing, code 5; and after every
    later [update], whenever the vehicle is at or above its target the
    power is 0. *)
Theorem ev_charging_terminates (env : Env) (b : t) (later : list Env) :
  let b' := state_of (update env b) in
  0 < computed_power env b ->
  vehicle_target_soc b' <= vehicle_soc b' ->
  (exists st, update env b = (b', Ok st) /\
              st_status_code st = 5%Z /\ st_power_w st == 0) /\
  status b' = FINISHING /\
  power_w b' == 0 /\
  Forall idle_at_target (trace later b').
Proof.
  cbv zeta. rewrite update_state. unfold computed_power. intros Hpos Hge.
  destruct (charge_step_finishes _ env _ Hpos Hge) as (Hrun & Hst & Hpw).
  split; [|split; [exact Hst|split; [rewrite Hpw; reflexivity|]]].
  - eexists. split; [apply update_outcome; exact Hrun|].
    unfold get_status. cbn [st_status_code st_power_w].
    rewrite Hst, Hpw. split; reflexivity.
  - apply trace_idle.
Qed.

Lemma ev_charging_terminates_witness :
  0 < computed_power scenario_b_later scenario_b /\
  vehicle_target_soc (state_of (update scenario_b_later scenario_b))
  <= vehicle_soc (state_of (update scenario_b_later scenario_b)) /\
  status (state_of (update scenario_b_later scenario_b)) = FINISHING /\
  power_w (state_of (update scenario_b_later scenario_b)) == 0.
Proof.
  assert (H1 : 0 < computed_power scenario_b_later scenario_b)
    by (vm_compute; reflexivity).
  assert (H2 : vehicle_target_soc (state_of (update scenario_b_later scenario_b))
               <= vehicle_soc (state_of (update scenario_b_later scenario_b)))
    by (vm_compute; discriminate).
  split; [exact H1|]. split; [exact H2|].
  pose proof (ev_charging_terminates scenario_b_later scenario_b [] H1 H2)
    as (_ & Hst & Hpw & _).
  split; [exact Hst|exact Hpw].
Defined.

(** ** The current limit *)

Lemma handle_schedule_keeps_rating (env : Env) (s : t) :
  max_current (state_of (handle_schedule env s)) = max_current s /\
  max_power_kw (state_of (handle_schedule env s)) = max_power_kw s.
Proof.
  unfold handle_schedule, connect_vehicle, disconnect_vehicle. ev_simpl.
  destruct (negb (vehicle_connected s));
    [destruct (in_window s (env_hour env))
    |destruct (past_departure s (env_hour env))];
    split; reflexivity.
Qed.

Lemma charge_step_keeps_rating (dt : Q) (env : Env) (s : t) :
  max_current (state_of (charge_step dt env s)) = max_current s /\
  max_power_kw (state_of (charge_step dt env s)) = max_power_kw s.
Proof.
  unfold charge_step. ev_simpl.
  destruct (_calculate_charging_power s (env_variation env) >? 0); ev_simpl;
    [|split; reflexivity].
  div_case; ev_simpl; [split; reflexivity|].
  match goal with
  | |- context [if ?c then _ else _] => destruct c
  end; split; reflexivity.
Qed.

Lemma update_keeps_rating (env : Env) (b : t) :
  max_current (state_of (update env b)) = max_current b /\
  max_power_kw (state_of (update env b)) = max_power_kw b.
Proof.
  rewrite update_state.
  destruct (charge_step_keeps_rating
              ((env_time env - last_update b) / 3600.0) env
              (state_of (handle_schedule env
                           (with_last_update (env_time env) b))))
    as [-> ->].
  destruct (handle_schedule_keeps_rating env
              (with_last_update (env_time env) b)) as [-> ->].
  split; reflexivity.
Qed.

Lemma run_keeps_rating (envs : list Env) :
  forall b, max_current (run envs b) = max_current b /\
            max_power_kw (run envs b) = max_power_kw b.
Proof.
  induction envs as [|env rest IH]; intro b; cbn [run].
  - split; reflexivity.
  - destruct (IH (state_of (update env b))) as [-> ->].
    apply update_keeps_rating.
Qed.

Lemma init_rating (mp cap : Q) (ah dh : Z) (env : Env) :
  max_current (init mp cap ah dh env)
  = mp * 1000 / (DEFAULT_VOLTAGE * 1.732) /\
  max_power_kw (init mp cap ah dh env) = mp.
Proof.
  unfold init, _schedule_vehicle. ev_simpl.
  match goal with
  | |- context [if ?c then _ else _] => destruct c
  end; split; reflexivity.
Qed.

(** With a limit of at least [MIN_CURRENT] and a positive rating, a
    charger that is charging below the target computes a positive
    power. *)
Lemma charging_power_positive (s : t) (v : Q) :
  MIN_CURRENT <= current_limit s -> 0 < max_power_kw s -> 0 < v ->
  vehicle_connected s = true -> status s = CHARGING ->
  vehicle_soc s < vehicle_target_soc s ->
  0 < _calculate_charging_power s v.
Proof.
  unfold MIN_CURRENT. intros Hcl Hmp Hv Hc Hs Hsoc.
  unfold _calculate_charging_power. rewrite Hc, Hs. cbn [negb status_eqb].
  change (status_code CHARGING =? status_code CHARGING)%Z with true.
  cbn [negb].
  destruct (Qgeb_spec (vehicle_soc s) (vehicle_target_soc s)) as [Hge|_];
    [lra|].
  assert (Hbase : 0 < current_limit s * DEFAULT_VOLTAGE * 1.732 / 1000)
    by (unfold DEFAULT_VOLTAGE; qinv 1000; lra).
  set (base := current_limit s * DEFAULT_VOLTAGE * 1.732 / 1000) in *.
  assert (Htaper : 0 < py_max 0.1 ((100 - vehicle_soc s) / 20)).
  { pose proof (py_max_lower 0.1 ((100 - vehicle_soc s) / 20)) as Hm.
    revert Hm. generalize (py_max 0.1 ((100 - vehicle_soc s) / 20)).
    intros m Hm. lra. }
  assert (Hshaped :
    0 < (if vehicle_soc s >? 80
         then base * py_max 0.1 ((100 - vehicle_soc s) / 20)
         else if vehicle_soc s >? 90 then base * 0.2 else base)).
  { destruct (vehicle_soc s >? 80);
      [apply Qmult_lt_0_compat; assumption|].
    destruct (vehicle_soc s >? 90); lra. }
  set (shaped := if vehicle_soc s >? 80 then _ else _) in *.
  assert (Hcapped : 0 < py_min shaped (max_power_kw s)).
  { destruct (py_min_spec shaped (max_power_kw s)) as [[_ ->]|[_ ->]];
      assumption. }
  assert (Hvar : 0 < py_min shaped (max_power_kw s) * v)
    by (apply Qmult_lt_0_compat; assumption).
  apply Qmult_lt_0_compat; [exact Hvar|reflexivity].
Qed.

(** C10, as the specification states it, fails for a charger rated
    below 6 A: with [max_power_kw = 3.7] the rated current is about
    5.34 A, and [set_current_limit(10)] leaves a limit of 6 A, above
    [max_current]. *)
Lemma ev_current_limit_counterexample :
  let b' :=
    state_of (set_current_limit 10 (init 3.7 60 18 7 scenario_b_arrival)) in
  max_current b' == 3.7 * 1000 / (400 * 1.732) /\
  current_limit b' == 6 /\
  ~ (current_limit b' <= max_current b').
Proof.
  cbv zeta. split; [vm_compute; reflexivity|].
  split; [vm_compute; reflexivity|].
  intro H. vm_compute in H. apply H. reflexivity.
Qed.

(** C10, amended.  After any number of [update] calls and for every
    argument of [set_current_limit], negative and zero included, the new
    limit is at least 6 A; it is at most [max_current], the rated
    current [max_power_kw * 1000 / (400 * 1.732)], when that rated
    current is itself at least 6 A, and it is exactly 6 A when the rated
    current is below 6 A.  A charger with a positive rating that is
    charging below the target then still computes a positive power, so
    the limit cannot switch charging off. *)
Theorem ev_current_limit_bounds
    (mp cap : Q) (ah dh : Z) (env0 : Env) (envs : list Env) (current_a : Q) :
  let b := run envs (init mp cap ah dh env0) in
  let b' := state_of (set_current_limit current_a b) in
  max_current b' = mp * 1000 / (DEFAULT_VOLTAGE * 1.732) /\
  MIN_CURRENT <= current_limit b' /\
  (MIN_CURRENT <= max_current b' -> current_limit b' <= max_current b') /\
  (max_current b' < MIN_CURRENT -> current_limit b' = MIN_CURRENT) /\
  (forall v, 0 < mp -> 0 < v ->
             vehicle_connected b' = true -> status b' = CHARGING ->
             vehicle_soc b' < vehicle_target_soc b' ->
             0 < _calculate_charging_power b' v).
Proof.
  cbv zeta.
  destruct (run_keeps_rating envs (init mp cap ah dh env0)) as [Hmc Hmp].
  destruct (init_rating mp cap ah dh env0) as [Hmc0 Hmp0].
  rewrite Hmc0 in Hmc. rewrite Hmp0 in Hmp.
  set (b := run envs (init mp cap ah dh env0)) in *.
  unfold set_current_limit. ev_simpl. rewrite Hmc.
  set (rated := mp * 1000 / (DEFAULT_VOLTAGE * 1.732)) in *.
  split; [reflexivity|].
  split; [apply py_max_lower|].
  split; [intro Hrated; apply py_clamp_bounds; exact Hrated|].
  split; [intro Hrated; apply py_clamp_empty; exact Hrated|].
  intros v Hpos Hv Hc Hs Hsoc.
  apply charging_power_positive; ev_simpl; try assumption.
  - apply py_max_lower.
  - rewrite Hmp. exact Hpos.
Qed.

Lemma ev_current_limit_bounds_witness :
  MIN_CURRENT
  <= current_limit
       (state_of (set_current_limit (- (3))
                    (run [scenario_b_later] scenario_b))) /\
  current_limit
    (state_of (set_current_limit (- (3)) (run [scenario_b_later] scenario_b)))
  <= max_current
       (state_of (set_current_limit (- (3))
                    (run [scenario_b_later] scenario_b))).
Proof.
  pose proof (ev_current_limit_bounds 11 60 18 7 scenario_b_arrival
                [scenario_b_later] (- (3))) as (Hmc & Hlo & Hhi & _).
  split; [exact Hlo|].
  apply Hhi. unfold scenario_b in Hmc. rewrite Hmc.
  vm_compute. discriminate.
Defined.

End EVFacts.

(* ------------------------------------------------------------------ *)
(** * Properties: grid meter model *)
(* ------------------------------------------------------------------ *)

Module GridFacts.
Import Grid.
Local Open Scope Q_scope.

Ltac grid_simpl :=
  cbv beta iota zeta
    delta [bind ret raise get gets modify zoom state_of outcome_of fst snd]
    in *;
  cbn [max_power_kw import_energy_wh export_energy_wh power_w
       reactive_power_var voltage_l1 voltage_l2 voltage_l3
       current_l1 current_l2 current_l3 frequency power_factor last_update
       import_price export_price
       with_import_energy_wh with_export_energy_wh with_power_w
       with_reactive_power_var with_voltage_l1 with_voltage_l2
       with_voltage_l3 with_current_l1 with_current_l2 with_current_l3
       with_frequency with_last_update with_import_price with_export_price]
    in *.

Ltac div_case :=
  match goal with
  | |- context [@py_div ?S ?a ?b ?s] =>
      let E := fresh "E" in
      let Hz := fresh "Hz" in
      destruct (@py_div_cases S a b s) as [[Hz E]|[Hz E]]; rewrite E; clear E
  end.

Ltac if_case :=
  match goal with
  | |- context [if ?c then _ else _] => destruct c
  end.

Section WithMath.
Context {ML : MathLib}.

(** The power [update] stores is the clamped net power, whether the
    rest of the call returns or raises. *)
Lemma update_power (net : Q) (env : Env) (g : t) :
  power_w (state_of (update net env g))
  = py_max (- (max_power_kw g * 1000)) (py_min (max_power_kw g * 1000) net) /\
  max_power_kw (state_of (update net env g)) = max_power_kw g.
Proof.
  unfold update, _calculate_currents, _calculate_reactive_power, py_sqrt.
  destruct (_simulate_voltage env) as [[l1 l2] l3]. grid_simpl.
  repeat (first [div_case | if_case]; grid_simpl);
    split; reflexivity.
Qed.

(** [update] stamps the meter with the clock it read. *)
Lemma update_last_update (net : Q) (env : Env) (g : t) :
  last_update (state_of (update net env g)) = env_time env.
Proof.
  unfold update, _calculate_currents, _calculate_reactive_power, py_sqrt.
  destruct (_simulate_voltage env) as [[l1 l2] l3]. grid_simpl.
  repeat (first [div_case | if_case]; grid_simpl); reflexivity.
Qed.

(** What [update] returns is [get_status] of the state it leaves. *)
Lemma grid_update_returns_status
    (net : Q) (env : Env) (g g' : t) (st : Status) :
  update net env g = (g', Ok st) -> st = get_status g'.
Proof.
  unfold update, _calculate_currents, _calculate_reactive_power, py_sqrt.
  destruct (_simulate_voltage env) as [[l1 l2] l3]. grid_simpl.
  repeat (first [div_case | if_case]; grid_simpl);
    intro H; try discriminate H; injection H as <- <-; reflexivity.
Qed.

(** The tests on the power factor 0.95, decided by computation. *)
Ltac closed_tests :=
  change (0.95 >=? 1.0) with false in *;
  change (1 - 0.95 * 0.95 <? 0) with false in *.

(** With the power factor [__init__] sets, [update] returns. *)
Lemma update_ok (net : Q) (env : Env) (g : t) :
  power_factor g = 0.95 ->
  update net env g
  = (state_of (update net env g),
     Ok (get_status (state_of (update net env g)))).
Proof.
  intro Hpf. destruct g. cbn [power_factor] in Hpf. subst.
  unfold update, _calculate_currents, _calculate_reactive_power, py_sqrt.
  destruct (_simulate_voltage env) as [[l1 l2] l3]. grid_simpl.
  set (avg := (l1 + l2 + l3) / 3) in *.
  repeat (closed_tests; first [div_case | qcase]; grid_simpl);
    closed_tests; grid_simpl; try reflexivity; lra.
Qed.

(** C9.  For a meter with a non-negative connection rating, a net power
    above [max_power_kw * 1000] is stored as that maximum and a net
    power below its negative as that negative maximum; the status
    [update] returns reports the stored power rounded to one decimal,
    within 0.05 W of the bound.  In scenario C, a fresh meter rated
    25 kW given 30000 W returns and reports 25000 W. *)
Theorem grid_power_clamped (net : Q) (env : Env) (g : t) :
  0 <= max_power_kw g ->
  let max_power_w := max_power_kw g * 1000 in
  let g' := state_of (update net env g) in
  (max_power_w < net ->
   power_w g' == max_power_w /\
   st_power_w (get_status g') = py_round max_power_w 1 /\
   Qabs (st_power_w (get_status g') - max_power_w) <= 1 # 20) /\
  (net < - max_power_w ->
   power_w g' == - max_power_w /\
   st_power_w (get_status g') = py_round (- max_power_w) 1 /\
   Qabs (st_power_w (get_status g') - - max_power_w) <= 1 # 20) /\
  (forall st, outcome_of (update net env g) = Ok st -> st = get_status g') /\
  (forall now,
     exists st,
       outcome_of (update 30000 env (init 25 0 0 now)) = Ok st /\
       st_power_w st == 25000 /\
       power_w (state_of (update 30000 env (init 25 0 0 now))) == 25000).
Proof.
  intro Hmax. cbv zeta.
  destruct (update_power net env g) as [Hpw _].
  split; [|split; [|split]].
  - intro Habove.
    assert (E : power_w (state_of (update net env g)) == max_power_kw g * 1000).
    { rewrite Hpw. apply py_clamp_above; lra. }
    split; [exact E|].
    unfold get_status. cbn [st_power_w].
    rewrite (py_round_comp _ _ 1 E).
    split; [reflexivity|apply (py_round_error _ 1)].
  - intro Hbelow.
    assert (E : power_w (state_of (update net env g))
                == - (max_power_kw g * 1000)).
    { rewrite Hpw. rewrite py_clamp_below; [reflexivity|lra|exact Hbelow]. }
    split; [exact E|].
    unfold get_status. cbn [st_power_w].
    rewrite (py_round_comp _ _ 1 E).
    split; [reflexivity|apply (py_round_error _ 1)].
  - intros st Hst.
    apply (grid_update_returns_status net env g).
    unfold outcome_of, state_of in *.
    destruct (update net env g) as [g' r]. cbn [fst snd] in *.
    rewrite Hst. reflexivity.
  - intro now.
    pose proof (update_ok 30000 env (init 25 0 0 now) eq_refl) as Hok.
    destruct (update_power 30000 env (init 25 0 0 now)) as [Hp _].
    assert (E : power_w (state_of (update 30000 env (init 25 0 0 now)))
                == 25000).
    { rewrite Hp. vm_compute. reflexivity. }
    eexists. split; [unfold outcome_of; rewrite Hok; reflexivity|].
    split; [|exact E].
    unfold get_status. cbn [st_power_w].
    rewrite (py_round_comp _ _ 1 E). vm_compute. reflexivity.
Qed.

End WithMath.

Lemma grid_power_clamped_witness :
  0 <= max_power_kw scenario_c /\
  max_power_kw scenario_c * 1000 < 30000 /\
  power_w (state_of (update (ML := decimal_math) 30000 scenario_c_env
                       scenario_c))
  == max_power_kw scenario_c * 1000 /\
  st_power_w
    (get_status
       (state_of (update (ML := decimal_math) 30000 scenario_c_env
                    scenario_c)))
  = py_round (max_power_kw scenario_c * 1000) 1.
Proof.
  assert (H0 : 0 <= max_power_kw scenario_c) by (vm_compute; discriminate).
  assert (H1 : max_power_kw scenario_c * 1000 < 30000)
    by (vm_compute; reflexivity).
  split; [exact H0|]. split; [exact H1|].
  pose proof (grid_power_clamped (ML := decimal_math) 30000 scenario_c_env
                scenario_c H0) as (Habove & _).
  destruct (Habove H1) as (Hpw & Hst & _).
  split; [exact Hpw|exact Hst].
Defined.

End GridFacts.

(* ------------------------------------------------------------------ *)
(** * Properties: solar model *)
(* ------------------------------------------------------------------ *)

Module SolarFacts.
Import Solar.
Local Open Scope R_scope.

Lemma py_max_0_nonpos (x : R) : x <= 0 -> py_max 0 x = 0.
Proof. intro H. unfold py_max. destruct (Rlt_dec 0 x); [lra|reflexivity]. Qed.


Lemma real_round_half_even_error (x : R) :
  - (1 / 2) <= IZR (round_half_even x) - x <= 1 / 2.
Proof.
  unfold round_half_even. pose proof (Zfloor_bound x) as [Hlo Hhi].
  destruct (Rlt_dec (x - IZR (Zfloor x)) (1 / 2)) as [Hlt|Hge]; [lra|].
  destruct (Rlt_dec (1 / 2) (x - IZR (Zfloor x))) as [Hgt|Hle].
  - rewrite plus_IZR. lra.
  - destruct (Z.even (Zfloor x)); [|rewrite plus_IZR]; lra.
Qed.

(** [round(x, 3)] is within half a thousandth of [x]. *)
Lemma py_round3_error (x : R) :
  - (1 / 2000) <= py_round x 3 - x <= 1 / 2000.
Proof.
  unfold py_round.
  pose proof (real_round_half_even_error (x * 10 ^ 3)) as H.
  set (r := IZR (round_half_even (x * 10 ^ 3))) in *.
  simpl pow in *. lra.
Qed.

(** The ambient temperature of the model never exceeds 25 degrees, so
    the temperature derating is never applied. *)
Lemma ambient_temperature_mild (ts : datetime) (d : Draws) :
  admissible d -> get_ambient_temperature ts d <= 25.
Proof.
  intros (_ & Ht & _). unfold get_ambient_temperature.
  destruct ((6 <=? hour ts)%Z && (hour ts <? 12)%Z) eqn:E1.
  - apply andb_true_iff in E1 as [_ E]. apply Z.ltb_lt in E.
    assert (IZR (hour ts) <= 11) by (apply IZR_le; lia). lra.
  - destruct ((12 <=? hour ts)%Z && (hour ts <? 18)%Z) eqn:E2.
    + apply andb_true_iff in E2 as [E _]. apply Z.leb_le in E.
      assert (12 <= IZR (hour ts)) by (apply IZR_le; lia). lra.
    + lra.
Qed.

Lemma temp_factor_one (ts : datetime) (d : Draws) :
  admissible d ->
  1.0 - py_max 0 (get_ambient_temperature ts d - 25) * 0.004 = 1.0.
Proof.
  intro Ha. pose proof (ambient_temperature_mild ts d Ha).
  rewrite py_max_0_nonpos by lra. lra.
Qed.






(** With the timestamp fixed and the cloud cover supplied, the draws
    reach the output through the final variation factor alone: two
    calls that draw the same variation return the same power (the
    ambient temperature draw has no effect). *)
Lemma same_variation_same_power
    (self : t) (ts : datetime) (cloud_cover : R) (d1 d2 : Draws) :
  admissible d1 -> admissible d2 ->
  draw_variation d1 = draw_variation d2 ->
  calculate_power_output self ts (Some cloud_cover) d1
  = calculate_power_output self ts (Some cloud_cover) d2.
Proof.
  intros Ha1 Ha2 Hv. unfold calculate_power_output.
  rewrite (temp_factor_one ts d1 Ha1), (temp_factor_one ts d2 Ha2).
  destruct (Rle_dec (calculate_solar_elevation self ts) 0) as [Hle|Hgt];
    [reflexivity|rewrite Hv; reflexivity].
Qed.






End SolarFacts.

(* ------------------------------------------------------------------ *)
(** * Properties: orchestrator *)
(* ------------------------------------------------------------------ *)

Module ServerFacts.
Import Server.
Local Open Scope Q_scope.

Ltac srv_simpl :=
  cbv beta iota zeta
    delta [bind ret raise get gets modify zoom state_of outcome_of fst snd]
    in *;
  cbn [solar_energy_wh last_update battery grid ev store_1 store_2 store_3
       store_4 mqtt_connected published error_log
       with_solar_energy_wh with_last_update with_battery with_grid with_ev
       with_store_1 with_store_2 with_store_3 with_store_4
       with_mqtt_connected with_published with_error_log
       tk_total_load_w tk_net_grid_w tk_telemetry
       tm_solar tm_battery tm_grid tm_ev
       sd_power_w bd_power_w ed_power_w negb] in *.

(** A signed power is its discharge part less its charge part. *)
Lemma battery_power_split (p : Q) :
  p == battery_discharge_power p - battery_charge_power p.
Proof.
  unfold battery_discharge_power, battery_charge_power.
  destruct (py_max_spec 0 p) as [[H1 ->]|[H1 ->]];
    destruct (py_max_spec 0 (- p)) as [[H2 ->]|[H2 ->]]; lra.
Qed.

Section WithMath.
Context {ML : MathLib}.

(** The [try] block, step by step: it either stops at the first update
    that raises, or runs the four updates in order. *)
Ltac tick_open :=
  unfold tick, tick_body, update_solar_registers, update_ev_registers,
    update_battery_registers, update_grid_registers, publish_telemetry in *;
  srv_simpl.

(** C1.  In every iteration of [update_loop] that runs to its end, the
    battery is asked for [load - solar] before the grid is served, and
    the value handed to the grid meter is [int(load - solar - battery)]
    for this iteration's load (base load plus the EV power just
    reported), solar power and battery power; it differs from
    [load - solar - battery], that is from
    [load + charge - solar - discharge], by less than one watt. *)
Theorem tick_balance (env : Env) (s s' : t) (tk : Tick) :
  tick_body env s = (s', Ok tk) ->
  let solar_power := inject_Z (sd_power_w (tm_solar (tk_telemetry tk))) in
  let ev_power := ed_power_w (tm_ev (tk_telemetry tk)) in
  let battery_power := inject_Z (bd_power_w (tm_battery (tk_telemetry tk))) in
  let load := base_load_w + ev_power in
  (exists x, env_solar env = Ok x /\
             sd_power_w (tm_solar (tk_telemetry tk)) = py_int x) /\
  ev_power = py_round (EV.power_w (ev s')) 1 /\
  bd_power_w (tm_battery (tk_telemetry tk))
  = py_int (py_round (Battery.power_kw (battery s')) 3 * 1000) /\
  (exists st,
     Battery.update ((load - solar_power) / 1000.0) 1.0
       (env_battery_variation env) (battery s)
     = (battery s', Ok st)) /\
  (exists st,
     Grid.update (inject_Z (tk_net_grid_w tk)) (env_grid env) (grid s)
     = (grid s', Ok st)) /\
  tk_net_grid_w tk = py_int (load - solar_power - battery_power) /\
  Qabs (inject_Z (tk_net_grid_w tk) - (load - solar_power - battery_power))
  < 1 /\
  load - solar_power - battery_power
  == load + battery_charge_power battery_power - solar_power
     - battery_discharge_power battery_power.
Proof.
  intro H. cbv zeta. tick_open.
  destruct (env_solar env) as [x|e0] eqn:Esol; srv_simpl;
    [|discriminate H].
  destruct (EV.update (env_ev env) (ev s)) as [ev1 [est|e1]] eqn:Eev;
    srv_simpl; [|discriminate H].
  destruct (Battery.update _ _ _ (battery s)) as [b1 [bst|e2]] eqn:Eb;
    srv_simpl; [|discriminate H].
  destruct (Grid.update _ _ (grid s)) as [g1 [gst|e3]] eqn:Eg;
    srv_simpl; [|discriminate H].
  pose proof (EVFacts.ev_update_returns_status _ _ _ _ Eev) as Hest.
  destruct (BatteryFacts.update_ok_shape _ _ _ _ _ _ Eb) as (_ & Hbst & _).
  destruct (mqtt_connected s); srv_simpl;
    injection H as <- <-; srv_simpl;
    (split; [exists x; split; reflexivity|]);
    (split; [rewrite Hest; reflexivity|]);
    (split; [rewrite Hbst; reflexivity|]);
    (split; [eexists; exact Eb|]);
    (split; [eexists; exact Eg|]);
    (split; [reflexivity|]);
    (split; [apply py_int_error|]);
    match goal with
    | |- ?l - ?sp - ?bp == _ =>
        pose proof (battery_power_split bp) as Hsplit;
        revert Hsplit;
        generalize (battery_discharge_power bp) (battery_charge_power bp);
        intros dis ch Hsplit; lra
    end.
Qed.

(** C5, amended.  When the [try] block of an iteration raises, the
    handler logs the exception, nothing is published, and the loop goes
    on with the next iteration.  The block stopped at the first update
    that raised, in the order solar, EV, battery, grid: the devices
    before it were updated, the register bank of the device that raised
    is unchanged, and the devices after it were not updated in this
    iteration - their models and register banks are what they were. *)
Theorem tick_failure_skips_rest (env : Env) (s s1 : t) (e : exn) :
  tick_body env s = (s1, Raise e) ->
  tick env s = (with_error_log (e :: error_log s) s1, None) /\
  (forall rest,
     update_loop (env :: rest) s
     = update_loop rest (with_error_log (e :: error_log s) s1)) /\
  published s1 = published s /\
  ((env_solar env = Raise e /\ s1 = s) \/
   ((exists x, env_solar env = Ok x) /\
    outcome_of (EV.update (env_ev env) (ev s)) = Raise e /\
    store_4 s1 = store_4 s /\
    battery_untouched s s1 /\ grid_untouched s s1) \/
   ((exists est, EV.update (env_ev env) (ev s) = (ev s1, Ok est)) /\
    (exists p,
       outcome_of (Battery.update p 1.0 (env_battery_variation env)
                     (battery s)) = Raise e) /\
    store_2 s1 = store_2 s /\ grid_untouched s s1) \/
   ((exists est, EV.update (env_ev env) (ev s) = (ev s1, Ok est)) /\
    (exists p bst,
       Battery.update p 1.0 (env_battery_variation env) (battery s)
       = (battery s1, Ok bst)) /\
    (exists n : Z,
       outcome_of (Grid.update (inject_Z n) (env_grid env) (grid s))
       = Raise e) /\
    store_3 s1 = store_3 s)).
Proof.
  intro H.
  match goal with
  | |- _ /\ _ /\ _ /\ ?D =>
      assert (Hshape : error_log s1 = error_log s /\
                       published s1 = published s /\ D)
  end.
  { revert H. unfold grid_untouched, battery_untouched. tick_open.
    destruct (env_solar env) as [x|e0] eqn:Esol; srv_simpl.
    2: { intro H. injection H as <- <-. repeat split.
         left. split; reflexivity. }
    destruct (EV.update (env_ev env) (ev s)) as [ev1 [est|e1]] eqn:Eev;
      srv_simpl.
    2: { intro H. injection H as <- <-. srv_simpl. repeat split.
         right; left. repeat split. exists x. reflexivity. }
    destruct (Battery.update _ _ _ (battery s)) as [b1 [bst|e2]] eqn:Eb;
      srv_simpl.
    2: { intro H. injection H as <- <-. srv_simpl. repeat split.
         right; right; left.
         split; [eexists; reflexivity|].
         split; [eexists; rewrite Eb; reflexivity|].
         repeat split. }
    destruct (Grid.update _ _ (grid s)) as [g1 [gst|e3]] eqn:Eg;
      srv_simpl.
    2: { intro H. injection H as <- <-. srv_simpl. repeat split.
         right; right; right.
         split; [eexists; reflexivity|].
         split; [eexists; eexists; exact Eb|].
         split; [eexists; rewrite Eg; reflexivity|reflexivity]. }
    destruct (mqtt_connected s); srv_simpl; intro H; discriminate H. }
  destruct Hshape as (Hlog & Hpub & Hcases).
  assert (Ht : tick env s = (with_error_log (e :: error_log s) s1, None)).
  { unfold tick. rewrite H, Hlog. reflexivity. }
  split; [exact Ht|].
  split; [intro rest; cbn [update_loop]; rewrite Ht; reflexivity|].
  split; [exact Hpub|exact Hcases].
Qed.

End WithMath.

Lemma tick_balance_witness :
  exists s' tk,
    tick_body (ML := decimal_math) sample_env sample_server = (s', Ok tk) /\
    tk_net_grid_w tk
    = py_int (base_load_w + ed_power_w (tm_ev (tk_telemetry tk))
              - inject_Z (sd_power_w (tm_solar (tk_telemetry tk)))
              - inject_Z (bd_power_w (tm_battery (tk_telemetry tk)))) /\
    tk_net_grid_w tk = 5566%Z.
Proof.
  destruct (tick_body (ML := decimal_math) sample_env sample_server)
    as [s' [tk|e]] eqn:E.
  - exists s', tk. split; [reflexivity|].
    split.
    + apply (tick_balance (ML := decimal_math) sample_env sample_server s' tk E).
    + vm_compute in E. injection E as _ <-. reflexivity.
  - vm_compute in E. discriminate E.
Defined.

(** C5, as the specification states it, fails.  On a server configured
    with a battery capacity of zero the battery update divides by the
    capacity and raises; the iteration stops there: the exception is
    logged, the grid meter keeps the state and the registers it had (it
    still carries the clock reading 1000 of start-up, where any update
    of this iteration would have stamped 1001), while the EV charger,
    earlier in the order, was updated. *)
Lemma tick_isolation_counterexample :
  let s := zero_capacity_server in
  let r := tick (ML := decimal_math) sample_env s in
  outcome_of (Battery.update 10.566 1.0 1 (battery s))
  = Raise ZeroDivisionError /\
  snd r = None /\
  error_log (fst r) = [ZeroDivisionError] /\
  EV.last_update (ev (fst r)) = 1001 /\
  grid_untouched s (fst r) /\
  ~ grid_updated (ML := decimal_math) sample_env s (fst r).
Proof.
  cbv zeta. split; [vm_compute; reflexivity|].
  split; [vm_compute; reflexivity|].
  split; [vm_compute; reflexivity|].
  split; [vm_compute; reflexivity|].
  split; [split; vm_compute; reflexivity|].
  intros [net Hnet].
  apply (f_equal Grid.last_update) in Hnet.
  rewrite GridFacts.update_last_update in Hnet.
  vm_compute in Hnet. discriminate Hnet.
Qed.

Lemma tick_failure_skips_rest_witness :
  exists s1,
    tick_body (ML := decimal_math) sample_env zero_capacity_server
    = (s1, Raise ZeroDivisionError) /\
    tick (ML := decimal_math) sample_env zero_capacity_server
    = (with_error_log
         (ZeroDivisionError :: error_log zero_capacity_server) s1, None).
Proof.
  destruct (tick_body (ML := decimal_math) sample_env zero_capacity_server)
    as [s1 [tk|e]] eqn:E.
  - vm_compute in E. discriminate E.
  - assert (He : e = ZeroDivisionError).
    { vm_compute in E. injection E as _ <-. reflexivity. }
    subst e. exists s1. split; [reflexivity|].
    apply (tick_failure_skips_rest (ML := decimal_math) sample_env
             zero_capacity_server s1 ZeroDivisionError E).
Defined.

End ServerFacts.

(* ------------------------------------------------------------------ *)
(** * Properties: rounding is monotone *)
(* ------------------------------------------------------------------ *)

Section RoundingFacts.
Local Open Scope Q_scope.

Lemma round_half_even_floor (x : Q) :
  (Qfloor x <= round_half_even x <= Qfloor x + 1)%Z.
Proof.
  unfold round_half_even.
  destruct (Qcompare (x - inject_Z (Qfloor x)) (1 # 2));
    [destruct (Z.even (Qfloor x))| |]; lia.
Qed.

Lemma round_half_even_mono (x y : Q) :
  x <= y -> (round_half_even x <= round_half_even y)%Z.
Proof.
  intro H.
  pose proof (Qfloor_resp_le x y H) as Hf.
  pose proof (round_half_even_floor x) as Hx.
  pose proof (round_half_even_floor y) as Hy.
  destruct (Z.eq_dec (Qfloor x) (Qfloor y)) as [E|E]; [|lia].
  clear Hx Hy. unfold round_half_even. rewrite <- E.
  destruct (Qcompare_spec (x - inject_Z (Qfloor x)) (1 # 2)) as [Ex|Ex|Ex];
    destruct (Qcompare_spec (y - inject_Z (Qfloor x)) (1 # 2)) as [Ey|Ey|Ey];
    try (destruct (Z.even (Qfloor x))); try lia; exfalso; lra.
Qed.

Lemma round_half_even_inject_Z (z : Z) : round_half_even (inject_Z z) = z.
Proof.
  unfold round_half_even. rewrite Qfloor_Z.
  destruct (Qcompare_spec (inject_Z z - inject_Z z) (1 # 2)) as [E|E|E];
    [exfalso; lra|reflexivity|exfalso; lra].
Qed.

Lemma scale_pos (n : nat) : 0 < inject_Z (10 ^ Z.of_nat n).
Proof.
  change 0 with (inject_Z 0). rewrite <- Zlt_Qlt.
  apply Z.pow_pos_nonneg; lia.
Qed.

(** [round(x, n)] is monotone in [x]. *)
Lemma py_round_mono (x y : Q) (n : nat) :
  x <= y -> py_round x n <= py_round y n.
Proof.
  intro H. unfold py_round. rewrite !Qred_correct.
  pose proof (scale_pos n) as Hs.
  set (s := inject_Z (10 ^ Z.of_nat n)) in *.
  apply Qmult_le_compat_r; [|apply Qlt_le_weak, Qinv_lt_0_compat; exact Hs].
  rewrite <- Zle_Qle. apply round_half_even_mono.
  apply Qmult_le_compat_r; [exact H|lra].
Qed.

(** Rounding to [n] decimals keeps a number between bounds that have
    at most [n] decimals themselves. *)
Lemma py_round_between (lo hi x : Q) (n : nat) :
  py_round lo n == lo -> py_round hi n == hi ->
  lo <= x -> x <= hi -> lo <= py_round x n /\ py_round x n <= hi.
Proof.
  intros Hlo Hhi H1 H2.
  pose proof (py_round_mono lo x n H1). pose proof (py_round_mono x hi n H2).
  lra.
Qed.

(** Rounding twice to the same place is rounding once. *)
Lemma py_round_idem (x : Q) (n : nat) :
  py_round (py_round x n) n = py_round x n.
Proof.
  pose proof (scale_pos n) as Hs.
  rewrite (py_round_comp (py_round x n)
             (inject_Z (round_half_even (x * inject_Z (10 ^ Z.of_nat n)))
              / inject_Z (10 ^ Z.of_nat n)) n)
    by (unfold py_round; apply Qred_correct).
  unfold py_round. apply Qred_complete.
  set (s := inject_Z (10 ^ Z.of_nat n)) in *.
  set (r := round_half_even (x * s)).
  rewrite (round_half_even_comp (inject_Z r / s * s) (inject_Z r))
    by (field; lra).
  rewrite round_half_even_inject_Z. reflexivity.
Qed.

End RoundingFacts.

(* ------------------------------------------------------------------ *)
(** * Further properties: battery model *)
(* ------------------------------------------------------------------ *)

Module BatteryMore.
Import Battery BatteryFacts.
Local Open Scope Q_scope.

Lemma power_limit_bounds (b : t) (c : bool) :
  0 <= max_power_kw b -> 0 <= soc b -> soc b <= 100 ->
  0 <= _get_power_limit b c /\ _get_power_limit b c <= max_power_kw b.
Proof.
  intros Hm Hlo Hhi. unfold _get_power_limit. cbv zeta.
  qinv 10.0. qinv 15.0.
  destruct c; repeat qcase; split; nra.
Qed.

Lemma efficiency_pos (b : t) (c : bool) :
  5 <= temperature b -> temperature b <= 45 ->
  0 <= soc b -> soc b <= 100 ->
  0 < _get_efficiency b c /\ _get_efficiency b c <= 0.95.
Proof.
  intros Ht1 Ht2 Hs1 Hs2. unfold _get_efficiency. cbv zeta.
  unfold CHARGE_EFFICIENCY, DISCHARGE_EFFICIENCY, OPTIMAL_TEMP_MIN,
    OPTIMAL_TEMP_MAX.
  destruct c; cbn [andb negb]; repeat qcase; split; nra.
Qed.

Lemma discharge_efficiency_pos (b : t) :
  5 <= temperature b -> temperature b <= 45 -> 0 <= soc b ->
  0 < _get_efficiency b false.
Proof.
  intros Ht1 Ht2 Hs1. unfold _get_efficiency. cbv zeta.
  unfold DISCHARGE_EFFICIENCY, OPTIMAL_TEMP_MIN, OPTIMAL_TEMP_MAX.
  cbn [andb negb]; repeat qcase; nra.
Qed.

Lemma temperature_clamped (x : Q) :
  5 <= py_max 5.0 (py_min 45.0 x) /\ py_max 5.0 (py_min 45.0 x) <= 45.
Proof.
  pose proof (py_clamp_bounds 5.0 45.0 x) as H.
  assert (H0 : 5.0 <= 45.0) by lra. specialize (H H0).
  revert H. generalize (py_max 5.0 (py_min 45.0 x)). intros y H. lra.
Qed.

Lemma update_keeps_service (c m lo hi p dt v : Q) (b : t) :
  lo <= hi -> in_service c m lo hi b ->
  in_service c m lo hi (state_of (update p dt v b)).
Proof.
  intros Hne (Hc & Hm & Ht1 & Ht2 & Hinv).
  pose proof (update_inv lo hi p dt v b Hne Hinv) as Hinv'.
  unfold in_service. split; [|split; [|split; [|split; [|exact Hinv']]]];
  clear Hinv'; subst c m; unfold update, _calculate_temperature;
  destruct (p <? 0); bat_simpl;
    repeat (div_case; bat_simpl; auto);
    repeat (if_case; bat_simpl);
    repeat (div_case; bat_simpl; auto);
    try reflexivity; apply temperature_clamped.
Qed.

Lemma set_soc_keeps_service (c m lo hi x v : Q) (b : t) :
  lo <= hi -> in_service c m lo hi b ->
  in_service c m lo hi (state_of (set_soc x v b)).
Proof.
  intros Hne (Hc & Hm & Ht1 & Ht2 & Hinv).
  pose proof (set_soc_inv lo hi x v b Hne Hinv) as Hinv'.
  unfold in_service. unfold set_soc in *. bat_simpl. auto.
Qed.

Lemma trace_in_service (c m lo hi : Q) (calls : list call) :
  lo <= hi -> forall b, in_service c m lo hi b ->
  Forall (in_service c m lo hi) (trace calls b).
Proof.
  intro Hne. induction calls as [|k rest IH]; intros b Hb; cbn [trace].
  - constructor.
  - assert (Hk : in_service c m lo hi (perform k b)).
    { destruct k; cbn [perform];
        [apply update_keeps_service|apply set_soc_keeps_service]; assumption. }
    constructor; [exact Hk|apply IH; exact Hk].
Qed.

Lemma init_in_service (c m s0 lo hi v : Q) :
  lo <= hi -> in_service c m lo hi (init c m s0 lo hi v).
Proof.
  intro Hne. pose proof (init_inv c m s0 lo hi v Hne) as Hinv.
  unfold in_service. split; [reflexivity|]. split; [reflexivity|].
  split; [|split; [|exact Hinv]]; unfold init; bat_simpl;
    unfold AMBIENT_TEMP; lra.
Qed.

Lemma update_returns_in_service (c m lo hi p dt v : Q) (b : t) :
  ~ c == 0 -> ~ m == 0 -> 0 <= lo ->
  in_service c m lo hi b ->
  exists st, outcome_of (update p dt v b) = Ok st.
Proof.
  intros Hc Hm Hlo (Ec & Em & Ht1 & Ht2 & (El & Eh & Hs1 & Hs2)).
  assert (Heff : 0 < _get_efficiency b false)
    by (apply discharge_efficiency_pos; lra).
  subst c m. unfold update, _calculate_temperature.
  destruct (p <? 0); bat_simpl;
    repeat (first [div_case | if_case]; bat_simpl;
            try (exfalso; first [apply Hc; lra | apply Hm; lra | lra]));
    eexists; reflexivity.
Qed.

(** X1.  A [BatterySimulator] built with a capacity and a power rating
    other than zero and with [0 <= min_soc <= max_soc] never raises from
    [update]: in the state the constructor leaves and in the state after
    any sequence of [update] and [set_soc] calls, [update] returns a
    status for every requested power, time step and voltage draw. *)
Theorem battery_update_returns
    (capacity max_power initial_soc lo hi v0 : Q) (calls : list call) :
  ~ capacity == 0 -> ~ max_power == 0 -> 0 <= lo -> lo <= hi ->
  Forall (fun b => forall p dt v, exists st, outcome_of (update p dt v b) = Ok st)
    (init capacity max_power initial_soc lo hi v0
     :: trace calls (init capacity max_power initial_soc lo hi v0)).
Proof.
  intros Hc Hm Hlo Hne.
  assert (Hall : Forall (in_service capacity max_power lo hi)
            (init capacity max_power initial_soc lo hi v0
             :: trace calls (init capacity max_power initial_soc lo hi v0))).
  { constructor; [apply init_in_service; exact Hne|].
    apply trace_in_service; [exact Hne|apply init_in_service; exact Hne]. }
  eapply Forall_impl; [|exact Hall].
  intros b Hb p dt v.
  apply (update_returns_in_service capacity max_power lo hi); assumption.
Qed.

Lemma battery_update_returns_witness :
  Forall (fun b => forall p dt v, exists st, outcome_of (update p dt v b) = Ok st)
    (init 13.5 5 50 5 100 1
     :: trace [CallUpdate (-3) 60 1; CallSetSoc 100 1; CallUpdate 7 3600 1]
          (init 13.5 5 50 5 100 1)).
Proof.
  apply (battery_update_returns 13.5 5 50 5 100 1
           [CallUpdate (-3) 60 1; CallSetSoc 100 1; CallUpdate 7 3600 1]);
    lra.
Defined.

(** X2.  [update] raises exactly when one of its divisors is zero: the
    capacity, the power rating ([_calculate_temperature] divides by it),
    or - for a request that is not a charge - the discharge efficiency.
    Nothing else makes it raise. *)
Theorem battery_update_raises_iff (p dt v : Q) (b : t) :
  (exists e, outcome_of (update p dt v b) = Raise e) <->
  (capacity_kwh b == 0 \/ max_power_kw b == 0 \/
   ((p <? 0) = false /\ _get_efficiency b false == 0)).
Proof.
  unfold update, _calculate_temperature.
  destruct (p <? 0); bat_simpl;
    repeat (first [div_case | if_case]; bat_simpl);
    (split;
     [ intros [e He];
       first [ discriminate He
             | left; lra
             | right; left; lra
             | right; right; split; [reflexivity|lra] ]
     | intros [H|[H|[H1 H]]];
       first [ eexists; reflexivity
             | discriminate H1
             | exfalso; lra ] ]).
Qed.

(** X3.  An [update] that raises raises [ZeroDivisionError] and is not
    atomic.  It leaves [power_kw], the temperature and the two
    direction flags as they were; either it changed nothing at all (the
    capacity or the discharge efficiency was zero), or the power rating
    was zero and the call had already moved the state of charge to the
    clamped value of this step before it raised. *)
Theorem battery_update_failure_state (p dt v : Q) (b b' : t) (e : exn) :
  update p dt v b = (b', Raise e) ->
  e = ZeroDivisionError /\
  power_kw b' = power_kw b /\ temperature b' = temperature b /\
  is_charging b' = is_charging b /\ is_discharging b' = is_discharging b /\
  (b' = b \/
   (max_power_kw b == 0 /\
    soc b' = py_max (min_soc b) (py_min (max_soc b) (unclamped_soc b p dt)))).
Proof.
  intro H.
  unfold update, _calculate_temperature, unclamped_soc, soc_change_of_power
    in *.
  destruct (p <? 0); bat_simpl;
    repeat (first [div_case_in H | if_case_in H];
            bat_simpl; try discriminate H);
    injection H as <- <-; bat_simpl;
    repeat (split; [reflexivity|]);
    first [ left; reflexivity
          | right; split; [assumption|reflexivity]
          | exfalso; lra ].
Qed.

Lemma battery_update_failure_state_witness :
  exists b',
    update (-2) 3600 1 (init 13.5 0 50 5 100 1)
    = (b', Raise ZeroDivisionError) /\
    power_kw b' = power_kw (init 13.5 0 50 5 100 1) /\
    temperature b' = temperature (init 13.5 0 50 5 100 1).
Proof.
  assert (H : update (-2) 3600 1 (init 13.5 0 50 5 100 1)
              = (state_of (update (-2) 3600 1 (init 13.5 0 50 5 100 1)),
                 Raise ZeroDivisionError)).
  { vm_compute. reflexivity. }
  eexists. split; [exact H|].
  destruct (battery_update_failure_state _ _ _ _ _ _ H) as (_ & A & B & _).
  split; [exact A|exact B].
Defined.

Lemma constrain_power_bounds (b : t) (p : Q) :
  0 <= max_power_kw b -> 0 <= soc b -> soc b <= 100 ->
  - max_power_kw b <= constrain_power b p /\
  constrain_power b p <= max_power_kw b /\
  (p < 0 -> p <= constrain_power b p /\ constrain_power b p <= 0) /\
  (0 <= p -> 0 <= constrain_power b p /\ constrain_power b p <= p).
Proof.
  intros Hm Hlo Hhi.
  destruct (power_limit_bounds b true Hm Hlo Hhi) as [Hc1 Hc2].
  destruct (power_limit_bounds b false Hm Hlo Hhi) as [Hd1 Hd2].
  unfold constrain_power. cbv zeta.
  revert Hc1 Hc2 Hd1 Hd2.
  generalize (_get_power_limit b true) (_get_power_limit b false).
  intros lc ld Hc1 Hc2 Hd1 Hd2.
  unfold py_max, py_min.
  repeat qcase; repeat split; intros; lra.
Qed.

(** X4.  The power a returning [update] stores never exceeds the
    rating in either direction, has the direction of the request and is
    no larger than the request (for a state of charge in [[0, 100]] and
    a rating that is not negative). *)
Theorem battery_power_within_rating (p dt v : Q) (b b' : t) (st : Status) :
  update p dt v b = (b', Ok st) ->
  0 <= max_power_kw b -> 0 <= soc b -> soc b <= 100 ->
  - max_power_kw b <= power_kw b' /\ power_kw b' <= max_power_kw b /\
  (p < 0 -> p <= power_kw b' /\ power_kw b' <= 0) /\
  (0 <= p -> 0 <= power_kw b' /\ power_kw b' <= p).
Proof.
  intros H Hm Hlo Hhi.
  destruct (update_ok_shape p dt v b b' st H) as (-> & _).
  apply constrain_power_bounds; assumption.
Qed.

Lemma battery_power_within_rating_witness :
  exists b' st,
    update (-9) 60 1 (init 13.5 5 50 5 100 1) = (b', Ok st) /\
    - max_power_kw (init 13.5 5 50 5 100 1) <= power_kw b' /\
    power_kw b' <= max_power_kw (init 13.5 5 50 5 100 1).
Proof.
  assert (H : update (-9) 60 1 (init 13.5 5 50 5 100 1)
              = (state_of (update (-9) 60 1 (init 13.5 5 50 5 100 1)),
                 Ok (get_status
                       (state_of (update (-9) 60 1 (init 13.5 5 50 5 100 1)))))).
  { vm_compute. reflexivity. }
  assert (H1 : 0 <= max_power_kw (init 13.5 5 50 5 100 1))
    by (vm_compute; discriminate).
  assert (H2 : 0 <= soc (init 13.5 5 50 5 100 1))
    by (vm_compute; discriminate).
  assert (H3 : soc (init 13.5 5 50 5 100 1) <= 100)
    by (vm_compute; discriminate).
  eexists. eexists. split; [exact H|].
  destruct (battery_power_within_rating _ _ _ _ _ _ H H1 H2 H3)
    as (A & B & _).
  split; [exact A|exact B].
Defined.

Ltac if_case_eq H :=
  match type of H with
  | context [if ?c then _ else _] =>
      let E := fresh "Ec" in destruct c eqn:E
  end.

(** The rest of what a returning [update] assigns, and the divisors it
    has found different from zero. *)
Lemma update_ok_rest (p dt v : Q) (b b' : t) (st : Status) :
  update p dt v b = (b', Ok st) ->
  capacity_kwh b' = capacity_kwh b /\
  cycle_count b'
  = (if Qabs (constrain_power b p) >? 0.1 then
       cycle_count b
       + Qabs (constrain_power b p) * (dt / 3600.0) / (2 * capacity_kwh b)
     else cycle_count b) /\
  is_charging b' = (p <? 0) && (constrain_power b p !=? 0) /\
  is_discharging b' = negb (p <? 0) && (constrain_power b p !=? 0) /\
  voltage b' = _calculate_voltage b' v /\
  current b'
  = (if voltage b' >? 0 then constrain_power b p * 1000 / voltage b' else 0) /\
  min_soc b' = min_soc b /\ max_soc b' = max_soc b /\
  ~ capacity_kwh b == 0 /\
  ((p <? 0) = false -> ~ _get_efficiency b false == 0).
Proof.
  intro H. unfold update, _calculate_temperature, _calculate_voltage in *.
  destruct (p <? 0); bat_simpl;
    repeat (first [div_case_in H | if_case_eq H];
            bat_simpl; try discriminate H);
    injection H as <- <-; bat_simpl;
    repeat match goal with
           | E : ?c = _ |- context [if ?c then _ else _] => rewrite E
           end;
    repeat split;
    first [assumption | intro; assumption | discriminate].
Qed.

(** X5.  For a rating that is not negative and a state of charge
    within [[0, 100]] before the call, the direction flags after a
    returning [update] follow the sign of the stored power:
    [is_charging] exactly when it is negative, [is_discharging] exactly
    when it is positive, never both.  (Outside these bounds a power
    limit can be negative and the flags can contradict the power.) *)
Theorem battery_flags_follow_power (p dt v : Q) (b b' : t) (st : Status) :
  update p dt v b = (b', Ok st) ->
  0 <= max_power_kw b -> 0 <= soc b -> soc b <= 100 ->
  (is_charging b' = true <-> power_kw b' < 0) /\
  (is_discharging b' = true <-> 0 < power_kw b') /\
  is_charging b' && is_discharging b' = false.
Proof.
  intros H Hm Hlo Hhi.
  destruct (update_ok_shape p dt v b b' st H) as (Hpow & _).
  destruct (update_ok_rest p dt v b b' st H) as (_ & _ & Hc & Hd & _).
  destruct (constrain_power_bounds b p Hm Hlo Hhi) as (_ & _ & Hneg & Hpos).
  rewrite Hc, Hd, Hpow.
  destruct (Qltb_spec p 0) as [Hp|Hp];
    destruct (Qneqb_spec (constrain_power b p) 0) as [Hz|Hz]; cbn [andb negb];
    repeat split; intros; try discriminate; try reflexivity; try lra.
Qed.

Lemma battery_flags_follow_power_witness :
  exists b' st,
    update 2 60 1 (init 13.5 5 50 5 100 1) = (b', Ok st) /\
    (is_discharging b' = true <-> 0 < power_kw b').
Proof.
  assert (H : update 2 60 1 (init 13.5 5 50 5 100 1)
              = (state_of (update 2 60 1 (init 13.5 5 50 5 100 1)),
                 Ok (get_status
                       (state_of (update 2 60 1 (init 13.5 5 50 5 100 1)))))).
  { vm_compute. reflexivity. }
  assert (H1 : 0 <= max_power_kw (init 13.5 5 50 5 100 1))
    by (vm_compute; discriminate).
  assert (H2 : 0 <= soc (init 13.5 5 50 5 100 1))
    by (vm_compute; discriminate).
  assert (H3 : soc (init 13.5 5 50 5 100 1) <= 100)
    by (vm_compute; discriminate).
  eexists. eexists. split; [exact H|].
  destruct (battery_flags_follow_power _ _ _ _ _ _ H H1 H2 H3)
    as (_ & A & _).
  exact A.
Defined.

Lemma health_antitone (b b' : t) :
  cycle_count b <= cycle_count b' ->
  _calculate_health b' <= _calculate_health b.
Proof.
  intro H. unfold _calculate_health. cbv zeta. qinv 5000.0.
  unfold py_max. repeat qcase; lra.
Qed.

(** X6.  With a time step that is not negative, a positive capacity,
    a rating that is not negative, a state of charge within [[0, 100]]
    and a temperature within [[5, 45]] before the call, a returning
    [update] never lowers the charged and discharged energy counters
    nor the cycle count, so the reported health never rises; with a
    cycle count that is not negative the health stays within
    [[80, 100]]. *)
Theorem battery_counters_monotone (p dt v : Q) (b b' : t) (st : Status) :
  update p dt v b = (b', Ok st) ->
  0 <= dt -> 0 < capacity_kwh b -> 0 <= max_power_kw b ->
  0 <= soc b -> soc b <= 100 ->
  5 <= temperature b -> temperature b <= 45 ->
  total_charged_kwh b <= total_charged_kwh b' /\
  total_discharged_kwh b <= total_discharged_kwh b' /\
  cycle_count b <= cycle_count b' /\
  _calculate_health b' <= _calculate_health b /\
  (0 <= cycle_count b ->
   80 <= _calculate_health b' /\ _calculate_health b' <= 100).
Proof.
  intros H Hdt Hcap Hm Hlo Hhi Ht1 Ht2.
  destruct (update_ok_shape p dt v b b' st H) as (_ & _ & _ & Hch & Hdis).
  destruct (update_ok_rest p dt v b b' st H) as (_ & Hcc & _).
  destruct (constrain_power_bounds b p Hm Hlo Hhi) as (_ & _ & Hneg & Hpos).
  destruct (efficiency_pos b true Ht1 Ht2 Hlo Hhi) as [Heff _].
  pose proof (Qabs_nonneg (constrain_power b p)) as Habs.
  assert (Hdth : 0 <= dt / 3600.0) by (qinv 3600.0; lra).
  assert (Hcyc : cycle_count b <= cycle_count b').
  { rewrite Hcc. destruct (Qabs (constrain_power b p) >? 0.1); [|lra].
    assert (0 <= Qabs (constrain_power b p) * (dt / 3600.0)
                 / (2 * capacity_kwh b)).
    { apply Qle_shift_div_l; [lra|]. nra. }
    lra. }
  split; [|split; [|split; [exact Hcyc|split]]].
  - rewrite Hch. destruct (p <? 0); [|lra].
    revert Habs Hdth Heff.
    generalize (Qabs (constrain_power b p)) (dt / 3600.0)
      (_get_efficiency b true).
    intros a h e Ha Hh He. assert (0 <= a * h) by nra. nra.
  - rewrite Hdis. destruct (Qltb_spec p 0) as [Hp|Hp]; [lra|].
    destruct (Hpos Hp) as [Hge _].
    revert Hge Hdth. generalize (constrain_power b p) (dt / 3600.0).
    intros a h Ha Hh. nra.
  - apply health_antitone. exact Hcyc.
  - intro Hc0. unfold _calculate_health. cbv zeta.
    revert Hcyc Hc0. generalize (cycle_count b) (cycle_count b').
    intros c0 c1 H01 H0. qinv 5000.0.
    unfold py_max. qcase; lra.
Qed.

Lemma battery_counters_monotone_witness :
  exists b' st,
    update 2 60 1 (init 13.5 5 50 5 100 1) = (b', Ok st) /\
    total_discharged_kwh (init 13.5 5 50 5 100 1) <= total_discharged_kwh b' /\
    cycle_count (init 13.5 5 50 5 100 1) <= cycle_count b'.
Proof.
  assert (H : update 2 60 1 (init 13.5 5 50 5 100 1)
              = (state_of (update 2 60 1 (init 13.5 5 50 5 100 1)),
                 Ok (get_status
                       (state_of (update 2 60 1 (init 13.5 5 50 5 100 1)))))).
  { vm_compute. reflexivity. }
  assert (H0 : 0 <= 60) by (vm_compute; discriminate).
  assert (Hc : 0 < capacity_kwh (init 13.5 5 50 5 100 1))
    by (vm_compute; reflexivity).
  assert (H1 : 0 <= max_power_kw (init 13.5 5 50 5 100 1))
    by (vm_compute; discriminate).
  assert (H2 : 0 <= soc (init 13.5 5 50 5 100 1))
    by (vm_compute; discriminate).
  assert (H3 : soc (init 13.5 5 50 5 100 1) <= 100)
    by (vm_compute; discriminate).
  assert (H4 : 5 <= temperature (init 13.5 5 50 5 100 1))
    by (vm_compute; discriminate).
  assert (H5 : temperature (init 13.5 5 50 5 100 1) <= 45)
    by (vm_compute; discriminate).
  eexists. eexists. split; [exact H|].
  destruct (battery_counters_monotone _ _ _ _ _ _ H H0 Hc H1 H2 H3 H4 H5)
    as (_ & A & B & _).
  split; [exact A|exact B].
Defined.

(** X7.  When the clamp of the state of charge does not bite, a
    returning [update] accounts for its energy: the change of the state
    of charge is the one its stored power causes over the time step; on
    a charge the energy added to the pack is what the charge counter
    gained, and on a discharge the energy taken from the pack, times the
    discharge efficiency, is what the discharge counter gained. *)
Theorem battery_energy_accounted (p dt v : Q) (b b' : t) (st : Status) :
  update p dt v b = (b', Ok st) ->
  min_soc b <= unclamped_soc b p dt -> unclamped_soc b p dt <= max_soc b ->
  power_matches_energy b b' p dt /\
  (p < 0 ->
   (soc b' - soc b) / 100 * capacity_kwh b
   == total_charged_kwh b' - total_charged_kwh b) /\
  (0 <= p ->
   (soc b - soc b') / 100 * capacity_kwh b * _get_efficiency b false
   == total_discharged_kwh b' - total_discharged_kwh b).
Proof.
  intros H Hlo Hhi.
  destruct (update_ok_shape p dt v b b' st H) as (Hpow & _ & Hsoc & Hch & Hdis).
  destruct (update_ok_rest p dt v b b' st H)
    as (_ & _ & _ & _ & _ & _ & _ & _ & Hcap & Heff).
  assert (Hs : soc b' == unclamped_soc b p dt).
  { rewrite Hsoc. apply py_clamp_inside; assumption. }
  unfold power_matches_energy. rewrite Hpow, Hch, Hdis, Hs.
  unfold unclamped_soc, soc_change_of_power. cbv zeta.
  split; [ring|].
  destruct (Qltb_spec p 0) as [Hp|Hp]; (split; intro Hp'; [|]);
    try (exfalso; lra).
  - field. exact Hcap.
  - field. split; first [exact Hcap | apply Heff; reflexivity].
Qed.

Lemma battery_energy_accounted_witness :
  exists b' st,
    update 2 60 1 (init 13.5 5 50 5 100 1) = (b', Ok st) /\
    power_matches_energy (init 13.5 5 50 5 100 1) b' 2 60.
Proof.
  assert (H : update 2 60 1 (init 13.5 5 50 5 100 1)
              = (state_of (update 2 60 1 (init 13.5 5 50 5 100 1)),
                 Ok (get_status
                       (state_of (update 2 60 1 (init 13.5 5 50 5 100 1)))))).
  { vm_compute. reflexivity. }
  assert (H1 : min_soc (init 13.5 5 50 5 100 1)
               <= unclamped_soc (init 13.5 5 50 5 100 1) 2 60)
    by (vm_compute; discriminate).
  assert (H2 : unclamped_soc (init 13.5 5 50 5 100 1) 2 60
               <= max_soc (init 13.5 5 50 5 100 1))
    by (vm_compute; discriminate).
  eexists. eexists. split; [exact H|].
  destruct (battery_energy_accounted _ _ _ _ _ _ H H1 H2) as (A & _).
  exact A.
Defined.

Lemma calculate_voltage_window (b : t) (v : Q) :
  0 <= soc b -> soc b <= 100 -> 0.995 <= v -> v <= 1.005 ->
  41.79 <= _calculate_voltage b v /\ _calculate_voltage b v <= 57.89.
Proof.
  intros Hs1 Hs2 Hv1 Hv2. unfold _calculate_voltage. cbv zeta.
  unfold MAX_VOLTAGE, MIN_VOLTAGE.
  apply py_round_between;
    [vm_compute; reflexivity|vm_compute; reflexivity| |];
    qinv 100.0; nra.
Qed.

(** X8.  With the voltage draw in the range [random.uniform(0.995,
    1.005)] takes it from and bounds [0 <= min_soc <= max_soc <= 100],
    the terminal voltage stored by a returning [update] is within
    [[41.79, 57.89]] volt, and the stored current is the stored power
    over that voltage: [current * voltage = power_kw * 1000]. *)
Theorem battery_voltage_window (p dt v : Q) (b b' : t) (st : Status) :
  update p dt v b = (b', Ok st) ->
  0 <= min_soc b -> min_soc b <= max_soc b -> max_soc b <= 100 ->
  0.995 <= v -> v <= 1.005 ->
  41.79 <= voltage b' /\ voltage b' <= 57.89 /\
  current b' * voltage b' == power_kw b' * 1000.
Proof.
  intros H Hlo Hne Hhi Hv1 Hv2.
  destruct (update_ok_shape p dt v b b' st H) as (Hpow & _ & Hsoc & _).
  destruct (update_ok_rest p dt v b b' st H)
    as (_ & _ & _ & _ & Hvol & Hcur & _).
  pose proof (py_clamp_bounds (min_soc b) (max_soc b) (unclamped_soc b p dt)
                Hne) as Hb.
  rewrite <- Hsoc in Hb.
  assert (Hw : 41.79 <= voltage b' /\ voltage b' <= 57.89).
  { rewrite Hvol. apply calculate_voltage_window; lra. }
  split; [apply Hw|]. split; [apply Hw|].
  rewrite Hcur, Hpow.
  destruct (Qgtb_spec (voltage b') 0) as [Hp|Hp]; [|exfalso; lra].
  field. lra.
Qed.

Lemma battery_voltage_window_witness :
  exists b' st,
    update 2 60 1 (init 13.5 5 50 5 100 1) = (b', Ok st) /\
    41.79 <= voltage b' /\ voltage b' <= 57.89.
Proof.
  assert (H : update 2 60 1 (init 13.5 5 50 5 100 1)
              = (state_of (update 2 60 1 (init 13.5 5 50 5 100 1)),
                 Ok (get_status
                       (state_of (update 2 60 1 (init 13.5 5 50 5 100 1)))))).
  { vm_compute. reflexivity. }
  assert (H1 : 0 <= min_soc (init 13.5 5 50 5 100 1))
    by (vm_compute; discriminate).
  assert (H2 : min_soc (init 13.5 5 50 5 100 1)
               <= max_soc (init 13.5 5 50 5 100 1))
    by (vm_compute; discriminate).
  assert (H3 : max_soc (init 13.5 5 50 5 100 1) <= 100)
    by (vm_compute; discriminate).
  assert (H4 : 0.995 <= 1) by (vm_compute; discriminate).
  assert (H5 : 1 <= 1.005) by (vm_compute; discriminate).
  eexists. eexists. split; [exact H|].
  destruct (battery_voltage_window _ _ _ _ _ _ H H1 H2 H3 H4 H5)
    as (A & B & _).
  split; [exact A|exact B].
Defined.

(** X9.  [set_soc] never raises; it stores a value inside the bounds
    unchanged and saturates one outside at the nearer bound; it
    recomputes the voltage and leaves the power, the energy counters and
    the cycle count alone. *)
Theorem battery_set_soc_saturates (x v : Q) (b : t) :
  min_soc b <= max_soc b ->
  outcome_of (set_soc x v b) = Ok tt /\
  (min_soc b <= x -> x <= max_soc b -> soc (state_of (set_soc x v b)) == x) /\
  (x < min_soc b -> soc (state_of (set_soc x v b)) == min_soc b) /\
  (max_soc b < x -> soc (state_of (set_soc x v b)) == max_soc b) /\
  voltage (state_of (set_soc x v b))
  = _calculate_voltage (state_of (set_soc x v b)) v /\
  power_kw (state_of (set_soc x v b)) = power_kw b /\
  total_charged_kwh (state_of (set_soc x v b)) = total_charged_kwh b /\
  total_discharged_kwh (state_of (set_soc x v b)) = total_discharged_kwh b /\
  cycle_count (state_of (set_soc x v b)) = cycle_count b.
Proof.
  intro Hne. unfold set_soc, _calculate_voltage. bat_simpl.
  split; [reflexivity|].
  split; [intros; apply py_clamp_inside; assumption|].
  split; [intro; rewrite py_clamp_below by assumption; reflexivity|].
  split; [intro; apply py_clamp_above; assumption|].
  repeat split.
Qed.

Lemma battery_set_soc_saturates_witness :
  soc (state_of (set_soc 150 1 (init 13.5 5 50 5 100 1)))
  == max_soc (init 13.5 5 50 5 100 1).
Proof.
  assert (H1 : min_soc (init 13.5 5 50 5 100 1)
               <= max_soc (init 13.5 5 50 5 100 1))
    by (vm_compute; discriminate).
  assert (H2 : max_soc (init 13.5 5 50 5 100 1) < 150)
    by (vm_compute; reflexivity).
  destruct (battery_set_soc_saturates 150 1 _ H1) as (_ & _ & _ & A & _).
  exact (A H2).
Defined.

End BatteryMore.
(* ------------------------------------------------------------------ *)
(** * Further properties: EV charger model *)
(* ------------------------------------------------------------------ *)

Module EVMore.
Import EV EVFacts.
Local Open Scope Q_scope.

(** [min(100, max(0, x))] is a percentage, and [x] itself when [x] is
    one. *)
Lemma clamp_percent (x : Q) :
  0 <= py_min 100 (py_max 0 x) /\ py_min 100 (py_max 0 x) <= 100 /\
  (0 <= x -> x <= 100 -> py_min 100 (py_max 0 x) == x).
Proof.
  destruct (py_max_spec 0 x) as [[H1 ->]|[H1 ->]];
    [destruct (py_min_spec 100 x) as [[H2 ->]|[H2 ->]]
    |destruct (py_min_spec 100 0) as [[H2 ->]|[H2 ->]]];
    repeat split; intros; lra.
Qed.

(** The three ways through the schedule block of [update]. *)
Lemma handle_schedule_cases (env : Env) (s : t) :
  (handle_schedule env s = (s, Ok tt) /\
   (if vehicle_connected s then past_departure s (env_hour env)
    else in_window s (env_hour env)) = false) \/
  (vehicle_connected s = false /\ in_window s (env_hour env) = true /\
   handle_schedule env s = connect_vehicle None None env s) \/
  (vehicle_connected s = true /\ past_departure s (env_hour env) = true /\
   handle_schedule env s = disconnect_vehicle s).
Proof.
  unfold handle_schedule. ev_simpl.
  destruct (vehicle_connected s); cbn [negb].
  - destruct (past_departure s (env_hour env));
      [right; right; repeat split|left; split; reflexivity].
  - destruct (in_window s (env_hour env));
      [right; left; repeat split|left; split; reflexivity].
Qed.

(** The three ways through the charging block of [update]. *)
Lemma charge_step_cases (dt : Q) (env : Env) (s : t) :
  let P := _calculate_charging_power s (env_variation env) in
  (P <= 0 /\ charge_step dt env s = (with_power_w P s, Ok tt)) \/
  (0 < P /\ vehicle_capacity_kwh s * 1000 == 0 /\
   charge_step dt env s = (with_power_w P s, Raise ZeroDivisionError)) \/
  (0 < P /\ ~ vehicle_capacity_kwh s * 1000 == 0 /\
   exists s',
     charge_step dt env s = (s', Ok tt) /\
     vehicle_soc s'
     = py_min 100
         (vehicle_soc s
          + P * dt * CHARGING_EFFICIENCY / (vehicle_capacity_kwh s * 1000)
            * 100) /\
     total_energy_wh s' = total_energy_wh s + P * dt /\
     session_energy_wh s' = session_energy_wh s + P * dt /\
     ((vehicle_target_soc s <= vehicle_soc s' /\
       power_w s' = 0.0 /\ status s' = FINISHING) \/
      (vehicle_soc s' < vehicle_target_soc s /\
       power_w s' = P /\ status s' = status s)) /\
     vehicle_connected s' = vehicle_connected s /\
     vehicle_target_soc s' = vehicle_target_soc s /\
     vehicle_capacity_kwh s' = vehicle_capacity_kwh s /\
     last_update s' = last_update s /\
     current_limit s' = current_limit s /\
     session_start s' = session_start s).
Proof.
  cbv zeta. unfold charge_step. ev_simpl.
  destruct (Qgtb_spec (_calculate_charging_power s (env_variation env)) 0)
    as [Hpos|Hnonpos]; ev_simpl; [|left; split; [exact Hnonpos|reflexivity]].
  right. div_case; ev_simpl.
  - left. repeat split; assumption.
  - right. split; [exact Hpos|]. split; [exact Hz|].
    match goal with
    | |- context [if Qgeb ?a ?b then _ else _] =>
        destruct (Qgeb_spec a b) as [Hge|Hlt]
    end; ev_simpl; eexists; (split; [reflexivity|]); ev_simpl;
      repeat (split; [reflexivity|]);
      (split; [|repeat split]);
      [left|right]; repeat split; assumption.
Qed.

(** [update], with its blocks named. *)
Lemma update_unfold (env : Env) (b : t) :
  update env b
  = (state_of
       (charge_step ((env_time env - last_update b) / 3600.0) env
          (state_of (handle_schedule env (with_last_update (env_time env) b)))),
     match
       outcome_of
         (charge_step ((env_time env - last_update b) / 3600.0) env
            (state_of
               (handle_schedule env (with_last_update (env_time env) b))))
     with
     | Ok _ =>
         Ok (get_status
               (state_of
                  (charge_step ((env_time env - last_update b) / 3600.0) env
                     (state_of
                        (handle_schedule env
                           (with_last_update (env_time env) b)))))
               (env_time env))
     | Raise e => Raise e
     end).
Proof.
  unfold update. ev_simpl.
  rewrite (handle_schedule_ok env (with_last_update (env_time env) b)).
  ev_simpl.
  destruct (charge_step _ env _) as [s2 [[]|e]]; reflexivity.
Qed.

(** What the schedule block keeps. *)
Lemma handle_schedule_keeps (env : Env) (s : t) :
  let s1 := state_of (handle_schedule env s) in
  vehicle_capacity_kwh s1 = vehicle_capacity_kwh s /\
  last_update s1 = last_update s /\
  total_energy_wh s1 = total_energy_wh s /\
  current_limit s1 = current_limit s /\
  (soc_in_range s -> soc_in_range s1).
Proof.
  cbv zeta. unfold soc_in_range.
  destruct (handle_schedule_cases env s)
    as [[-> _]|[(_ & _ & ->)|(_ & _ & ->)]];
    unfold connect_vehicle, disconnect_vehicle; ev_simpl;
    repeat (split; [reflexivity|]); intro H; try exact H; try lra.
  destruct (clamp_percent (env_arrival_soc env)) as (H1 & H2 & _).
  split; assumption.
Qed.

(** X10.  [update] raises exactly when it computes a positive charging
    power for a vehicle whose battery capacity is zero; the exception is
    [ZeroDivisionError], and the call has by then stored the new clock
    reading and the computed power, so the charger reports a power it
    never delivered. *)
Theorem ev_update_raises_iff (env : Env) (b : t) :
  ((exists e, outcome_of (update env b) = Raise e) <->
   (0 < computed_power env b /\ vehicle_capacity_kwh b == 0)) /\
  (forall e, outcome_of (update env b) = Raise e ->
     e = ZeroDivisionError /\
     last_update (state_of (update env b)) = env_time env /\
     power_w (state_of (update env b)) = computed_power env b).
Proof.
  rewrite update_unfold. unfold computed_power, outcome_of at 1 3, state_of at 1 2.
  cbn [fst snd].
  destruct (handle_schedule_keeps env (with_last_update (env_time env) b))
    as (Hcap & Hlu & _).
  cbv zeta in *.
  set (s1 := state_of (handle_schedule env (with_last_update (env_time env) b)))
    in *.
  cbn [vehicle_capacity_kwh last_update with_last_update] in Hcap, Hlu.
  destruct (charge_step_cases ((env_time env - last_update b) / 3600.0) env s1)
    as [[Hle ->]|[(Hpos & Hz & ->)|(Hpos & Hz & s' & -> & _)]];
    cbv zeta in *; unfold outcome_of, state_of; cbn [fst snd].
  - split; [split; [intros [e He]; discriminate He|intros [Hp _]; lra]|].
    intros e He. discriminate He.
  - rewrite Hcap in Hz.
    split; [split; [intros _; split; [exact Hpos|lra]
                   |intros _; eexists; reflexivity]|].
    intros e He. injection He as <-. ev_simpl.
    repeat split. exact Hlu.
  - rewrite Hcap in Hz.
    split; [split; [intros [e He]; discriminate He
                   |intros [_ Hc]; exfalso; apply Hz; lra]|].
    intros e He. discriminate He.
Qed.

Lemma charging_power_bounds (s : t) (v : Q) :
  0 <= max_power_kw s -> 0 <= current_limit s -> 0 <= v ->
  0 <= _calculate_charging_power s v /\
  _calculate_charging_power s v <= max_power_kw s * 1000 * v.
Proof.
  intros Hmp Hcl Hv. unfold _calculate_charging_power.
  assert (Hz : 0 <= max_power_kw s * 1000 * v) by nra.
  destruct (negb (vehicle_connected s)); [split; lra|].
  destruct (negb (status_eqb (status s) CHARGING)); [split; lra|].
  destruct (vehicle_soc s >=? vehicle_target_soc s); [split; lra|].
  cbv zeta.
  assert (Hbase : 0 <= current_limit s * DEFAULT_VOLTAGE * 1.732 / 1000)
    by (unfold DEFAULT_VOLTAGE; qinv 1000; lra).
  set (base := current_limit s * DEFAULT_VOLTAGE * 1.732 / 1000) in *.
  assert (Hshaped :
    0 <= (if vehicle_soc s >? 80
          then base * py_max 0.1 ((100 - vehicle_soc s) / 20)
          else if vehicle_soc s >? 90 then base * 0.2 else base)).
  { destruct (vehicle_soc s >? 80).
    - pose proof (py_max_lower 0.1 ((100 - vehicle_soc s) / 20)) as Hm.
      revert Hm. generalize (py_max 0.1 ((100 - vehicle_soc s) / 20)).
      intros m Hm. nra.
    - destruct (vehicle_soc s >? 90); lra. }
  set (shaped := if vehicle_soc s >? 80 then _ else _) in *.
  destruct (py_min_spec shaped (max_power_kw s)) as [[Hlt ->]|[Hge ->]];
    split; nra.
Qed.

(** What one [update] keeps, whether it returns or raises. *)
Lemma update_keeps (env : Env) (b : t) :
  let b' := state_of (update env b) in
  vehicle_capacity_kwh b' = vehicle_capacity_kwh b /\
  last_update b' = env_time env /\
  current_limit b' = current_limit b /\
  (0 <= vehicle_capacity_kwh b -> last_update b <= env_time env ->
   soc_in_range b -> soc_in_range b') /\
  (last_update b <= env_time env ->
   total_energy_wh b <= total_energy_wh b').
Proof.
  cbv zeta. rewrite update_state.
  destruct (handle_schedule_keeps env (with_last_update (env_time env) b))
    as (Hcap & Hlu & Htot & Hcl & Hsoc).
  cbv zeta in *.
  set (s1 := state_of (handle_schedule env (with_last_update (env_time env) b)))
    in *.
  cbn [vehicle_capacity_kwh last_update total_energy_wh current_limit
       with_last_update] in Hcap, Hlu, Htot, Hcl.
  assert (Hsoc' : soc_in_range b -> soc_in_range s1)
    by (intro H; apply Hsoc; exact H).
  clear Hsoc. unfold soc_in_range in *.
  set (dt := (env_time env - last_update b) / 3600.0).
  assert (Hdt : last_update b <= env_time env -> 0 <= dt)
    by (intro H; unfold dt; qinv 3600.0; lra).
  destruct (charge_step_cases dt env s1)
    as [[Hle ->]|[(Hpos & Hz & ->)|(Hpos & Hz & s' & -> & Hs & Ht & _ & _
                                    & _ & _ & Hc & Hl & Hcl' & _)]];
    cbv zeta in *; unfold state_of; cbn [fst]; ev_simpl.
  - split; [exact Hcap|]. split; [exact Hlu|]. split; [exact Hcl|].
    split; [intros _ _ Hr; apply Hsoc'; exact Hr|intros _; rewrite Htot; lra].
  - split; [exact Hcap|]. split; [exact Hlu|]. split; [exact Hcl|].
    split; [intros _ _ Hr; apply Hsoc'; exact Hr|intros _; rewrite Htot; lra].
  - rewrite Hc, Hl, Hcl', Hs, Ht.
    split; [exact Hcap|]. split; [exact Hlu|]. split; [exact Hcl|].
    split.
    + intros Hc0 Hclock Hr. specialize (Hsoc' Hr). specialize (Hdt Hclock).
      rewrite Hcap in *.
      assert (Hinc :
        0 <= _calculate_charging_power s1 (env_variation env) * dt
             * CHARGING_EFFICIENCY / (vehicle_capacity_kwh b * 1000) * 100).
      { unfold CHARGING_EFFICIENCY.
        assert (Hn : 0 <= _calculate_charging_power s1 (env_variation env)
                          * dt * 0.92).
        { revert Hpos Hdt.
          generalize (_calculate_charging_power s1 (env_variation env)) dt.
          intros P d HP Hd. nra. }
        assert (Hq : 0 <= _calculate_charging_power s1 (env_variation env)
                          * dt * 0.92 / (vehicle_capacity_kwh b * 1000)).
        { apply Qle_shift_div_l; [lra|]. lra. }
        lra. }
      revert Hinc.
      generalize (_calculate_charging_power s1 (env_variation env) * dt
                  * CHARGING_EFFICIENCY / (vehicle_capacity_kwh b * 1000)
                  * 100).
      intros inc Hinc. unfold py_min. qcase; lra.
    + intro Hclock. specialize (Hdt Hclock). rewrite Htot.
      revert Hpos Hdt.
      generalize (_calculate_charging_power s1 (env_variation env)) dt.
      intros P d HP Hd. nra.
Qed.

Lemma trace_soc_in_range (envs : list Env) :
  forall b,
    0 <= vehicle_capacity_kwh b -> soc_in_range b ->
    clock_advances (last_update b) envs ->
    Forall soc_in_range (trace envs b).
Proof.
  induction envs as [|env rest IH]; intros b Hcap Hr Hclock; cbn [trace].
  - constructor.
  - destruct Hclock as [Hnow Hrest].
    destruct (update_keeps env b) as (Hc & Hl & _ & Hs & _). cbv zeta in *.
    constructor; [apply Hs; assumption|].
    apply IH; [rewrite Hc; exact Hcap|apply Hs; assumption|].
    rewrite Hl. exact Hrest.
Qed.

(** X11.  The vehicle's state of charge stays a percentage.  For a
    charger built by the constructor with a vehicle capacity that is not
    negative and an arrival draw within [[0, 100]], and clock readings
    that never run backwards, the state of charge is within [[0, 100]]
    after construction and after every [update] - also in the state an
    [update] leaves behind when it raises. *)
Theorem ev_soc_bounds
    (mp cap : Q) (ah dh : Z) (env0 : Env) (envs : list Env) :
  0 <= cap -> 0 <= env_arrival_soc env0 -> env_arrival_soc env0 <= 100 ->
  clock_advances (env_time env0) envs ->
  Forall soc_in_range
    (init mp cap ah dh env0 :: trace envs (init mp cap ah dh env0)).
Proof.
  intros Hcap Ha1 Ha2 Hclock.
  assert (H0 : soc_in_range (init mp cap ah dh env0) /\
               vehicle_capacity_kwh (init mp cap ah dh env0) = cap /\
               last_update (init mp cap ah dh env0) = env_time env0).
  { unfold init, _schedule_vehicle, soc_in_range. ev_simpl.
    match goal with
    | |- context [if ?c then _ else _] => destruct c
    end; ev_simpl; repeat split; lra. }
  destruct H0 as (Hr & Hc & Hl).
  constructor; [exact Hr|].
  apply trace_soc_in_range; [rewrite Hc; exact Hcap|exact Hr|].
  rewrite Hl. exact Hclock.
Qed.

Lemma ev_soc_bounds_witness :
  Forall soc_in_range
    (scenario_b :: trace [scenario_b_later] scenario_b).
Proof.
  apply (ev_soc_bounds 11 60 18 7 scenario_b_arrival [scenario_b_later]);
    try (vm_compute; discriminate).
  split; [vm_compute; discriminate|exact I].
Defined.

(** X12.  The energy bookkeeping of a returning [update].  With [P] the
    charging power computed in the call and [dt] the hours since the
    previous call: when [P] is positive the session and lifetime
    counters both gain [P * dt]; otherwise the lifetime counter is left
    alone.  While the state of charge stays below 100 the energy that
    reached the vehicle is 92 % of what was metered.  With a clock that
    does not run backwards the lifetime counter never decreases. *)
Theorem ev_energy_accounting (env : Env) (b b' : t) (st : Status) :
  update env b = (b', Ok st) ->
  let s1 := state_of (handle_schedule env (with_last_update (env_time env) b)) in
  let P := computed_power env b in
  let dt := (env_time env - last_update b) / 3600.0 in
  (P <= 0 -> total_energy_wh b' = total_energy_wh b) /\
  (0 < P ->
   total_energy_wh b' = total_energy_wh b + P * dt /\
   session_energy_wh b' = session_energy_wh s1 + P * dt /\
   (vehicle_soc b' < 100 ->
    (vehicle_soc b' - vehicle_soc s1) / 100 * (vehicle_capacity_kwh b * 1000)
    == CHARGING_EFFICIENCY * (P * dt))) /\
  (last_update b <= env_time env -> total_energy_wh b <= total_energy_wh b').
Proof.
  intro H. cbv zeta.
  assert (Hb' : b' = state_of (update env b)) by (rewrite H; reflexivity).
  split; [|split];
    [| |intro Hclock; rewrite Hb'; apply update_keeps; exact Hclock].
  - intro HP. rewrite Hb', update_state. unfold computed_power in HP.
    destruct (handle_schedule_keeps env (with_last_update (env_time env) b))
      as (_ & _ & Htot & _).
    cbv zeta in Htot. cbn [total_energy_wh with_last_update] in Htot.
    destruct (charge_step_cases ((env_time env - last_update b) / 3600.0) env
                (state_of (handle_schedule env
                             (with_last_update (env_time env) b))))
      as [[_ ->]|[(Hpos & _)|(Hpos & _)]]; cbv zeta in *;
      [unfold state_of; cbn [fst]; ev_simpl; exact Htot|lra|lra].
  - intro HP. unfold computed_power in *.
    destruct (handle_schedule_keeps env (with_last_update (env_time env) b))
      as (Hcap & _ & Htot & _).
    cbv zeta in Hcap, Htot.
    cbn [total_energy_wh vehicle_capacity_kwh with_last_update] in Hcap, Htot.
    rewrite update_unfold in H.
    destruct (charge_step_cases ((env_time env - last_update b) / 3600.0) env
                (state_of (handle_schedule env
                             (with_last_update (env_time env) b))))
      as [[Hle _]|[(_ & _ & E)|(_ & Hz & s' & E & Hs & Ht & Hse & _)]];
      cbv zeta in *; [lra|rewrite E in H; discriminate H|].
    rewrite E in H. unfold state_of, outcome_of in H. cbn [fst snd] in H.
    injection H as <- _.
    rewrite Ht, Hse, Hs, Htot, <- Hcap.
    split; [reflexivity|]. split; [reflexivity|].
    intro Hlt. unfold py_min in *.
    match goal with
    | |- context [Qltb ?a ?b] => destruct (Qltb_spec a b) as [Hc|Hc]
    end; [|exfalso; lra].
    field. intro Hx. apply Hz. rewrite Hx. ring.
Qed.

Lemma ev_energy_accounting_witness :
  exists b' st,
    update scenario_b_later scenario_b = (b', Ok st) /\
    total_energy_wh b'
    = total_energy_wh scenario_b
      + computed_power scenario_b_later scenario_b
        * ((env_time scenario_b_later - last_update scenario_b) / 3600.0).
Proof.
  assert (H : update scenario_b_later scenario_b
              = (state_of (update scenario_b_later scenario_b),
                 Ok (get_status (state_of (update scenario_b_later scenario_b))
                       (env_time scenario_b_later)))).
  { vm_compute. reflexivity. }
  assert (HP : 0 < computed_power scenario_b_later scenario_b)
    by (vm_compute; reflexivity).
  eexists. eexists. split; [exact H|].
  destruct (ev_energy_accounting _ _ _ _ H) as (_ & A & _).
  destruct (A HP) as (B & _). exact B.
Defined.

(** X13.  The power an [update] leaves in [power_w] is never negative
    and never more than the rating times the draw of
    [random.uniform(0.98, 1.02)]: the jitter is applied after the cap,
    so the stored power can exceed the rating by up to 2 %. *)
Theorem ev_power_within_rating (env : Env) (b : t) :
  0 <= max_power_kw b -> 0 <= current_limit b -> 0 <= env_variation env ->
  0 <= power_w (state_of (update env b)) /\
  power_w (state_of (update env b))
  <= max_power_kw b * 1000 * env_variation env.
Proof.
  intros Hmp Hcl Hv. rewrite update_state.
  destruct (handle_schedule_keeps env (with_last_update (env_time env) b))
    as (_ & _ & _ & Hcl1 & _).
  destruct (handle_schedule_keeps_rating env
              (with_last_update (env_time env) b)) as [_ Hmp1].
  cbv zeta in *.
  set (s1 := state_of (handle_schedule env (with_last_update (env_time env) b)))
    in *.
  cbn [max_power_kw current_limit with_last_update] in Hcl1, Hmp1.
  assert (HP : 0 <= _calculate_charging_power s1 (env_variation env) /\
               _calculate_charging_power s1 (env_variation env)
               <= max_power_kw b * 1000 * env_variation env).
  { rewrite <- Hmp1. apply charging_power_bounds;
      [rewrite Hmp1|rewrite Hcl1|]; assumption. }
  assert (Hz : 0 <= max_power_kw b * 1000 * env_variation env) by nra.
  destruct (charge_step_cases ((env_time env - last_update b) / 3600.0) env s1)
    as [[_ ->]|[(_ & _ & ->)|(_ & _ & s' & -> & _ & _ & _ & Hpw & _)]];
    cbv zeta in *; unfold state_of; cbn [fst]; ev_simpl;
    [exact HP|exact HP|].
  destruct Hpw as [(_ & -> & _)|(_ & -> & _)]; [split; lra|exact HP].
Qed.

Lemma ev_power_within_rating_witness :
  0 <= power_w (state_of (update scenario_b_later scenario_b)) /\
  power_w (state_of (update scenario_b_later scenario_b))
  <= max_power_kw scenario_b * 1000 * env_variation scenario_b_later.
Proof.
  apply (ev_power_within_rating scenario_b_later scenario_b);
    vm_compute; discriminate.
Defined.

(** X14.  Pausing and resuming.  [pause_charging] acts on a charging
    charger only: it suspends it and zeroes the power, and leaves a
    charger in any other status exactly as it was.  [resume_charging]
    after a pause gives back the state before the pause with the power
    at zero when the vehicle is below its target, and leaves the charger
    suspended when the vehicle is at or above it. *)
Theorem ev_pause_resume (b : t) :
  outcome_of (pause_charging b) = Ok tt /\
  outcome_of (resume_charging (state_of (pause_charging b))) = Ok tt /\
  (status b <> CHARGING -> state_of (pause_charging b) = b) /\
  (status b = CHARGING ->
   state_of (pause_charging b) = with_power_w 0.0 (with_status SUSPENDED_EVSE b) /\
   (vehicle_soc b < vehicle_target_soc b ->
    state_of (resume_charging (state_of (pause_charging b)))
    = with_power_w 0.0 b) /\
   (vehicle_target_soc b <= vehicle_soc b ->
    state_of (resume_charging (state_of (pause_charging b)))
    = with_power_w 0.0 (with_status SUSPENDED_EVSE b))).
Proof.
  unfold pause_charging, resume_charging. ev_simpl.
  split; [destruct (status_eqb (status b) CHARGING); reflexivity|].
  split.
  { destruct (status_eqb (status b) CHARGING); ev_simpl;
      repeat match goal with
             | |- context [if ?c then _ else _] => destruct c
             end; reflexivity. }
  split.
  - intro Hs. destruct (status b); try reflexivity. contradiction.
  - intro Hs. rewrite Hs. cbn [status_eqb status_code Z.eqb Pos.eqb orb].
    ev_simpl. split; [reflexivity|].
    cbn [status_eqb status_code Z.eqb Pos.eqb orb].
    split; intro Hsoc;
      destruct (Qltb_spec (vehicle_soc b) (vehicle_target_soc b));
      try lra; ev_simpl; try reflexivity.
    destruct b; cbn in Hs; subst; reflexivity.
Qed.

(** X15.  [connect_vehicle] never raises.  It stores the initial state
    of charge clamped to [[0, 100]], starts a session with the session
    counter at zero and the status Charging, and keeps the lifetime
    counter and the last power.  The target is taken as given, without
    clamping, except that no target and a target of zero both give the
    default of 80 %. *)
Theorem ev_connect_vehicle_effect
    (initial_soc target_soc : option Q) (env : Env) (b : t) :
  let b' := state_of (connect_vehicle initial_soc target_soc env b) in
  outcome_of (connect_vehicle initial_soc target_soc env b) = Ok tt /\
  vehicle_connected b' = true /\ status b' = CHARGING /\
  soc_in_range b' /\
  (forall x, initial_soc = Some x -> 0 <= x -> x <= 100 ->
             vehicle_soc b' == x) /\
  session_energy_wh b' = 0.0 /\ session_start b' = Some (env_time env) /\
  total_energy_wh b' = total_energy_wh b /\ power_w b' = power_w b /\
  (target_soc = None -> vehicle_target_soc b' = TARGET_SOC) /\
  (forall x, target_soc = Some x ->
     (x == 0 -> vehicle_target_soc b' = TARGET_SOC) /\
     (~ x == 0 -> vehicle_target_soc b' = x)).
Proof.
  cbv zeta. unfold connect_vehicle, soc_in_range. ev_simpl.
  split; [reflexivity|]. split; [reflexivity|]. split; [reflexivity|].
  split.
  { generalize (match initial_soc with
                | Some s => s
                | None => env_arrival_soc env
                end).
    intro x. destruct (clamp_percent x) as (H1 & H2 & _).
    split; assumption. }
  split.
  { intros x -> H0 H1. apply clamp_percent; assumption. }
  repeat (split; [reflexivity|]).
  split; [intros ->; reflexivity|].
  intros x ->. destruct (Qeqb_spec x 0) as [Hx|Hx];
    split; intro H; try reflexivity; contradiction.
Qed.

(** X16.  The schedule tests used by [_schedule_vehicle] and [update].
    The arrival test and the departure test are never both true.  For
    an overnight schedule (arrival not before departure) they are
    complementary: a vehicle connected by hand outside the window is
    disconnected by the next [update].  For a daytime schedule they both
    fail exactly in the hours before the arrival hour. *)
Theorem ev_schedule_tests (s : t) (h : Z) :
  in_window s h && past_departure s h = false /\
  ((arrival_hour s <? departure_hour s)%Z = false ->
   past_departure s h = negb (in_window s h)) /\
  ((arrival_hour s <? departure_hour s)%Z = true ->
   negb (in_window s h) && negb (past_departure s h)
   = (h <? arrival_hour s)%Z).
Proof.
  unfold in_window, past_departure.
  destruct (Z.ltb_spec (arrival_hour s) (departure_hour s)) as [Hd|Hd].
  - split; [|split; [discriminate|intros _]];
      destruct (Z.leb_spec (arrival_hour s) h);
      destruct (Z.ltb_spec h (departure_hour s));
      destruct (Z.geb_spec h (departure_hour s));
      destruct (Z.ltb_spec h (arrival_hour s));
      cbn [andb orb negb]; try reflexivity; lia.
  - split; [|split; [intros _|discriminate]];
      destruct (Z.geb_spec h (arrival_hour s));
      destruct (Z.ltb_spec h (departure_hour s));
      destruct (Z.leb_spec (departure_hour s) h);
      destruct (Z.ltb_spec h (arrival_hour s));
      cbn [andb orb negb]; try reflexivity; lia.
Qed.

(** X17.  [update] lets the schedule override the methods.  When the
    hour is inside the window an unconnected charger is connected by
    [update] - also right after [disconnect_vehicle] - with the arrival
    draw as state of charge and the default target; when the hour is
    past the departure a connected vehicle is disconnected and the call
    returns with no power, status Available and no session. *)
Theorem ev_update_follows_schedule (env : Env) (b : t) :
  (in_window b (env_hour env) = true ->
   vehicle_connected
     (state_of (update env (state_of (disconnect_vehicle b)))) = true) /\
  (vehicle_connected b = false -> in_window b (env_hour env) = true ->
   vehicle_connected (state_of (update env b)) = true /\
   vehicle_target_soc (state_of (update env b)) = TARGET_SOC /\
   session_start (state_of (update env b)) = Some (env_time env)) /\
  (vehicle_connected b = true -> past_departure b (env_hour env) = true ->
   update env b
   = (state_of (disconnect_vehicle (with_last_update (env_time env) b)),
      Ok (get_status
            (state_of (disconnect_vehicle (with_last_update (env_time env) b)))
            (env_time env))) /\
   vehicle_connected (state_of (update env b)) = false /\
   status (state_of (update env b)) = AVAILABLE /\
   power_w (state_of (update env b)) = 0.0 /\
   session_start (state_of (update env b)) = None).
Proof.
  assert (Hconn : forall s,
            vehicle_connected s = false -> in_window s (env_hour env) = true ->
            vehicle_connected (state_of (update env s)) = true /\
            vehicle_target_soc (state_of (update env s)) = TARGET_SOC /\
            session_start (state_of (update env s)) = Some (env_time env)).
  { intros s Hc Hw. rewrite update_state.
    destruct (handle_schedule_cases env (with_last_update (env_time env) s))
      as [[_ Hno]|[(_ & _ & E)|(Hyes & _)]];
      cbn [vehicle_connected with_last_update] in *.
    - rewrite Hc in Hno. unfold in_window in *.
      cbn [arrival_hour departure_hour with_last_update] in Hno.
      rewrite Hw in Hno. discriminate Hno.
    - rewrite E. unfold connect_vehicle. ev_simpl.
      match goal with
      | |- context [charge_step ?dt env ?s1] =>
          destruct (charge_step_cases dt env s1)
            as [[_ ->]|[(_ & _ & ->)
                       |(_ & _ & s' & -> & _ & _ & _ & _ & Hvc & Htg & _ & _
                          & _ & Hss)]]
      end; cbv zeta in *; unfold state_of; cbn [fst]; ev_simpl.
      + repeat split.
      + repeat split.
      + rewrite Hvc, Htg, Hss. repeat split.
    - rewrite Hc in Hyes. discriminate Hyes. }
  split; [|split; [exact (Hconn b)|]].
  { intro Hw. apply Hconn; unfold disconnect_vehicle; ev_simpl;
      [reflexivity|exact Hw]. }
  intros Hc Hpd.
  assert (E : handle_schedule env (with_last_update (env_time env) b)
              = disconnect_vehicle (with_last_update (env_time env) b)).
  { destruct (handle_schedule_cases env (with_last_update (env_time env) b))
      as [[_ Hno]|[(Hno & _)|(_ & _ & E)]];
      cbn [vehicle_connected with_last_update] in *.
    - rewrite Hc in Hno. unfold past_departure in *.
      cbn [arrival_hour departure_hour with_last_update] in Hno.
      rewrite Hpd in Hno. discriminate Hno.
    - rewrite Hc in Hno. discriminate Hno.
    - exact E. }
  assert (Hu : update env b
               = (state_of (disconnect_vehicle
                              (with_last_update (env_time env) b)),
                  Ok (get_status
                        (state_of (disconnect_vehicle
                                     (with_last_update (env_time env) b)))
                        (env_time env)))).
  { apply update_outcome. rewrite E.
    unfold disconnect_vehicle, charge_step, _calculate_charging_power.
    ev_simpl. reflexivity. }
  split; [exact Hu|]. rewrite Hu.
  unfold disconnect_vehicle. ev_simpl. repeat split.
Qed.

(** X18.  An [update] in which the schedule has nothing to do and the
    charger is not charging below its target - it is unconnected,
    paused, finished, or its vehicle is at the target - returns, and
    changes nothing but the clock reading and the power, which it sets
    to zero: a paused charger stays paused and a finished one stays
    finished until the schedule disconnects the vehicle. *)
Theorem ev_update_idle (env : Env) (b : t) :
  (if vehicle_connected b then past_departure b (env_hour env)
   else in_window b (env_hour env)) = false ->
  vehicle_connected b = false \/ status b <> CHARGING \/
  vehicle_target_soc b <= vehicle_soc b ->
  update env b
  = (with_power_w 0.0 (with_last_update (env_time env) b),
     Ok (get_status (with_power_w 0.0 (with_last_update (env_time env) b))
           (env_time env))).
Proof.
  intros Hsch Hidle. apply update_outcome.
  assert (E : state_of (handle_schedule env (with_last_update (env_time env) b))
              = with_last_update (env_time env) b).
  { unfold handle_schedule, in_window, past_departure in *. ev_simpl.
    destruct (vehicle_connected b); cbn [negb]; rewrite Hsch; reflexivity. }
  rewrite E. unfold charge_step. ev_simpl.
  assert (HP : _calculate_charging_power (with_last_update (env_time env) b)
                 (env_variation env) = 0.0).
  { unfold _calculate_charging_power. ev_simpl.
    destruct Hidle as [Hc|[Hs|Hsoc]].
    - rewrite Hc. reflexivity.
    - destruct (vehicle_connected b); [|reflexivity]. cbn [negb].
      destruct (status b); try reflexivity. contradiction.
    - destruct (negb (vehicle_connected b)); [reflexivity|].
      destruct (negb (status_eqb (status b) CHARGING)); [reflexivity|].
      destruct (Qgeb_spec (vehicle_soc b) (vehicle_target_soc b));
        [reflexivity|lra]. }
  rewrite HP. reflexivity.
Qed.

Lemma ev_update_idle_witness :
  exists st,
    update scenario_b_later (state_of (pause_charging scenario_b))
    = (with_power_w 0.0
         (with_last_update (env_time scenario_b_later)
            (state_of (pause_charging scenario_b))), Ok st).
Proof.
  assert (H1 : (if vehicle_connected (state_of (pause_charging scenario_b))
                then past_departure (state_of (pause_charging scenario_b))
                       (env_hour scenario_b_later)
                else in_window (state_of (pause_charging scenario_b))
                       (env_hour scenario_b_later)) = false)
    by (vm_compute; reflexivity).
  assert (H2 : vehicle_connected (state_of (pause_charging scenario_b)) = false
               \/ status (state_of (pause_charging scenario_b)) <> CHARGING
               \/ vehicle_target_soc (state_of (pause_charging scenario_b))
                  <= vehicle_soc (state_of (pause_charging scenario_b))).
  { right. left. vm_compute. discriminate. }
  eexists.
  exact (ev_update_idle scenario_b_later
           (state_of (pause_charging scenario_b)) H1 H2).
Defined.

(** X19.  A target above 100 % is never reached: [connect_vehicle]
    stores it as given, the state of charge is capped at 100, and so an
    [update] of a connected charger that is not already finished never
    sets the status Finishing - the charger keeps drawing its tapered
    power and counting energy with the vehicle full. *)
Theorem ev_target_above_full_never_finishes (env : Env) (b : t) :
  100 < vehicle_target_soc b -> vehicle_connected b = true ->
  status b <> FINISHING ->
  status (state_of (update env b)) <> FINISHING.
Proof.
  intros Htg Hc Hs. rewrite update_state.
  destruct (handle_schedule_cases env (with_last_update (env_time env) b))
    as [[E _]|[(Hno & _)|(_ & _ & E)]];
    cbn [vehicle_connected with_last_update] in *;
    [|rewrite Hc in Hno; discriminate Hno|].
  - rewrite E. unfold state_of at 2. cbn [fst].
    match goal with
    | |- context [charge_step ?dt env ?s1] =>
        destruct (charge_step_cases dt env s1)
          as [[_ ->]|[(_ & _ & ->)
                     |(_ & _ & s' & -> & Hsoc & _ & _ & Hst & _)]]
    end; cbv zeta in *; unfold state_of; cbn [fst]; ev_simpl;
      [exact Hs|exact Hs|].
    destruct Hst as [(Hge & _)|(_ & _ & ->)]; [|exact Hs].
    exfalso. rewrite Hsoc in Hge.
    match type of Hge with
    | _ <= py_min 100 ?x => pose proof (py_min_upper 100 x)
    end. lra.
  - rewrite E. unfold disconnect_vehicle, charge_step,
      _calculate_charging_power. ev_simpl. discriminate.
Qed.

Lemma ev_target_above_full_never_finishes_witness :
  status
    (state_of
       (update scenario_b_later
          (state_of (connect_vehicle (Some 99) (Some 150) scenario_b_arrival
                       scenario_b))))
  <> FINISHING.
Proof.
  apply (ev_target_above_full_never_finishes scenario_b_later
           (state_of (connect_vehicle (Some 99) (Some 150) scenario_b_arrival
                        scenario_b)));
    vm_compute; first [reflexivity | discriminate].
Defined.

End EVMore.
(* ------------------------------------------------------------------ *)
(** * Further properties: grid meter model *)
(* ------------------------------------------------------------------ *)

Module GridMore.
Import Grid GridFacts.
Local Open Scope Q_scope.

Lemma voltage_clamped (x : Q) :
  VOLTAGE_MIN <= py_round (py_max VOLTAGE_MIN (py_min VOLTAGE_MAX x)) 1 /\
  py_round (py_max VOLTAGE_MIN (py_min VOLTAGE_MAX x)) 1 <= VOLTAGE_MAX.
Proof.
  apply py_round_between;
    [vm_compute; reflexivity|vm_compute; reflexivity| |];
    apply py_clamp_bounds; vm_compute; discriminate.
Qed.

Lemma simulate_voltage_window (env : Env) :
  (VOLTAGE_MIN <= fst (fst (_simulate_voltage env)) /\
   fst (fst (_simulate_voltage env)) <= VOLTAGE_MAX) /\
  (VOLTAGE_MIN <= snd (fst (_simulate_voltage env)) /\
   snd (fst (_simulate_voltage env)) <= VOLTAGE_MAX) /\
  (VOLTAGE_MIN <= snd (_simulate_voltage env) /\
   snd (_simulate_voltage env) <= VOLTAGE_MAX).
Proof.
  unfold _simulate_voltage. cbv zeta. cbn [fst snd].
  repeat split; apply voltage_clamped.
Qed.

Lemma simulate_frequency_window (env : Env) :
  FREQUENCY_MIN <= _simulate_frequency env /\
  _simulate_frequency env <= FREQUENCY_MAX.
Proof.
  unfold _simulate_frequency. cbv zeta.
  apply py_clamp_bounds. vm_compute. discriminate.
Qed.

(** Figures rounded to cents: the rounded difference and the
    difference of the rounded figures are at most one cent apart. *)
Lemma round_cents_consistent (a b : Q) :
  Qabs (py_round a 2 - py_round b 2 - py_round (a - b) 2) <= 0.01.
Proof.
  unfold py_round. rewrite !Qred_correct.
  change (inject_Z (10 ^ Z.of_nat 2)) with 100.
  pose proof (round_half_even_error (a * 100)) as Ha.
  pose proof (round_half_even_error (b * 100)) as Hb.
  pose proof (round_half_even_error ((a - b) * 100)) as Hc.
  apply Qabs_Qle_condition in Ha, Hb, Hc.
  set (ra := round_half_even (a * 100)) in *.
  set (rb := round_half_even (b * 100)) in *.
  set (rc := round_half_even ((a - b) * 100)) in *.
  assert (Hk : (- 1 <= ra - rb - rc <= 1)%Z).
  { assert (H1 : (- 2 < ra - rb - rc)%Z).
    { rewrite Zlt_Qlt. unfold Z.sub. rewrite !inject_Z_plus, !inject_Z_opp.
      change (inject_Z (- 2)) with (- (2)). lra. }
    assert (H2 : (ra - rb - rc < 2)%Z).
    { rewrite Zlt_Qlt. unfold Z.sub. rewrite !inject_Z_plus, !inject_Z_opp.
      change (inject_Z 2) with 2. lra. }
    lia. }
  destruct Hk as [Hk1 Hk2].
  rewrite Zle_Qle in Hk1, Hk2. unfold Z.sub in Hk1, Hk2.
  rewrite !inject_Z_plus, !inject_Z_opp in Hk1, Hk2.
  change (inject_Z (- 1)) with (- (1)) in Hk1.
  change (inject_Z 1) with 1 in Hk2.
  apply Qabs_Qle_condition. qinv 100. split; lra.
Qed.

Section WithMath.
Context {ML : MathLib}.

(** The state [update] leaves, whether it returns or raises: the
    counters, the voltages and the frequency are assigned before
    anything can raise. *)
Lemma update_state_shape (net : Q) (env : Env) (g : t) :
  let g' := state_of (update net env g) in
  let dt := (env_time env - last_update g) / 3600.0 in
  import_energy_wh g'
  = (if power_w g' >? 0 then import_energy_wh g + Qabs (power_w g') * dt
     else import_energy_wh g) /\
  export_energy_wh g'
  = (if power_w g' >? 0 then export_energy_wh g
     else export_energy_wh g + Qabs (power_w g') * dt) /\
  voltage_l1 g' = fst (fst (_simulate_voltage env)) /\
  voltage_l2 g' = snd (fst (_simulate_voltage env)) /\
  voltage_l3 g' = snd (_simulate_voltage env) /\
  frequency g' = _simulate_frequency env /\
  power_factor g' = power_factor g /\
  import_price g' = import_price g /\ export_price g' = export_price g.
Proof.
  cbv zeta. destruct (update_power net env g) as [-> _].
  unfold update, _calculate_currents, _calculate_reactive_power, py_sqrt.
  destruct (_simulate_voltage env) as [[l1 l2] l3]. grid_simpl.
  repeat (first [div_case | if_case]; grid_simpl); repeat split.
Qed.

(** X20.  [update] raises exactly when the power factor is zero
    ([ZeroDivisionError], from the division in [_calculate_currents]) or
    below -1 ([ValueError], from [math.sqrt] of a negative number in
    [_calculate_reactive_power]); the draws, the clock and the net power
    play no part in it. *)
Theorem grid_update_raises_iff (net : Q) (env : Env) (g : t) :
  (outcome_of (update net env g) = Raise ZeroDivisionError
   <-> power_factor g == 0) /\
  (outcome_of (update net env g) = Raise ValueError
   <-> power_factor g < - (1)) /\
  ((exists st, outcome_of (update net env g) = Ok st)
   <-> ~ power_factor g == 0 /\ - (1) <= power_factor g).
Proof.
  destruct (simulate_voltage_window env) as ((A1 & A2) & (B1 & B2) & (C1 & C2)).
  unfold VOLTAGE_MIN, VOLTAGE_MAX in *.
  unfold update, _calculate_currents, _calculate_reactive_power, py_sqrt.
  destruct (_simulate_voltage env) as [[l1 l2] l3]. cbn [fst snd] in *.
  grid_simpl.
  assert (Havg : 0 < (l1 + l2 + l3) / 3)
    by (apply Qlt_shift_div_l; lra).
  set (avg := (l1 + l2 + l3) / 3) in *.
  generalize (py_max (- (max_power_kw g * 1000))
                (py_min (max_power_kw g * 1000) net)).
  intro P.
  destruct (P >? 0); grid_simpl;
    (destruct (Qgtb_spec avg 0) as [_|Hbad]; [|exfalso; lra]);
    grid_simpl.
  all: assert (Hprod : avg * power_factor g == 0 <-> power_factor g == 0)
    by (split; intro H; nra).
  all: div_case; grid_simpl;
    [ apply Hprod in Hz;
      (split; [split; [intros _; exact Hz|reflexivity]|]);
      (split; [split; [discriminate|intro; exfalso; lra]|]);
      (split; [intros [st Hst]; discriminate Hst
              |intros [Hn _]; contradiction])
    | ].
  all: assert (Hpf : ~ power_factor g == 0)
    by (intro H; apply Hz, Hprod, H).
  all: destruct (Qgeb_spec (power_factor g) 1.0) as [Hge|Hlt]; grid_simpl;
    [ (split; [split; [discriminate|intro; contradiction]|]);
      (split; [split; [discriminate|intro; exfalso; lra]|]);
      (split; [intros _; split; [exact Hpf|lra]
              |intros _; eexists; reflexivity])
    | ].
  all: destruct (Qltb_spec (1 - power_factor g * power_factor g) 0)
         as [Hneg|Hpos]; grid_simpl;
    [ (split; [split; [discriminate|intro; contradiction]|]);
      (split; [split; [intros _; nra|reflexivity]|]);
      (split; [intros [st Hst]; discriminate Hst
              |intros [_ Hn]; exfalso; nra])
    | ].
  all: div_case; grid_simpl; [contradiction|].
  all: (split; [split; [discriminate|intro; contradiction]|]);
    (split; [split; [discriminate|intro; exfalso; nra]|]);
    (split; [intros _; split; [exact Hpf|nra]|intros _; eexists; reflexivity]).
Qed.

Lemma perform_keeps (c : call) (g : t) :
  power_factor (perform c g) = power_factor g /\
  max_power_kw (perform c g) = max_power_kw g /\
  (within_tolerances g -> within_tolerances (perform c g)).
Proof.
  destruct c as [net env|a b|]; cbn [perform].
  - destruct (update_state_shape net env g)
      as (_ & _ & H1 & H2 & H3 & Hf & Hpf & _).
    destruct (update_power net env g) as [_ Hmp].
    cbv zeta in *. split; [exact Hpf|]. split; [exact Hmp|].
    intros _. unfold within_tolerances. rewrite H1, H2, H3, Hf.
    destruct (simulate_voltage_window env) as (A & B & C).
    repeat split;
      first [apply A | apply B | apply C | apply simulate_frequency_window].
  - unfold set_prices, within_tolerances. grid_simpl.
    split; [reflexivity|split; [reflexivity|intro H; exact H]].
  - unfold reset_energy_counters, within_tolerances. grid_simpl.
    split; [reflexivity|split; [reflexivity|intro H; exact H]].
Qed.

Lemma run_keeps (calls : list call) :
  forall g,
    power_factor (run calls g) = power_factor g /\
    max_power_kw (run calls g) = max_power_kw g /\
    (within_tolerances g -> within_tolerances (run calls g)).
Proof.
  induction calls as [|c rest IH]; intro g; cbn [run].
  - split; [reflexivity|split; [reflexivity|intro Hg; exact Hg]].
  - destruct (IH (perform c g)) as (-> & -> & Hw).
    destruct (perform_keeps c g) as (-> & -> & Hw').
    split; [reflexivity|split; [reflexivity|intro Hg; apply Hw, Hw', Hg]].
Qed.

(** X21.  A meter built by the constructor stays in service whatever
    is called on it.  After any sequence of [update], [set_prices] and
    [reset_energy_counters] calls, with any net powers, clock readings
    and random draws, the three phase voltages are within
    [[207, 253]] V and the frequency within [[49.5, 50.5]] Hz, the power
    factor is still 0.95 and the rating the one given, and the next
    [update] returns a status. *)
Theorem grid_meter_in_service
    (mp imp0 exp0 now : Q) (calls : list call) (net : Q) (env : Env) :
  let g := run calls (init mp imp0 exp0 now) in
  within_tolerances g /\
  power_factor g = 0.95 /\ max_power_kw g = mp /\
  update net env g
  = (state_of (update net env g),
     Ok (get_status (state_of (update net env g)))).
Proof.
  cbv zeta.
  destruct (run_keeps calls (init mp imp0 exp0 now)) as (Hpf & Hmp & Hw).
  cbn [power_factor max_power_kw init] in Hpf, Hmp.
  split.
  { apply Hw. unfold within_tolerances, init, VOLTAGE_MIN, VOLTAGE_MAX,
      FREQUENCY_MIN, FREQUENCY_MAX, NOMINAL_VOLTAGE, NOMINAL_FREQUENCY.
    cbn [voltage_l1 voltage_l2 voltage_l3 frequency].
    repeat split; lra. }
  split; [exact Hpf|]. split; [exact Hmp|].
  apply update_ok. exact Hpf.
Qed.

(** X22.  The energy an [update] books, whether it returns or raises.
    With [dt] the hours since the previous call, the import counter
    gains [|power| * dt] when the stored power is positive and the
    export counter gains it otherwise (a power of zero is booked as an
    export of nothing), so exactly one counter moves and the two
    together account for [power * dt]; with a clock that does not run
    backwards neither counter ever decreases. *)
Theorem grid_energy_accounting (net : Q) (env : Env) (g : t) :
  let g' := state_of (update net env g) in
  let dt := (env_time env - last_update g) / 3600.0 in
  (0 < power_w g' ->
   import_energy_wh g' == import_energy_wh g + power_w g' * dt /\
   export_energy_wh g' = export_energy_wh g) /\
  (power_w g' <= 0 ->
   import_energy_wh g' = import_energy_wh g /\
   export_energy_wh g' == export_energy_wh g - power_w g' * dt) /\
  (import_energy_wh g' - import_energy_wh g)
  - (export_energy_wh g' - export_energy_wh g) == power_w g' * dt /\
  (last_update g <= env_time env ->
   import_energy_wh g <= import_energy_wh g' /\
   export_energy_wh g <= export_energy_wh g').
Proof.
  cbv zeta.
  destruct (update_state_shape net env g) as (Hi & He & _).
  cbv zeta in *. rewrite Hi, He. clear Hi He.
  generalize (power_w (state_of (update net env g))). intro P.
  assert (Hdt : last_update g <= env_time env ->
                0 <= (env_time env - last_update g) / 3600.0)
    by (intro H; qinv 3600.0; lra).
  generalize dependent ((env_time env - last_update g) / 3600.0). intros dt Hdt.
  destruct (Qgtb_spec P 0) as [Hp|Hp]; cbv iota.
  - assert (Ha : Qabs P == P) by (apply Qabs_pos; lra).
    split; [intros _; split; [rewrite Ha; reflexivity|reflexivity]|].
    split; [intro; exfalso; lra|].
    split; [rewrite Ha; ring|].
    intro Hc. specialize (Hdt Hc). split; [rewrite Ha; nra|lra].
  - assert (Ha : Qabs P == - P) by (apply Qabs_neg; lra).
    split; [intro; exfalso; lra|].
    split; [intros _; split; [reflexivity|rewrite Ha; ring]|].
    split; [rewrite Ha; ring|].
    intro Hc. specialize (Hdt Hc). split; [lra|rewrite Ha; nra].
Qed.

End WithMath.

(** X23.  [get_daily_cost].  The three figures it reports are rounded
    to cents one by one, so the reported net cost can differ from the
    reported import cost less the reported export revenue, but by one
    cent at most.  It prices the counters at the prices in force: after
    [set_prices] the new ones, and after [reset_energy_counters] all
    three figures are zero. *)
Theorem grid_daily_cost_consistent (g : t) (a b : Q) :
  Qabs (import_cost_eur (get_daily_cost g)
        - export_revenue_eur (get_daily_cost g)
        - net_cost_eur (get_daily_cost g)) <= 0.01 /\
  import_cost_eur (get_daily_cost (state_of (set_prices a b g)))
  = py_round (import_energy_wh g / 1000 * a) 2 /\
  export_revenue_eur (get_daily_cost (state_of (set_prices a b g)))
  = py_round (export_energy_wh g / 1000 * b) 2 /\
  import_cost_eur (get_daily_cost (state_of (reset_energy_counters g))) == 0 /\
  export_revenue_eur (get_daily_cost (state_of (reset_energy_counters g)))
  == 0 /\
  net_cost_eur (get_daily_cost (state_of (reset_energy_counters g))) == 0.
Proof.
  split; [unfold get_daily_cost; cbv zeta;
          cbn [import_cost_eur export_revenue_eur net_cost_eur];
          apply round_cents_consistent|].
  unfold get_daily_cost, set_prices, reset_energy_counters. grid_simpl.
  cbn [import_cost_eur export_revenue_eur net_cost_eur].
  split; [reflexivity|]. split; [reflexivity|].
  assert (Hz : forall x, x == 0 -> py_round x 2 == 0).
  { intros x Hx. rewrite (py_round_comp x 0 2 Hx). vm_compute. reflexivity. }
  repeat split; apply Hz; field.
Qed.

End GridMore.
(* ------------------------------------------------------------------ *)
(** * Further properties: solar model *)
(* ------------------------------------------------------------------ *)

Module SolarMore.
Import Solar SolarFacts.
Local Open Scope R_scope.

Lemma degrees_asin_bound (x : R) : -90 <= degrees (asin x) <= 90.
Proof.
  pose proof (asin_bound x) as [H1 H2]. pose proof PI_RGT_0 as Hpi.
  unfold degrees.
  assert (E : forall y, y * 180 / PI = y * (180 / PI))
    by (intro y; field; lra).
  rewrite E.
  assert (Hk : 0 < 180 / PI) by (apply Rdiv_lt_0_compat; lra).
  assert (E90 : 90 = PI / 2 * (180 / PI)) by (field; lra).
  split.
  - replace (-90) with (- (PI / 2) * (180 / PI)) by (field; lra).
    apply Rmult_le_compat_r; lra.
  - rewrite E90. apply Rmult_le_compat_r; lra.
Qed.

Lemma elevation_range (self : t) (ts : datetime) :
  0 <= calculate_solar_elevation self ts <= 90.
Proof.
  unfold calculate_solar_elevation. cbv zeta.
  match goal with
  | |- context [degrees (asin ?x)] =>
      pose proof (degrees_asin_bound x) as [H1 H2];
      generalize dependent (degrees (asin x))
  end.
  intros e H1 H2. unfold py_max. destruct (Rlt_dec 0 e); lra.
Qed.

Lemma mod360_range (x : R) : 0 <= mod360 x < 360.
Proof.
  unfold mod360. pose proof (Zfloor_bound (x / 360)) as [H1 H2].
  set (f := IZR (Zfloor (x / 360))) in *.
  assert (E : x = x / 360 * 360) by (field; lra).
  split; lra.
Qed.

Lemma mod360_small (x : R) : 0 <= x < 360 -> mod360 x = x.
Proof.
  intros [H1 H2]. unfold mod360.
  rewrite (Zfloor_eq 0 (x / 360)); [lra|].
  lra.
Qed.

Lemma mod360_negative (x : R) : -360 <= x < 0 -> mod360 x = x + 360.
Proof.
  intros [H1 H2]. unfold mod360.
  rewrite (Zfloor_eq (-1) (x / 360)); [lra|].
  lra.
Qed.

(** X24.  The azimuth [calculate_solar_azimuth] returns is within
    [[0, 360)] for every timestamp.  On a clock time
    ([0 <= hour <= 23], [0 <= minute <= 59]) the azimuth from noon on
    is [180 + 15 * (hour + minute / 60 - 12)], at least 180; before
    noon it is below 90 or, before six o'clock, at least 270 - the
    model never reports an azimuth between 90 and 180, and it jumps
    from below 90 to 180 at noon. *)
Theorem solar_azimuth_range (self : t) (ts : datetime) :
  0 <= calculate_solar_azimuth self ts < 360 /\
  ((0 <= hour ts <= 23)%Z -> (0 <= minute ts <= 59)%Z ->
   ((12 <= hour ts)%Z ->
    calculate_solar_azimuth self ts
    = 180 + 15 * (IZR (hour ts) + IZR (minute ts) / 60 - 12) /\
    180 <= calculate_solar_azimuth self ts) /\
   ((hour ts < 12)%Z ->
    calculate_solar_azimuth self ts < 90 \/
    270 <= calculate_solar_azimuth self ts) /\
   ~ (90 <= calculate_solar_azimuth self ts < 180)).
Proof.
  split; [unfold calculate_solar_azimuth; cbv zeta; apply mod360_range|].
  intros Hh Hm.
  assert (Hh1 : 0 <= IZR (hour ts) <= 23) by (split; apply IZR_le; lia).
  assert (Hm1 : 0 <= IZR (minute ts) <= 59) by (split; apply IZR_le; lia).
  assert (Hnoon : (12 <= hour ts)%Z ->
            calculate_solar_azimuth self ts
            = 180 + 15 * (IZR (hour ts) + IZR (minute ts) / 60 - 12) /\
            180 <= calculate_solar_azimuth self ts).
  { intro H12. assert (12 <= IZR (hour ts)) by (apply IZR_le; lia).
    unfold calculate_solar_azimuth. cbv zeta.
    destruct (Rlt_dec (15 * (IZR (hour ts) + IZR (minute ts) / 60 - 12)) 0);
      [lra|].
    rewrite mod360_small; lra. }
  assert (Hmorning : (hour ts < 12)%Z ->
            calculate_solar_azimuth self ts < 90 \/
            270 <= calculate_solar_azimuth self ts).
  { intro H12. assert (IZR (hour ts) <= 11) by (apply IZR_le; lia).
    unfold calculate_solar_azimuth. cbv zeta.
    destruct (Rlt_dec (15 * (IZR (hour ts) + IZR (minute ts) / 60 - 12)) 0);
      [|lra].
    destruct (Rlt_dec (90 + 15 * (IZR (hour ts) + IZR (minute ts) / 60 - 12))
                0) as [Hneg|Hpos].
    - right. rewrite mod360_negative; lra.
    - left. rewrite mod360_small; lra. }
  split; [exact Hnoon|]. split; [exact Hmorning|].
  intros [H90 H180].
  destruct (Z_lt_le_dec (hour ts) 12) as [Hlt|Hge].
  - destruct (Hmorning Hlt); lra.
  - destruct (Hnoon Hge); lra.
Qed.

Lemma real_round_half_even_nonneg (x : R) :
  0 <= x -> (0 <= round_half_even x)%Z.
Proof.
  intro H. assert (Hf : (0 <= Zfloor x)%Z) by (apply Zfloor_lub; exact H).
  unfold round_half_even.
  destruct (Rlt_dec (x - IZR (Zfloor x)) (1 / 2)); [exact Hf|].
  destruct (Rlt_dec (1 / 2) (x - IZR (Zfloor x))); [lia|].
  destruct (Z.even (Zfloor x)); lia.
Qed.

Lemma real_py_round_nonneg (x : R) (n : nat) : 0 <= x -> 0 <= py_round x n.
Proof.
  intro H. unfold py_round.
  assert (Hp : 0 < 10 ^ n) by (apply pow_lt; lra).
  apply Rmult_le_pos; [|apply Rlt_le, Rinv_0_lt_compat; exact Hp].
  apply IZR_le. apply real_round_half_even_nonneg.
  apply Rmult_le_pos; lra.
Qed.

Lemma real_py_round_zero (n : nat) : py_round 0 n = 0.
Proof.
  unfold py_round. rewrite Rmult_0_l.
  assert (E : round_half_even 0 = 0%Z).
  { unfold round_half_even. rewrite (Zfloor_eq 0 0) by lra.
    destruct (Rlt_dec (0 - 0) (1 / 2)); [reflexivity|lra]. }
  rewrite E. unfold Rdiv. apply Rmult_0_l.
Qed.

Lemma py_max_0_nonneg (x : R) : 0 <= py_max 0 x.
Proof. unfold py_max. destruct (Rlt_dec 0 x); lra. Qed.

Lemma cloud_cover_range (d : Draws) : 0 <= get_cloud_cover d <= 1.
Proof.
  unfold get_cloud_cover, py_max, py_min. cbv zeta.
  repeat match goal with
         | |- context [Rlt_dec ?a ?b] => destruct (Rlt_dec a b)
         end; lra.
Qed.

Lemma solar_power_bounds_aux (self : t) (ts : datetime) (d : Draws) :
  0 <= calculate_power_output self ts None d /\
  (calculate_solar_elevation self ts <= 0 ->
   calculate_power_output self ts None d = 0).
Proof.
  unfold calculate_power_output. cbv zeta.
  destruct (Rle_dec (calculate_solar_elevation self ts) 0) as [Hn|Hp].
  - split; [lra|intros _; lra].
  - split; [apply real_py_round_nonneg, py_max_0_nonneg|intro; lra].
Qed.

(** X25.  The output [calculate_power_output] returns is never
    negative, and it is exactly zero when the sun is not above the
    horizon, whatever the cloud cover and the draws.  For admissible
    draws, a cloud cover within [[0, 1]] (the simulated one always is)
    and a peak power and an efficiency that are not negative, it is at
    most [1.03 * peak_power * efficiency], up to the half thousandth of
    the final rounding: the +-3 % variation can lift the output above
    the derated peak. *)
Theorem solar_power_bounds
    (self : t) (ts : datetime) (cloud_cover : option R) (d : Draws) :
  0 <= calculate_power_output self ts cloud_cover d /\
  (calculate_solar_elevation self ts <= 0 ->
   calculate_power_output self ts cloud_cover d = 0) /\
  (admissible d -> 0 <= peak_power self -> 0 <= efficiency self ->
   (forall c, cloud_cover = Some c -> 0 <= c <= 1) ->
   calculate_power_output self ts cloud_cover d
   <= 1.03 * peak_power self * efficiency self + 1 / 2000).
Proof.
  unfold calculate_power_output. cbv zeta.
  pose proof (elevation_range self ts) as [He1 He2].
  destruct (Rle_dec (calculate_solar_elevation self ts) 0) as [Hn|Hp].
  - split; [lra|]. split; [intros _; lra|].
    intros _ Hpk Hef _. nra.
  - split; [apply real_py_round_nonneg, py_max_0_nonneg|].
    split; [intro; lra|].
    intros Ha Hpk Hef Hcc.
    rewrite (temp_factor_one ts d Ha).
    assert (Hc : 0 <= match cloud_cover with
                      | Some c => c
                      | None => get_cloud_cover d
                      end <= 1).
    { destruct cloud_cover as [c|]; [apply Hcc; reflexivity
                                   |apply cloud_cover_range]. }
    revert Hc.
    generalize (match cloud_cover with
                | Some c => c
                | None => get_cloud_cover d
                end).
    intros c Hc.
    assert (Hs : 0 <= sin (radians (calculate_solar_elevation self ts)) <= 1).
    { split; [|apply SIN_bound].
      apply sin_ge_0; unfold radians; pose proof PI_RGT_0; nra. }
    revert Hs.
    generalize (sin (radians (calculate_solar_elevation self ts))).
    intros sn Hs.
    destruct Ha as (_ & _ & Hv).
    revert Hv. generalize (draw_variation d). intros v Hv.
    set (pk := peak_power self) in *. set (ef := efficiency self) in *.
    assert (Hpe : 0 <= pk * ef) by nra.
    assert (Hf : 0 <= sn * (1.0 - c * 0.8) <= 1) by nra.
    assert (Hx : 1000 * sn * (1.0 - c * 0.8) / 1000 * pk * 1.0 * ef * v
                 = (sn * (1.0 - c * 0.8)) * (pk * ef) * v) by lra.
    rewrite Hx.
    assert (Hy : 0 <= sn * (1.0 - c * 0.8) * (pk * ef) <= pk * ef) by nra.
    revert Hy. generalize (sn * (1.0 - c * 0.8) * (pk * ef)).
    intros y Hy.
    assert (Hyv : 0 <= y * v <= 1.03 * (pk * ef)) by nra.
    assert (Hm : py_max 0 (y * v) = y * v)
      by (unfold py_max; destruct (Rlt_dec 0 (y * v)); lra).
    rewrite Hm. pose proof (py_round3_error (y * v)). lra.
Qed.

(** X26.  [get_daily_production_curve] returns 24 entries, for the
    hours 0 to 23 in order, each computed at half past the hour of the
    given day; in every entry the power is not negative, and an entry
    that is not in daylight has a power of exactly zero and a reported
    elevation of zero, whatever was drawn for it. *)
Theorem solar_daily_curve (self : t) (date : datetime) (draws : Z -> Draws) :
  List.length (get_daily_production_curve self date draws) = 24%nat /\
  map ce_hour (get_daily_production_curve self date draws)
  = map Z.of_nat (seq 0 24) /\
  Forall
    (fun e =>
       ce_power_kw e
       = calculate_power_output self (replace_time date (ce_hour e)) None
           (draws (ce_hour e)) /\
       0 <= ce_power_kw e /\
       (ce_daylight e = false -> ce_power_kw e = 0 /\ ce_elevation e = 0) /\
       (0 < ce_power_kw e -> ce_daylight e = true))
    (get_daily_production_curve self date draws).
Proof.
  unfold get_daily_production_curve.
  split; [rewrite !List.length_map; apply List.length_seq|].
  split; [rewrite map_map; cbn [ce_hour]; reflexivity|].
  apply Forall_map. apply Forall_forall. intros h _. cbv zeta.
  cbn [ce_hour ce_power_kw ce_daylight ce_elevation].
  pose proof (solar_power_bounds_aux self (replace_time date h) (draws h))
    as (Hnn & Hnight).
  split; [reflexivity|]. split; [exact Hnn|].
  pose proof (elevation_range self (replace_time date h)) as [He _].
  destruct (Rlt_dec 0 (calculate_solar_elevation self (replace_time date h)))
    as [Hday|Hnot].
  - split; [discriminate|reflexivity].
  - assert (Hz : calculate_solar_elevation self (replace_time date h) = 0)
      by lra.
    split.
    + intros _. split; [apply Hnight; lra|].
      rewrite Hz. apply real_py_round_zero.
    + intro Hpos. rewrite Hnight in Hpos by lra. lra.
Qed.

End SolarMore.
(* ------------------------------------------------------------------ *)
(** * Further properties: register banks and orchestrator *)
(* ------------------------------------------------------------------ *)

Module ServerMore.
Import Registers Server ServerFacts.
Local Open Scope Q_scope.

(** [round] leaves a whole number as it is. *)
Lemma py_round_inject_Z (n : Z) (k : nat) :
  py_round (inject_Z n) k == inject_Z n.
Proof.
  unfold py_round. rewrite Qred_correct.
  pose proof (scale_pos k) as Hs.
  rewrite (round_half_even_comp (inject_Z n * inject_Z (10 ^ Z.of_nat k))
             (inject_Z (n * 10 ^ Z.of_nat k)))
    by (rewrite inject_Z_mult; reflexivity).
  rewrite round_half_even_inject_Z, inject_Z_mult.
  field. lra.
Qed.

(** [int(v)] of a number that is not negative, between two integers. *)
Lemma py_int_between (v : Q) (a b : Z) :
  0 <= v -> inject_Z a <= v -> v < inject_Z b + 1 ->
  (a <= py_int v <= b)%Z.
Proof.
  intros H0 Ha Hb. unfold py_int.
  destruct (Qleb_spec 0 v) as [_|Hneg]; [|lra].
  pose proof (Qfloor_le v) as Hf1. pose proof (Qlt_floor v) as Hf2.
  rewrite inject_Z_plus in Hf2. change (inject_Z 1) with 1 in Hf2.
  assert (H1 : (a < Qfloor v + 1)%Z).
  { rewrite Zlt_Qlt, inject_Z_plus. change (inject_Z 1) with 1. lra. }
  assert (H2 : (Qfloor v < b + 1)%Z).
  { rewrite Zlt_Qlt, inject_Z_plus. change (inject_Z 1) with 1. lra. }
  lia.
Qed.

(** X27.  Whatever integer they are given, both encoders produce two
    cells that are 16-bit register values, and the signed and the
    unsigned encoder produce the same two cells; two values are stored
    alike exactly when they agree modulo 2^32. *)
Theorem registers_are_words (v w : Z) :
  is_register (fst (_int32_to_registers v)) /\
  is_register (snd (_int32_to_registers v)) /\
  is_register (fst (_uint32_to_registers v)) /\
  is_register (snd (_uint32_to_registers v)) /\
  _int32_to_registers v = _uint32_to_registers v /\
  (_int32_to_registers v = _int32_to_registers w
   <-> (v mod 2 ^ 32 = w mod 2 ^ 32)%Z).
Proof.
  rewrite !int32_to_registers_cells, !uint32_to_registers_cells.
  unfold is_register. cbn [fst snd].
  change 0xFFFF%Z with 65535%Z.
  change (2 ^ 16)%Z with 65536%Z. change (2 ^ 32)%Z with 4294967296%Z.
  repeat split; try (Z.div_mod_to_equations; lia); try reflexivity.
  - intro H. injection H as H1 H2.
    Z.div_mod_to_equations; lia.
  - intro H. f_equal; Z.div_mod_to_equations; lia.
Qed.

(** X28.  The battery register bank after [update_battery_registers].
    Every field of the register map reads back as it was written - no
    later write of the method overwrites an earlier one, although the
    signed power field starts at the odd offset 1 - the registers from
    offset 13 on and the other three banks are left alone, and the
    status register is 0 below 50 W in either direction, 1 when
    charging and 2 when discharging. *)
Theorem battery_bank_read_back
    (solar : Z) (load : Q) (env : Env) (s s' : t) (data : BatteryData) :
  update_battery_registers solar load env s = (s', Ok data) ->
  (13 <= List.length (store_2 s))%nat ->
  let hr := store_2 s' in
  let b' := battery s' in
  List.length hr = List.length (store_2 s) /\
  nth 0 hr 0%Z = py_int (bd_soc data) /\
  nth 1 hr 0%Z = fst (_int32_to_registers (bd_power_w data)) /\
  nth 2 hr 0%Z = snd (_int32_to_registers (bd_power_w data)) /\
  nth 3 hr 0%Z = py_int (bd_voltage_v data * 10) /\
  nth 4 hr 0%Z = py_int (bd_current_a data * 10) /\
  nth 5 hr 0%Z = py_int (bd_temperature_c data * 10) /\
  nth 6 hr 0%Z = bd_status data /\
  nth 7 hr 0%Z
  = fst (_uint32_to_registers (py_int (Battery.capacity_kwh b' * 1000))) /\
  nth 8 hr 0%Z
  = snd (_uint32_to_registers (py_int (Battery.capacity_kwh b' * 1000))) /\
  nth 9 hr 0%Z
  = fst (_int32_to_registers
           (py_int (Battery._get_power_limit b' true * 1000))) /\
  nth 10 hr 0%Z
  = snd (_int32_to_registers
           (py_int (Battery._get_power_limit b' true * 1000))) /\
  nth 11 hr 0%Z
  = fst (_int32_to_registers
           (py_int (Battery._get_power_limit b' false * 1000))) /\
  nth 12 hr 0%Z
  = snd (_int32_to_registers
           (py_int (Battery._get_power_limit b' false * 1000))) /\
  (forall i, (13 <= i)%nat -> nth i hr 0%Z = nth i (store_2 s) 0%Z) /\
  store_1 s' = store_1 s /\ store_3 s' = store_3 s /\
  store_4 s' = store_4 s /\
  (bd_status data = 0%Z <-> (Z.abs (bd_power_w data) < 50)%Z) /\
  (bd_status data = 1%Z <-> (bd_power_w data <= - 50)%Z) /\
  (bd_status data = 2%Z <-> (50 <= bd_power_w data)%Z).
Proof.
  intros H Hlen. cbv zeta.
  unfold update_battery_registers in H. srv_simpl.
  destruct (Battery.update _ _ _ (battery s)) as [b1 [bst|e]] eqn:Eb;
    srv_simpl; [|discriminate H].
  pose proof (BatteryFacts.update_ok_shape _ _ _ _ _ _ Eb) as (_ & Hst & _).
  injection H as <- <-. srv_simpl.
  cbn [bd_soc bd_power_w bd_voltage_v bd_current_a bd_temperature_c bd_status].
  subst bst.
  cbn [Battery.get_status Battery.st_capacity_kwh
       Battery.st_max_charge_power_kw Battery.st_max_discharge_power_kw].
  remember (store_2 s) as hr eqn:Ehr. clear Ehr.
  do 13 (destruct hr as [|? hr]; [cbn [List.length] in Hlen; lia|]).
  unfold BATTERY_SOC_REG, BATTERY_POWER_REG, BATTERY_VOLTAGE_REG,
    BATTERY_CURRENT_REG, BATTERY_TEMP_REG, BATTERY_STATUS_REG,
    BATTERY_CAPACITY_REG, BATTERY_CHARGE_LIMIT_REG,
    BATTERY_DISCHARGE_LIMIT_REG, set_reg32.
  cbn [set_reg nth Nat.add List.length].
  repeat (split; [reflexivity|]).
  split.
  { intros i Hi. do 13 (destruct i as [|i]; [lia|]). reflexivity. }
  repeat (split; [reflexivity|]).
  set (pw := py_int _).
  destruct (Z.ltb_spec (Z.abs pw) 50) as [Hs|Hs];
    [|destruct (Z.ltb_spec pw 0) as [Hn|Hn]];
    repeat split; intros; try lia; try discriminate.
Qed.

Lemma battery_bank_read_back_witness :
  exists s' data,
    update_battery_registers 1234 800 sample_env sample_server
    = (s', Ok data) /\
    nth 0 (store_2 s') 0%Z = py_int (bd_soc data) /\
    nth 6 (store_2 s') 0%Z = bd_status data.
Proof.
  destruct (update_battery_registers 1234 800 sample_env sample_server)
    as [s' [data|e]] eqn:E.
  - assert (Hlen : (13 <= List.length (store_2 sample_server))%nat)
      by (vm_compute; lia).
    exists s', data. split; [reflexivity|].
    destruct (battery_bank_read_back 1234 800 sample_env sample_server
                s' data E Hlen) as (_ & A & _ & _ & _ & _ & _ & B & _).
    split; [exact A|exact B].
  - vm_compute in E. discriminate E.
Defined.

Section WithMath.
Context {ML : MathLib}.

Ltac tick_unfold :=
  unfold tick, tick_body, update_solar_registers, update_ev_registers,
    update_battery_registers, update_grid_registers, publish_telemetry in *;
  srv_simpl.

(** What an iteration that runs to its end has done. *)
Lemma tick_ok_shape (env : Env) (s s' : t) (tk : Tick) :
  tick_body env s = (s', Ok tk) ->
  exists x gst,
    env_solar env = Ok x /\
    sd_power_w (tm_solar (tk_telemetry tk)) = py_int x /\
    Grid.update (inject_Z (tk_net_grid_w tk)) (env_grid env) (grid s)
    = (grid s', Ok gst) /\
    gd_power_w (tm_grid (tk_telemetry tk)) = Grid.st_power_w gst /\
    tk_net_grid_w tk
    = py_int (base_load_w + ed_power_w (tm_ev (tk_telemetry tk))
              - inject_Z (sd_power_w (tm_solar (tk_telemetry tk)))
              - inject_Z (bd_power_w (tm_battery (tk_telemetry tk)))) /\
    published s'
    = (if mqtt_connected s
       then {| pub_telemetry := tk_telemetry tk;
               pub_home_consumption_w
               := _calculate_consumption (tk_telemetry tk) |}
            :: published s
       else published s) /\
    last_update s' = env_time_end env /\
    solar_energy_wh s'
    = solar_energy_wh s
      + inject_Z (py_int x) * ((env_time env - last_update s) / 3600.0) /\
    error_log s' = error_log s.
Proof.
  intro H. tick_unfold.
  destruct (env_solar env) as [x|e0] eqn:Esol; srv_simpl;
    [|discriminate H].
  destruct (EV.update (env_ev env) (ev s)) as [ev1 [est|e1]] eqn:Eev;
    srv_simpl; [|discriminate H].
  destruct (Battery.update _ _ _ (battery s)) as [b1 [bst|e2]] eqn:Eb;
    srv_simpl; [|discriminate H].
  destruct (Grid.update _ _ (grid s)) as [g1 [gst|e3]] eqn:Eg;
    srv_simpl; [|discriminate H].
  exists x, gst.
  destruct (mqtt_connected s); srv_simpl;
    injection H as <- <-; srv_simpl;
    cbn [gd_power_w]; repeat split; exact Eg.
Qed.

(** What every iteration, finished or not, does to the solar energy
    accumulator and to the clock reading it measures from. *)
Lemma tick_solar_energy (env : Env) (s : t) (x : Q) :
  env_solar env = Ok x ->
  solar_energy_wh (fst (tick env s))
  = solar_energy_wh s
    + inject_Z (py_int x) * ((env_time env - last_update s) / 3600.0) /\
  (snd (tick env s) = None -> last_update (fst (tick env s)) = last_update s).
Proof.
  intro Esol. tick_unfold. rewrite Esol. srv_simpl.
  destruct (EV.update (env_ev env) (ev s)) as [ev1 [est|e1]] eqn:Eev;
    srv_simpl; [|split; [reflexivity|intros _; reflexivity]].
  destruct (Battery.update _ _ _ (battery s)) as [b1 [bst|e2]] eqn:Eb;
    srv_simpl; [|split; [reflexivity|intros _; reflexivity]].
  destruct (Grid.update _ _ (grid s)) as [g1 [gst|e3]] eqn:Eg;
    srv_simpl; [|split; [reflexivity|intros _; reflexivity]].
  destruct (mqtt_connected s); srv_simpl;
    (split; [reflexivity|intro Hn; discriminate Hn]).
Qed.

(** X29.  The consumption figure published with the system status is
    the base load.  In an iteration that runs to its end with the MQTT
    client connected, exactly one record is published, and when the net
    power handed to the grid meter is within the meter's rating the
    [home_consumption_w] of that record is 799 or 800 W, whatever the
    sun, the battery and the charger do: the flows it is computed from
    were themselves derived from the fixed 800 W load. *)
Theorem published_consumption_is_base_load
    (env : Env) (s s' : t) (tk : Tick) :
  tick_body env s = (s', Ok tk) ->
  mqtt_connected s = true ->
  Qabs (inject_Z (tk_net_grid_w tk)) <= Grid.max_power_kw (grid s) * 1000 ->
  published s'
  = {| pub_telemetry := tk_telemetry tk;
       pub_home_consumption_w := _calculate_consumption (tk_telemetry tk) |}
    :: published s /\
  (799 <= _calculate_consumption (tk_telemetry tk) <= 800)%Z.
Proof.
  intros H Hm Hfit.
  destruct (tick_ok_shape env s s' tk H)
    as (x & gst & _ & _ & Eg & Hgd & Hnet & Hpub & _).
  rewrite Hm in Hpub. split; [exact Hpub|].
  pose proof (GridFacts.grid_update_returns_status _ _ _ _ _ Eg) as Hst.
  destruct (GridFacts.update_power (inject_Z (tk_net_grid_w tk)) (env_grid env)
              (grid s)) as [Hpw _].
  rewrite Eg in Hpw. unfold state_of in Hpw. cbn [fst] in Hpw.
  assert (Hg : gd_power_w (tm_grid (tk_telemetry tk))
               == inject_Z (tk_net_grid_w tk)).
  { rewrite Hgd, Hst. unfold Grid.get_status. cbn [Grid.st_power_w].
    rewrite (py_round_comp (Grid.power_w (grid s'))
               (inject_Z (tk_net_grid_w tk)) 1).
    - apply py_round_inject_Z.
    - rewrite Hpw. apply Qabs_Qle_condition in Hfit.
      apply py_clamp_inside; lra. }
  unfold _calculate_consumption. cbv zeta.
  pose proof (py_int_error
                (base_load_w + ed_power_w (tm_ev (tk_telemetry tk))
                 - inject_Z (sd_power_w (tm_solar (tk_telemetry tk)))
                 - inject_Z (bd_power_w (tm_battery (tk_telemetry tk)))))
    as Herr.
  rewrite <- Hnet in Herr. apply Qabs_Qlt_condition in Herr.
  unfold base_load_w in Herr.
  set (v := inject_Z (sd_power_w (tm_solar (tk_telemetry tk)))
            + inject_Z (bd_power_w (tm_battery (tk_telemetry tk)))
            + gd_power_w (tm_grid (tk_telemetry tk))
            - ed_power_w (tm_ev (tk_telemetry tk))) in *.
  assert (Hv : 799 < v /\ v < 801) by (unfold v; split; lra).
  assert (Hi : (799 <= py_int v <= 800)%Z).
  { apply py_int_between; [lra| |];
      [change (inject_Z 799) with 799|change (inject_Z 800) with 800]; lra. }
  lia.
Qed.

(** X30.  An iteration that fails books its solar energy twice.  The
    solar energy accumulator is advanced at the start of every
    iteration by the power times the time since [last_update], but
    [last_update] is advanced only at the end of an iteration that
    succeeds.  So after an iteration that failed at a later device, the
    next iteration measures its time step from the same [last_update]
    again, and the interval before the failed iteration enters the
    accumulator a second time. *)
Theorem failed_tick_recounts_solar_energy
    (env1 env2 : Env) (s : t) (x1 x2 : Q) :
  env_solar env1 = Ok x1 -> env_solar env2 = Ok x2 ->
  snd (tick env1 s) = None ->
  let s1 := fst (tick env1 s) in
  let s2 := fst (tick env2 s1) in
  last_update s1 = last_update s /\
  solar_energy_wh s1
  = solar_energy_wh s
    + inject_Z (py_int x1) * ((env_time env1 - last_update s) / 3600.0) /\
  solar_energy_wh s2
  = solar_energy_wh s
    + inject_Z (py_int x1) * ((env_time env1 - last_update s) / 3600.0)
    + inject_Z (py_int x2) * ((env_time env2 - last_update s) / 3600.0).
Proof.
  intros E1 E2 Hfail. cbv zeta.
  destruct (tick_solar_energy env1 s x1 E1) as [He1 Hl1].
  specialize (Hl1 Hfail).
  destruct (tick_solar_energy env2 (fst (tick env1 s)) x2 E2) as [He2 _].
  split; [exact Hl1|]. split; [exact He1|].
  rewrite He2, He1, Hl1. reflexivity.
Qed.

End WithMath.

Lemma published_consumption_is_base_load_witness :
  exists s' tk,
    tick_body (ML := decimal_math) sample_env
      (with_mqtt_connected true sample_server) = (s', Ok tk) /\
    (799 <= _calculate_consumption (tk_telemetry tk) <= 800)%Z.
Proof.
  destruct (tick_body (ML := decimal_math) sample_env
              (with_mqtt_connected true sample_server))
    as [s' [tk|e]] eqn:E.
  - assert (Hm : mqtt_connected (with_mqtt_connected true sample_server)
                 = true) by reflexivity.
    assert (Hfit : Qabs (inject_Z (tk_net_grid_w tk))
                   <= Grid.max_power_kw
                        (grid (with_mqtt_connected true sample_server))
                      * 1000).
    { vm_compute in E. injection E as _ <-. vm_compute. discriminate. }
    exists s', tk. split; [reflexivity|].
    apply (published_consumption_is_base_load (ML := decimal_math)
             sample_env _ s' tk E Hm Hfit).
  - vm_compute in E. discriminate E.
Defined.

Lemma failed_tick_recounts_solar_energy_witness :
  last_update
    (fst (tick (ML := decimal_math) sample_env zero_capacity_server))
  = last_update zero_capacity_server /\
  solar_energy_wh
    (fst (tick (ML := decimal_math) sample_env
            (fst (tick (ML := decimal_math) sample_env
                    zero_capacity_server))))
  = solar_energy_wh zero_capacity_server
    + inject_Z (py_int 1234.5)
      * ((env_time sample_env - last_update zero_capacity_server) / 3600.0)
    + inject_Z (py_int 1234.5)
      * ((env_time sample_env - last_update zero_capacity_server) / 3600.0).
Proof.
  assert (E : env_solar sample_env = Ok 1234.5) by reflexivity.
  assert (Hfail : snd (tick (ML := decimal_math) sample_env
                         zero_capacity_server) = None)
    by (vm_compute; reflexivity).
  destruct (failed_tick_recounts_solar_energy (ML := decimal_math)
              sample_env sample_env zero_capacity_server 1234.5 1234.5
              E E Hfail) as (A & _ & B).
  split; [exact A|exact B].
Defined.

End ServerMore.
